(** * pybm: the Git worktree wrapper ([pybm/git.py])

    A shallow embedding of [GitWorktreeWrapper] and of the context manager
    [git_worktree_context], with the properties of the command builder, the
    version guard, the listing parser and the create/remove operations.

    Conventions of the embedding.
    - A Python [str] is a [string]; an [ascii] stands for a code point below
      256.  Path semantics are those of [pathlib.PurePosixPath].
    - A Python [dict] is an association list in insertion order: the order of
      [kwargs] and of the table literals is the order of iteration.
    - A function that can raise returns a [result]; a method that talks to
      the external tool or prints is a state transformer of [M]: the state
      survives an exception, as it does in Python.
    - [logger.debug] calls are diagnostics without effect on results and are
      left out. *)

From Stdlib Require Import List String Ascii Bool Arith ZArith Lia Permutation.
From Stdlib Require Import DecimalString.
Import ListNotations.
Open Scope string_scope.
Open Scope list_scope.

(** ** Python values, exceptions, results *)

(** Values a caller can pass as a keyword argument (hashable scalars). *)
Inductive pyval : Type :=
| PyBool (b : bool)
| PyNone
| PyInt (z : Z)
| PyStr (s : string).

(** Python's [==] on these values; [True == 1] and [False == 0] hold, so an
    integer 0 or 1 finds the boolean key of a dict. *)
Definition py_eqb (a b : pyval) : bool :=
  match a, b with
  | PyBool x, PyBool y => Bool.eqb x y
  | PyBool x, PyInt z | PyInt z, PyBool x => Z.eqb z (if x then 1 else 0)%Z
  | PyNone, PyNone => true
  | PyInt x, PyInt y => Z.eqb x y
  | PyStr x, PyStr y => String.eqb x y
  | _, _ => false
  end.

Inductive exn : Type :=
| GitError (msg : string)
| KeyError (key : pyval)
| AssertionError (msg : string)
| IndexError
| ValueError
| ParseError.

Inductive result (A : Type) : Type :=
| OK (a : A)
| Raise (e : exn).
Arguments OK {A} a.
Arguments Raise {A} e.

Definition rbind {A B} (r : result A) (f : A -> result B) : result B :=
  match r with
  | OK a => f a
  | Raise e => Raise e
  end.

(** [lmap] over a function that can raise: the first exception wins. *)
Fixpoint lmap_r {A B} (f : A -> result B) (l : list A) : result (list B) :=
  match l with
  | [] => OK []
  | x :: l' =>
      match f x with
      | Raise e => Raise e
      | OK y =>
          match lmap_r f l' with
          | Raise e => Raise e
          | OK ys => OK (y :: ys)
          end
      end
  end.

(** ** Dictionaries *)

Definition dict (V : Type) : Type := list (string * V).

Fixpoint get {V} (k : string) (d : dict V) : option V :=
  match d with
  | [] => None
  | (k', v) :: d' => if String.eqb k k' then Some v else get k d'
  end.

(** Lookup in a dict whose keys are Python values ([cmd_opts[v]]). *)
Fixpoint pyget {V} (k : pyval) (d : list (pyval * V)) : option V :=
  match d with
  | [] => None
  | (k', v) :: d' => if py_eqb k k' then Some v else pyget k d'
  end.

(** ** Strings *)

Fixpoint startswith (p s : string) : bool :=
  match p, s with
  | EmptyString, _ => true
  | String a p', String b s' => Ascii.eqb a b && startswith p' s'
  | String _ _, EmptyString => false
  end.

(** [sep.join(l)] *)
Fixpoint join (sep : string) (l : list string) : string :=
  match l with
  | [] => ""
  | [x] => x
  | x :: l' => x ++ sep ++ join sep l'
  end.

(** [value in x] on strings: [value] occurs in [x] as a substring. *)
Fixpoint contains (value x : string) : bool :=
  startswith value x ||
  match x with
  | EmptyString => false
  | String _ x' => contains value x'
  end.

(** [x.replace(a, b)] for one-character [a] and [b]. *)
Fixpoint replace_char (a b : ascii) (x : string) : string :=
  match x with
  | EmptyString => EmptyString
  | String c x' => String (if Ascii.eqb c a then b else c) (replace_char a b x')
  end.

(** [x.split(sep)] for a one-character separator: never empty. *)
Fixpoint split_on (sep : ascii) (x : string) : list string :=
  match x with
  | EmptyString => [""]
  | String c x' =>
      if Ascii.eqb c sep then "" :: split_on sep x'
      else match split_on sep x' with
           | [] => [String c ""]
           | w :: ws => String c w :: ws
           end
  end.

(** [l[-1]] *)
Definition last_item (l : list string) : result string :=
  match l with
  | [] => Raise IndexError
  | _ => OK (last l "")
  end.

Definition code (c : ascii) : nat := nat_of_ascii c.

(** [str.isspace] on code points below 256. *)
Definition isspace (c : ascii) : bool :=
  let n := code c in
  (((9 <=? n) && (n <=? 13)) || ((28 <=? n) && (n <=? 32))
   || (n =? 133) || (n =? 160))%nat.

(** [x.split()]: maximal runs of non-whitespace characters. *)
Fixpoint split_ws_aux (cur : string) (x : string) : list string :=
  match x with
  | EmptyString => match cur with EmptyString => [] | _ => [cur] end
  | String c x' =>
      if isspace c
      then match cur with
           | EmptyString => split_ws_aux "" x'
           | _ => cur :: split_ws_aux "" x'
           end
      else split_ws_aux (cur ++ String c "") x'
  end.

Definition split_ws (x : string) : list string := split_ws_aux "" x.

(** Line boundaries of [str.splitlines] below 256, a CR LF pair apart. *)
Definition is_linebreak (c : ascii) : bool :=
  let n := code c in
  (((10 <=? n) && (n <=? 13)) || ((28 <=? n) && (n <=? 30)) || (n =? 133))%nat.

(** [x.splitlines()]; [after_cr] is set right after a carriage return, whose
    following line feed belongs to the same boundary. *)
Fixpoint splitlines_aux (after_cr : bool) (cur : string) (x : string)
  : list string :=
  match x with
  | EmptyString => match cur with EmptyString => [] | _ => [cur] end
  | String c x' =>
      if after_cr && (code c =? 10)%nat then splitlines_aux false cur x'
      else if is_linebreak c
      then cur :: splitlines_aux (code c =? 13)%nat "" x'
      else splitlines_aux false (cur ++ String c "") x'
  end.

Definition splitlines (x : string) : list string := splitlines_aux false "" x.

Definition str_of_nat (n : nat) : string :=
  NilZero.string_of_uint (Nat.to_uint n).

Definition hex_digit (n : nat) : ascii :=
  ascii_of_nat (if (n <? 10)%nat then 48 + n else 87 + n).

(** [repr] of a [str], on code points below 256: quoted with an apostrophe
    unless the text has an apostrophe and no double quote; backslash, the
    quote and control characters are escaped, unprintable characters are
    written as a two-digit hexadecimal escape. *)
Definition printable (n : nat) : bool :=
  (((32 <=? n) && (n <? 127)) || ((161 <=? n) && negb (n =? 173)))%nat.

Definition dquote : ascii := ascii_of_nat 34.

Definition repr_char (quote : ascii) (c : ascii) : string :=
  let n := code c in
  if Ascii.eqb c quote || (n =? 92)%nat then String "\" (String c "")
  else if (n =? 9)%nat then "\t"
  else if (n =? 10)%nat then "\n"
  else if (n =? 13)%nat then "\r"
  else if printable n then String c ""
  else "\x" ++ String (hex_digit (n / 16)) (String (hex_digit (n mod 16)) "").

Fixpoint has_char (a : ascii) (x : string) : bool :=
  match x with
  | EmptyString => false
  | String c x' => Ascii.eqb c a || has_char a x'
  end.

Fixpoint repr_body (quote : ascii) (x : string) : string :=
  match x with
  | EmptyString => ""
  | String c x' => repr_char quote c ++ repr_body quote x'
  end.

Definition repr (x : string) : string :=
  let quote := if has_char "'" x && negb (has_char dquote x)
               then dquote else "'"%char in
  String quote (repr_body quote x ++ String quote "").

Definition nl : string := String (ascii_of_nat 10) "".

(** [x.endswith(c)] for a one-character suffix, and [x[:-1]]. *)
Fixpoint endswith_char (c : ascii) (x : string) : bool :=
  match x with
  | EmptyString => false
  | String a EmptyString => Ascii.eqb a c
  | String _ x' => endswith_char c x'
  end.

Fixpoint drop_last (x : string) : string :=
  match x with
  | EmptyString => EmptyString
  | String _ EmptyString => EmptyString
  | String a x' => String a (drop_last x')
  end.

Definition upper (c : ascii) : ascii :=
  let n := code c in
  if ((97 <=? n) && (n <=? 122))%nat then ascii_of_nat (n - 32) else c.

Definition lower (c : ascii) : ascii :=
  let n := code c in
  if ((65 <=? n) && (n <=? 90))%nat then ascii_of_nat (n + 32) else c.

Fixpoint lower_all (x : string) : string :=
  match x with
  | EmptyString => EmptyString
  | String c x' => String (lower c) (lower_all x')
  end.

(** [x.capitalize()] on unaccented letters. *)
Definition capitalize (x : string) : string :=
  match x with
  | EmptyString => EmptyString
  | String c x' => String (upper c) (lower_all x')
  end.

(** ** Versions and the static tables *)

(** major, minor, micro *)
Definition VersionTuple : Type := (nat * nat * nat)%type.

(** Python's [<] on tuples of three integers: lexicographic. *)
Definition vt_ltb (a b : VersionTuple) : bool :=
  let '(a1, a2, a3) := a in
  let '(b1, b2, b3) := b in
  ((a1 <? b1) || ((a1 =? b1) && ((a2 <? b2) || ((a2 =? b2) && (a3 <? b3)))))%nat.

(** Modelled from the spec: the helper [version_string] of
    [pybm.util.common] is not under src/.  It renders the exact version
    string, the three numbers in decimal joined by dots. *)
Definition version_string (v : VersionTuple) : string :=
  let '(a, b, c) := v in
  join "." [str_of_nat a; str_of_nat b; str_of_nat c].

(** minimum git versions for worktree commands *)
Definition _git_worktree_versions : dict VersionTuple :=
  [ ("add", (2, 6, 7));
    ("list", (2, 7, 6));
    ("remove", (2, 17, 0)) ].

(** minimum git versions for worktree command options *)
Definition _git_option_versions : dict (dict VersionTuple) :=
  [ ("add", [ ("-f", (2, 6, 7));
              ("--checkout", (2, 9, 5));
              ("--no-checkout", (2, 9, 5));
              ("--lock", (2, 13, 7)) ]);
    ("list", [ ("--porcelain", (2, 7, 6)) ]);
    ("remove", [ ("-f", (2, 17, 0)) ]) ].

Definition flag_table : Type := list (pyval * option string).

Definition _git_worktree_flags : dict (dict flag_table) :=
  [ ("add", [ ("force", [ (PyBool true, Some "-f"); (PyBool false, None) ]);
              ("checkout", [ (PyBool true, None);
                             (PyBool false, Some "--no-checkout") ]);
              ("lock", [ (PyBool true, Some "--lock"); (PyBool false, None) ]) ]);
    ("list", [ ("porcelain", [ (PyBool true, Some "--porcelain");
                               (PyBool false, None) ]) ]);
    ("remove", [ ("force", [ (PyBool true, Some "-f"); (PyBool false, None) ]) ]) ].

(** [self.command_db] *)
Definition command_db : dict (dict flag_table) := _git_worktree_flags.

(** ** The command builder *)

Definition kwargs_t : Type := list (string * pyval).

(** The loop of [parse_flags] over [kwargs.items()], [flags] being the list
    built so far. *)
Fixpoint parse_flags_loop (command_options : dict flag_table)
  (kwargs : kwargs_t) (flags : list string) : result (list string) :=
  match kwargs with
  | [] => OK flags
  | (k, v) :: kwargs' =>
      match get k command_options with
      | None => parse_flags_loop command_options kwargs' flags
      | Some cmd_opts =>
          match pyget v cmd_opts with
          | None => Raise (KeyError v)
          | Some (Some flag) =>
              parse_flags_loop command_options kwargs' (flags ++ [flag])
          | Some None => parse_flags_loop command_options kwargs' flags
          end
      end
  end.

Definition parse_flags (command : string) (kwargs : kwargs_t)
  : result (list string) :=
  match get command command_db with
  | None => Raise (KeyError (PyStr command))
  | Some command_options => parse_flags_loop command_options kwargs []
  end.

Definition prepare_subprocess_args (command : string) (args : list string)
  (kwargs : kwargs_t) : result (list string) :=
  let call_args := ["git"; "worktree"; command] ++ args in
  rbind (parse_flags command kwargs) (fun flags => OK (call_args ++ flags)).

(** ** The version guard *)

(** The running triple of the guard's loop: the minimum version so far, and
    the offender with its type. *)
Definition guard_acc : Type := (VersionTuple * string * string)%type.

Definition guard_step (options : dict VersionTuple) (acc : guard_acc)
  (k : string) : guard_acc :=
  let '(min_version, offender, of_type) := acc in
  match get k options with
  | Some contender =>
      if vt_ltb min_version contender then (contender, k, "switch") else acc
  | None => acc
  end.

Definition guard_scan (wt_command : string) (min_version : VersionTuple)
  (options : dict VersionTuple) (rest : list string) : guard_acc :=
  fold_left (guard_step options) (filter (startswith "-") rest)
            (min_version, wt_command, "command").

(** The two sentences of the guard's error message. *)
Definition guard_requirement (command : list string)
  (installed min_version : VersionTuple) : string :=
  let full_command := join " " command in
  let minimum := version_string min_version in
  "Running the command " ++ repr full_command ++ " requires a "
  ++ "minimum git version of " ++ minimum ++ ", but your git version "
  ++ "was found to be only " ++ version_string installed ++ ". ".

Definition guard_reason (of_type offender : string)
  (min_version : VersionTuple) : string :=
  let minimum := version_string min_version in
  "This version requirement is because the " ++ of_type ++ " "
  ++ repr offender ++ " was used, which was first introduced in "
  ++ "git version " ++ minimum ++ ".".

Definition guard_message (command : list string) (installed : VersionTuple)
  (acc : guard_acc) : string :=
  let '(min_version, offender, of_type) := acc in
  guard_requirement command installed min_version
  ++ guard_reason of_type offender min_version.

Definition has_key {V} (k : string) (d : dict V) : bool :=
  match get k d with Some _ => true | None => false end.

(** [feature_guard]; [installed] is the value of [get_git_version()]. *)
Definition feature_guard (installed : VersionTuple) (command : list string)
  : result unit :=
  match skipn 2 command with
  | [] => Raise ValueError
  | wt_command :: rest =>
      if negb (has_key wt_command command_db)
      then Raise (AssertionError
                    ("unimplemented git worktree command " ++ repr wt_command))
      else
        match get wt_command _git_worktree_versions,
              get wt_command _git_option_versions with
        | Some min_version, Some options =>
            let acc := guard_scan wt_command min_version options rest in
            if vt_ltb installed (fst (fst acc))
            then Raise (GitError (guard_message command installed acc))
            else OK tt
        | _, _ => Raise (KeyError (PyStr wt_command))
        end
  end.

(** ** Paths ([pathlib.PurePosixPath]) *)

Record Path : Type := mkPath { anchor : string; parts : list string }.

Definition is_part (c : string) : bool :=
  negb (String.eqb c "") && negb (String.eqb c ".").

(** [Path(x)]: the root is kept, empty and dot components are dropped; two
    leading slashes (and no third) make the root of their own. *)
Definition path_of (x : string) : Path :=
  let root :=
    if startswith "///" x then "/"
    else if startswith "//" x then "//"
    else if startswith "/" x then "/"
    else "" in
  mkPath root (filter is_part (split_on "/" x)).

(** [p.name] *)
Definition name (p : Path) : string := last (parts p) "".

(** [p.parent] *)
Definition parent (p : Path) : Path := mkPath (anchor p) (removelast (parts p)).

(** [p / x] *)
Definition joinpath (p : Path) (x : string) : Path :=
  let q := path_of x in
  if String.eqb (anchor q) "" then mkPath (anchor p) (parts p ++ parts q)
  else q.

(** [str(p)] *)
Definition path_str (p : Path) : string :=
  match anchor p, parts p with
  | EmptyString, [] => "."
  | a, ps => a ++ join "/" ps
  end.

(** ** Worktree records *)

(** Modelled from the spec: the class [Worktree] of [pybm.specs] is not under
    src/.  A record holds the three data of one listing group: the root path,
    the commit id and the ref label. *)
Record Worktree : Type :=
  mkWorktree { root : string; commit : string; ref_label : string }.

(** Modelled from the spec: [Worktree.from_list] is not under src/.  A group
    of exactly three data items makes a record; a group that does not
    decompose into three is a parse error. *)
Definition from_list (wt_info : list string) : result Worktree :=
  match wt_info with
  | [r; c; b] => OK (mkWorktree r c b)
  | _ => Raise ParseError
  end.

(** Modelled from the spec: [getattr(wt, attr)] for the four attributes of
    the resolver; [branch] and [tag] both read the ref label. *)
Definition getattr (wt : Worktree) (attr : string) : string :=
  if String.eqb attr "root" then root wt
  else if String.eqb attr "commit" then commit wt
  else ref_label wt.

(** ** The external collaborators and the state *)

Section Wrapper.

(** The state of the external tool's metadata store. *)
Context {G : Type}.

(** What the wrapper consumes from outside: the installed version
    ([get_git_version]), the external executable (exit status, output stream
    and error stream of one invocation, and the store it leaves), the helpers
    of [pybm.util] and the configuration value
    [git.createWorktreeInParentDirectory]. *)
Record World : Type := mkWorld {
  get_git_version : VersionTuple;
  exec : list string -> G -> (Z * string * string) * G;
  current_folder : Path;
  is_main_worktree : Path -> bool;
  resolve_ref : string -> bool -> G -> result (string * string);
  disambiguate_info : string -> G -> option string;
  abbrev_home : string -> string;
  get_ref_and_type : Worktree -> string * string;
  create_in_parent : bool
}.

(** The store, the commands handed to the external executable so far, and
    what was printed. *)
Record State : Type := mkState {
  git : G;
  calls : list (list string);
  stdout : list string
}.

Definition M (A : Type) : Type := State -> result A * State.

Definition ret {A} (a : A) : M A := fun s => (OK a, s).

Definition raise {A} (e : exn) : M A := fun s => (Raise e, s).

Definition bind {A B} (m : M A) (f : A -> M B) : M B :=
  fun s =>
    match m s with
    | (OK a, s') => f a s'
    | (Raise e, s') => (Raise e, s')
    end.

Definition lift {A} (r : result A) : M A := fun s => (r, s).

Definition read {A} (f : G -> A) : M A := fun s => (OK (f (git s)), s).

(** [print(text, end=...)] *)
Definition print (text : string) : M unit :=
  fun s => (OK tt, mkState (git s) (calls s) (stdout s ++ [text])).

Definition when (b : bool) (m : M unit) : M unit := if b then m else ret tt.

End Wrapper.

Arguments World G : clear implicits.
Arguments State G : clear implicits.
Arguments M G A : clear implicits.

Notation "x <- m ;; k" := (bind m (fun x => k))
  (at level 61, m at next level, right associativity).
Notation "' pat <- m ;; k" :=
  (bind m (fun x => match x with pat => k end))
  (at level 61, pat pattern, m at next level, right associativity).
Notation "m ;;; k" := (bind m (fun _ => k))
  (at level 61, right associativity).

Section Methods.

Context {G : Type}.
Variable W : World G.

(** Modelled from the spec: [run_subprocess] of [pybm.util.subprocess] is not
    under src/.  It runs the command and blocks until it exits; a non-zero
    exit raises the requested exception type ([GitError] at every call of
    this module) with the captured error stream as its detail; otherwise the
    exit status and the output stream are returned. *)
Definition run_subprocess (command : list string) : M G (Z * string) :=
  fun s =>
    let '((rc, out, err), g) := exec W command (git s) in
    let s' := mkState g (calls s ++ [command]) (stdout s) in
    if Z.eqb rc 0 then (OK (rc, out), s') else (Raise (GitError err), s').

Definition run_command (wt_command : string) (args : list string)
  (kwargs : kwargs_t) : M G (Z * string) :=
  command <- lift (prepare_subprocess_args wt_command args kwargs) ;;
  lift (feature_guard (get_git_version W) command) ;;;
  run_subprocess command.

(** [range(0, stop, 3)] *)
Definition range3 (stop : nat) : list nat :=
  map (fun k => 3 * k) (seq 0 ((stop + 2) / 3)).

(** [[attr_list[i:i + 3] for i in range(0, len(attr_list), 3)]] *)
Definition wt_chunks (attr_list : list string) : list (list string) :=
  map (fun i => firstn 3 (skipn i attr_list)) (range3 (List.length attr_list)).

(** What [list_worktrees] does with the output of the listing. *)
Definition parse_listing (output : string) : result (list Worktree) :=
  let attr_list :=
    filter (fun x => negb (String.eqb x "")) (splitlines output) in
  rbind (lmap_r (fun x => last_item (split_ws x)) attr_list)
        (fun attr_list => lmap_r from_list (wt_chunks attr_list)).

Definition list_worktrees (porcelain : bool) : M G (list Worktree) :=
  r <- run_command "list" [] [("porcelain", PyBool porcelain)] ;;
  lift (parse_listing (snd r)).

Definition attr_checks (value : string) : dict (string -> bool) :=
  [ ("root", fun x => String.eqb (name (path_of x)) (name (path_of value)));
    ("commit", fun x => contains value x);
    ("branch", fun x => String.eqb (last (split_on "/" x) "") value);
    ("tag", fun x => String.eqb (last (split_on "/" x) "") value) ].

Definition get_worktree_by_attr (attr value : string) (verbose : bool)
  : M G (option Worktree) :=
  match get attr (attr_checks value) with
  | None => raise (AssertionError ("illegal worktree attribute " ++ repr attr))
  | Some match_ =>
      when verbose
        (print ("Matching git worktree with " ++ attr ++ " " ++ repr value
                ++ ".....")) ;;;
      wts <- list_worktrees true ;;
      match find (fun wt => match_ (getattr wt attr)) wts with
      | Some worktree =>
          when verbose
            (print ("success." ++ nl) ;;;
             let '(ref, ref_type) := get_ref_and_type W worktree in
             print ("Matched worktree pointing to " ++ ref_type ++ " "
                    ++ repr ref ++ "." ++ nl)) ;;;
          ret (Some worktree)
      | None =>
          when verbose (print ("failed." ++ nl)) ;;;
          ret None
      end
  end.

(** The context manager, as a combinator over the body of the [with]
    statement.  The generator's [except GitError] clause ends without raising
    again, so the manager's exit reports the exception as handled; any other
    exception passes through. *)
Definition git_worktree_context (action ref ref_type directory : string)
  (body : M G unit) : M G unit :=
  fun s =>
    let fmt_action := capitalize action in
    let fmt_action :=
      if endswith_char "e" fmt_action then drop_last fmt_action
      else fmt_action in
    let attr := if String.eqb action "create" then "new" else "existing" in
    let '(_, s1) :=
      print (fmt_action ++ "ing " ++ attr ++ " worktree for " ++ ref_type
             ++ " " ++ repr ref ++ " in location " ++ abbrev_home W directory
             ++ ".....") s in
    match body s1 with
    | (OK _, s2) =>
        let action := if endswith_char "e" action then action
                      else (action ++ "e")%string in
        (print ("done." ++ nl) ;;;
         print ("Successfully " ++ action ++ "d " ++ attr ++ " worktree for "
                ++ ref_type ++ " " ++ repr ref ++ " in location "
                ++ abbrev_home W directory ++ "." ++ nl)) s2
    | (Raise (GitError _), s2) => print ("failed." ++ nl) s2
    | (Raise e, s2) => (Raise e, s2)
    end.

(** [not destination]: [None] and the empty string are both omitted. *)
Definition omitted (destination : option string) : bool :=
  match destination with
  | None => true
  | Some d => String.eqb d ""
  end.

(** The destination [add_worktree] makes up when none is given. *)
Definition default_destination (current_directory : Path)
  (in_parent : bool) (commit_ish : string) : string :=
  let escaped := replace_char "/" "-" commit_ish in
  let worktree_id := join "@" [name current_directory; escaped] in
  let dest_dir := if in_parent then parent current_directory
                  else current_directory in
  path_str (joinpath dest_dir worktree_id).

Definition interpreting_message (commit_ish ref_type : string) : string :=
  "Interpreting given git reference " ++ repr commit_ish
  ++ " as a " ++ ref_type ++ " name." ++ nl.

Definition duplicate_message (ref_type commit_ish : string) : string :=
  "Worktree for " ++ ref_type ++ " " ++ repr commit_ish ++ " already exists. "
  ++ "If you want to check out the same " ++ ref_type ++ " "
  ++ "multiple times, supply the -f/--force option to "
  ++ "`pybm create`.".

Definition add_worktree (commit_ish : string) (destination : option string)
  (force checkout lock resolve_commits verbose : bool) : M G Worktree :=
  let current_directory := current_folder W in
  if negb (is_main_worktree W current_directory)
  then raise (GitError "No git repository present in this path.")
  else
    r <- read (resolve_ref W commit_ish resolve_commits) ;;
    '(ref, ref_type) <- lift r ;;
    when verbose (print (interpreting_message commit_ish ref_type)) ;;;
    dup <- (if force then ret false
            else wt <- get_worktree_by_attr ref_type ref false ;;
                 ret (match wt with Some _ => true | None => false end)) ;;
    if dup : bool then raise (GitError (duplicate_message ref_type commit_ish))
    else
      let destination :=
        if omitted destination
        then default_destination current_directory (create_in_parent W)
                                 commit_ish
        else match destination with Some d => d | None => "" end in
      git_worktree_context "add" ref ref_type destination
        (run_command "add" [destination; ref]
           [("force", PyBool force); ("checkout", PyBool checkout);
            ("lock", PyBool lock)] ;;; ret tt) ;;;
      wt <- get_worktree_by_attr "root" destination false ;;
      match wt with
      | None =>
          raise (AssertionError "internal error in git worktree construction")
      | Some wt => ret wt
      end.

Definition determined_message (info attr : string) : string :=
  "Given identifier " ++ repr info ++ " was determined to be "
  ++ "the " ++ repr attr ++ " attribute of the desired worktree." ++ nl.

Definition remove_worktree (info : string) (force verbose : bool)
  : M G Worktree :=
  if negb (is_main_worktree W (current_folder W))
  then raise (GitError "No git repository present in this path.")
  else
    attr <- read (disambiguate_info W info) ;;
    match attr with
    | None | Some EmptyString =>
        raise (GitError ("Argument " ++ repr info ++ " was not recognized as "
                         ++ "an attribute of an existing worktree."))
    | Some attr =>
        when verbose (print (determined_message info attr)) ;;;
        wt <- get_worktree_by_attr attr info verbose ;;
        match wt with
        | None =>
            raise (GitError ("Worktree with " ++ attr ++ " " ++ repr info
                             ++ " does not exist."))
        | Some wt =>
            let '(ref, ref_type) := get_ref_and_type W wt in
            let destination := root wt in
            git_worktree_context "remove" ref ref_type destination
              (run_command "remove" [destination] [("force", PyBool force)]
               ;;; ret tt) ;;;
            ret wt
        end
    end.

End Methods.

(** * Definitions used by the statements *)

(** The strict lexicographic order on triples, as a proposition. *)
Definition vt_lt (a b : VersionTuple) : Prop :=
  let '(a1, a2, a3) := a in
  let '(b1, b2, b3) := b in
  a1 < b1 \/ (a1 = b1 /\ (a2 < b2 \/ (a2 = b2 /\ a3 < b3))).

(** [vt_le a b]: [a] is not above [b]. *)
Definition vt_le (a b : VersionTuple) : Prop := vt_ltb b a = false.

(** The maximum of two versions in the lexicographic order. *)
Definition vt_max (a b : VersionTuple) : VersionTuple :=
  if vt_ltb a b then b else a.

(** The binding minimum in the spec's words: the maximum of the base version
    and of the versions of the recognized flags. *)
Definition max_version (base : VersionTuple) (vs : list VersionTuple)
  : VersionTuple := fold_left vt_max vs base.

(** The versions of the flags the guard recognizes among the tokens after
    the operation: those that start with a dash and are in the option table;
    the other tokens are passed over. *)
Definition recognized (options : dict VersionTuple) (rest : list string)
  : list VersionTuple :=
  flat_map (fun k => match get k options with Some v => [v] | None => [] end)
           (filter (startswith "-") rest).

(** The binding minimum version as the guard computes it. *)
Definition binding_minimum (command : list string) : option VersionTuple :=
  match skipn 2 command with
  | [] => None
  | wt_command :: rest =>
      match get wt_command _git_worktree_versions,
            get wt_command _git_option_versions with
      | Some min_version, Some options =>
          Some (fst (fst (guard_scan wt_command min_version options rest)))
      | _, _ => None
      end
  end.

(** The flag one keyword argument contributes, if any. *)
Definition emitted (command_options : dict flag_table) (kv : string * pyval)
  : list string :=
  match get (fst kv) command_options with
  | None => []
  | Some cmd_opts =>
      match pyget (snd kv) cmd_opts with
      | Some (Some flag) => [flag]
      | _ => []
      end
  end.

(** The value of a keyword argument is a key of its option's table (nothing
    is asked of an option the operation does not have). *)
Definition value_known (command_options : dict flag_table)
  (kv : string * pyval) : Prop :=
  forall cmd_opts, get (fst kv) command_options = Some cmd_opts ->
                   pyget (snd kv) cmd_opts <> None.

(** The builder in the spec's words: the options are visited in the
    declaration order of the operation's table, each looked up among the
    keyword arguments. *)
Definition parse_flags_table_order (command : string) (kwargs : kwargs_t)
  : result (list string) :=
  match get command command_db with
  | None => Raise (KeyError (PyStr command))
  | Some command_options =>
      OK (flat_map
            (fun entry : string * flag_table =>
               match get (fst entry) kwargs with
               | Some v => emitted command_options (fst entry, v)
               | None => []
               end)
            command_options)
  end.

(** One request, its two options given in either order. *)
Definition request_force_lock : kwargs_t :=
  [("force", PyBool true); ("lock", PyBool true)].

Definition request_lock_force : kwargs_t :=
  [("lock", PyBool true); ("force", PyBool true)].

Fixpoint no_linebreak (x : string) : bool :=
  match x with
  | EmptyString => true
  | String c x' => negb (is_linebreak c) && no_linebreak x'
  end.

(** A line of a listing: free of line boundaries, with a datum on it. *)
Definition wf_line (l : string) : Prop :=
  no_linebreak l = true /\ split_ws l <> [].

(** The datum of a line: its last whitespace-delimited token. *)
Definition datum (l : string) : string := last (split_ws l) "".

(** Lines, each ended by a newline. *)
Fixpoint unlines (ls : list string) : string :=
  match ls with
  | [] => ""
  | l :: ls' => l ++ nl ++ unlines ls'
  end.

(** A listing: groups of lines, a blank line after each group. *)
Fixpoint render_listing (groups : list (list string)) : string :=
  match groups with
  | [] => ""
  | g :: groups' => unlines g ++ nl ++ render_listing groups'
  end.

(** [x != ""] *)
Definition nonempty (x : string) : bool := negb (String.eqb x "").

(** The structural view of the slices of three. *)
Fixpoint chunks3 {A} (l : list A) : list (list A) :=
  match l with
  | a :: b :: c :: l' => [a; b; c] :: chunks3 l'
  | [] => []
  | _ => [l]
  end.

(** A scripted external tool for the examples: the listing it prints and
    what its add and remove operations answer are fixed, and the store is
    left alone. *)
Module Fixture.

Definition respond (listing : string) (add remove : Z * string * string)
  (command : list string) : Z * string * string :=
  match skipn 2 command with
  | op :: _ =>
      if String.eqb op "list" then (0%Z, listing, "")
      else if String.eqb op "add" then add
      else if String.eqb op "remove" then remove
      else (1%Z, "", "usage: git worktree")
  | [] => (1%Z, "", "usage: git worktree")
  end.

Definition scripted (installed : VersionTuple) (listing : string)
  (add remove : Z * string * string) : World unit :=
  mkWorld installed
    (fun command g => (respond listing add remove command, g))
    (path_of "/home/user/repo")
    (fun _ => true)
    (fun commit_ish _ _ => OK (commit_ish, "branch"))
    (fun _ _ => Some "branch")
    (fun directory => directory)
    (fun wt => (last (split_on "/" (ref_label wt)) "", "branch"))
    true.

Definition start : State unit := mkState tt [] [].

Definition done : Z * string * string := (0%Z, "", "").

(** A listing of two groups of three lines. *)
Definition two_groups : list (list string) :=
  [ [ "worktree /home/user/repo"; "HEAD 1f2e3d"; "branch refs/heads/main" ];
    [ "worktree /home/user/repo@dev"; "HEAD 4a5b6c";
      "branch refs/heads/dev" ] ].

(** A listing with a group of four lines (a locked worktree) and a group of
    two (a bare repository). *)
Definition four_and_two : list (list string) :=
  [ [ "worktree /home/user/repo@dev"; "HEAD 4a5b6c"; "branch refs/heads/dev";
      "locked" ];
    [ "worktree /home/user/bare"; "bare" ] ].

End Fixture.

(** The state with other printed text. *)
Definition with_stdout {G : Type} (s : State G) (out : list string)
  : State G :=
  mkState (git s) (calls s) out.

(** The tokens of the listing invocation. *)
Definition list_command : list string :=
  ["git"; "worktree"; "list"; "--porcelain"].

(** The predicate of each attribute, in the spec's words. *)
Definition attr_matches (attr value : string) (wt : Worktree) : bool :=
  if String.eqb attr "root"
  then String.eqb (name (path_of (root wt))) (name (path_of value))
  else if String.eqb attr "commit" then contains value (commit wt)
  else String.eqb (last (split_on "/" (ref_label wt)) "") value.

(** The attributes the resolver has a test for. *)
Definition known_attr (attr : string) : Prop :=
  attr = "root" \/ attr = "commit" \/ attr = "branch" \/ attr = "tag".

(** The tokens of the create invocation. *)
Definition add_command (destination ref : string)
  (force checkout lock : bool) : list string :=
  ["git"; "worktree"; "add"; destination; ref]
  ++ (if force then ["-f"] else [])
  ++ (if checkout then [] else ["--no-checkout"])
  ++ (if lock then ["--lock"] else []).

(** The tokens of the remove invocation. *)
Definition remove_command (destination : string) (force : bool)
  : list string :=
  ["git"; "worktree"; "remove"; destination]
  ++ (if force then ["-f"] else []).

(** The state in which [add_worktree] looks for a duplicate. *)
Definition announced {G : Type} (commit_ish ref_type : string)
  (verbose : bool) (s : State G) : State G :=
  if verbose
  then with_stdout s (stdout s ++ [interpreting_message commit_ish ref_type])
  else s.

(** The destination the create invocation gets. *)
Definition effective_destination {G : Type} (W : World G)
  (commit_ish : string) (destination : option string) : string :=
  if omitted destination
  then default_destination (current_folder W) (create_in_parent W) commit_ish
  else match destination with Some d => d | None => "" end.

(** Two scripted tools whose remove, respectively add, operation exits
    with a non-zero status. *)
Module Failing.

(** The remove operation refuses (a worktree with local changes, no force). *)
Definition refusing_remove : World unit :=
  Fixture.scripted (2, 30, 0) (render_listing Fixture.two_groups) Fixture.done
    (128%Z, "",
     ("fatal: '/home/user/repo@dev' contains modified or untracked files, "
      ++ "use --force to delete it")%string).

(** The add operation refuses (the destination exists already). *)
Definition refusing_add : World unit :=
  Fixture.scripted (2, 30, 0) (render_listing Fixture.two_groups)
    (128%Z, "", "fatal: '/home/user/wt' already exists") Fixture.done.

End Failing.

(** * Further definitions *)

(** [k in self.command_db[command]], false for an unknown operation. *)
Definition known_option (command k : string) : bool :=
  match get command command_db with
  | Some command_options => has_key k command_options
  | None => false
  end.

(** A line of output as [splitlines] and the filter leave it: free of line
    boundaries and not empty. *)
Definition plain_line (l : string) : Prop :=
  no_linebreak l = true /\ l <> ""%string.

(** A text without whitespace. *)
Fixpoint no_space (x : string) : bool :=
  match x with
  | EmptyString => true
  | String c x' => negb (isspace c) && no_space x'
  end.

(** * The virtual environment builder ([pybm/builders/stdlib.py])

    The context managers [action_context] and [pip_context] and the methods
    of [VenvBuilder] that only build a command, run it and read its output.
    State and errors are threaded as in the worktree wrapper, with the
    builder's own exception type.  The in-place growth of an option list
    passed by the caller ([options += ...]) is not part of the model. *)

Declare Scope builder_scope.

Module Builder.

(** [BuilderError], and any exception that is not one. *)
Inductive error : Type :=
| BuilderError (msg : string)
| OtherError (msg : string).

Inductive outcome (A : Type) : Type :=
| Done (a : A)
| Fail (e : error).
Arguments Done {A} a.
Arguments Fail {A} e.

(** Modelled from the constructor call in [create]: the class [PythonSpec]
    of [pybm.specs] is not under src/. *)
Record PythonSpec : Type := mkPythonSpec {
  spec_root : string;
  spec_executable : string;
  spec_version : string;
  spec_packages : list string
}.

(** The attributes [__init__] sets. *)
Record VenvBuilder : Type := mkVenvBuilder {
  venv_home : string;
  venv_options : list string;
  pip_install_options : list string;
  pip_uninstall_options : list string
}.

(** The option strings of the configuration, as [__init__] reads them: the
    empty string gives no option, any other one is split at its commas. *)
Definition parse_options (option_string : string) : list string :=
  if String.eqb option_string "" then [] else split_on "," option_string.

(** [__init__], given the four values [config.get_value] returns. *)
Definition init (homedir venvoptions pipinstalloptions
                 pipuninstalloptions : string) : VenvBuilder :=
  mkVenvBuilder homedir (parse_options venvoptions)
                (parse_options pipinstalloptions)
                (parse_options pipuninstalloptions).

Section Env.

(** The file system with the packages installed in it. *)
Context {F : Type}.

(** What the builder consumes from outside: the external executables, the
    exception type [run_subprocess] raises when none is given, the helper
    [abbrev_home], the attribute [wheel_caches] of the base class, the order
    in which a set of strings is iterated ([list(set(...))]), and the method
    [update_packages] of a spec. *)
Record World : Type := mkWorld {
  exec : list string -> F -> (Z * string * string) * F;
  default_ex_type : string -> error;
  abbrev_home : string -> string;
  wheel_caches : list string;
  list_set : list string -> list string;
  update_packages : PythonSpec -> list string -> PythonSpec
}.

Record State : Type := mkState {
  store : F;
  ran : list (list string);
  printed : list string
}.

Definition M (A : Type) : Type := State -> outcome A * State.

Definition ret {A} (a : A) : M A := fun s => (Done a, s).

Definition bind {A B} (m : M A) (f : A -> M B) : M B :=
  fun s =>
    match m s with
    | (Done a, s') => f a s'
    | (Fail e, s') => (Fail e, s')
    end.

Definition print (text : string) : M unit :=
  fun s => (Done tt, mkState (store s) (ran s) (printed s ++ [text])).

End Env.

Arguments World F : clear implicits.
Arguments State F : clear implicits.
Arguments M F A : clear implicits.

Notation "x <- m ;; k" := (bind m (fun x => k))
  (at level 61, m at next level, right associativity) : builder_scope.
Notation "m ;;; k" := (bind m (fun _ => k))
  (at level 61, right associativity) : builder_scope.

Local Open Scope builder_scope.

Section Methods.

Context {F : Type}.
Variable W : World F.

(** Modelled from the spec: [run_subprocess] of [pybm.util.subprocess] is
    not under src/.  A non-zero exit raises the exception type asked for,
    with the captured error stream as its detail. *)
Definition run_subprocess (command : list string) (ex_type : string -> error)
  : M F (Z * string) :=
  fun s =>
    let '((rc, out, err), f) := exec W command (store s) in
    let s' := mkState f (ran s ++ [command]) (printed s) in
    if Z.eqb rc 0 then (Done (rc, out), s') else (Fail (ex_type err), s').



(** [repr] of an optional string. *)
Definition repr_option (x : option string) : string :=
  match x with
  | None => "None"
  | Some x => repr x
  end.

(** What [pip_context] calls the resource. *)
Definition pip_resource (packages : option (list string))
  (requirements_file : option string) : string :=
  match packages with
  | None => "from requirements file " ++ repr_option requirements_file
  | Some packages => join ", " packages
  end.

(** The first line [pip_context] prints. *)
Definition pip_opening (action directory : string)
  (packages : option (list string)) (requirements_file : option string)
  : string :=
  let into_or_from := if String.eqb action "install" then "into" else "from" in
  capitalize action ++ "ing packages "
  ++ pip_resource packages requirements_file ++ " " ++ into_or_from
  ++ " virtual " ++ "environment in location " ++ directory ++ ".....".

Definition pip_context (action directory : string)
  (packages : option (list string)) (requirements_file : option string)
  (body : M F unit) : M F unit :=
  fun s =>
    let into_or_from :=
      if String.eqb action "install" then "into" else "from" in
    let '(_, s1) :=
      print (pip_opening action directory packages requirements_file) s in
    match body s1 with
    | (Done _, s2) =>
        (print ("done." ++ nl) ;;;
         print ("Successfully " ++ action ++ "ed packages "
                ++ pip_resource packages requirements_file ++ " "
                ++ into_or_from ++ " virtual " ++ "environment in location "
                ++ directory ++ "." ++ nl)) s2
    | (Fail (BuilderError msg), s2) =>
        (print ("failed." ++ nl) ;;;
         (fun s3 => (Fail (BuilderError msg), s3))) s2
    | (Fail e, s2) => (Fail e, s2)
    end.

(** [VenvBuilder.list] *)
Definition list_packages (executable : string) : M F (list string) :=
  let command := [executable; "-m"; "pip"; "list"; "--format=freeze"] in
  r <- run_subprocess command (default_ex_type W) ;;
  ret (splitlines (snd r)).

(** [x or []] *)
Definition or_empty (x : option (list string)) : list string :=
  match x with
  | Some l => l
  | None => []
  end.

(** The tokens [install] puts together. *)
Definition install_command (self : VenvBuilder) (executable : string)
  (packages : option (list string)) (requirements_file : option string)
  (pip_options : option (list string)) : list string :=
  let options := or_empty pip_options in
  let command := [executable; "-m"; "pip"; "install"] in
  let command :=
    match packages, requirements_file with
    | Some packages, _ => command ++ packages
    | None, Some requirements_file => command ++ ["-r"; requirements_file]
    | None, None => command
    end in
  let options := options ++ pip_install_options self in
  let options :=
    options ++ map (fun loc => "--find-links=" ++ loc)%string (wheel_caches W) in
  command ++ list_set W options.

(** [VenvBuilder.install]; the spec it has updated is returned. *)
Definition install (self : VenvBuilder) (spec : PythonSpec)
  (packages : option (list string)) (requirements_file : option string)
  (pip_options : option (list string)) : M F PythonSpec :=
  let executable := spec_executable spec in
  let command :=
    install_command self executable packages requirements_file pip_options in
  pip_context "install" (spec_root spec) packages requirements_file
    (run_subprocess command BuilderError ;;; ret tt) ;;;
  new_packages <- list_packages executable ;;
  ret (update_packages W spec new_packages).

(** The tokens [uninstall] puts together. *)
Definition uninstall_command (self : VenvBuilder) (executable : string)
  (packages : list string) (pip_options : option (list string))
  : list string :=
  let options := or_empty pip_options in
  let options := options ++ pip_uninstall_options self in
  let command := [executable; "-m"; "pip"; "uninstall"; "-y"] ++ packages in
  command ++ list_set W options.

(** [VenvBuilder.uninstall]; the spec it has updated is returned. *)
Definition uninstall (self : VenvBuilder) (spec : PythonSpec)
  (packages : list string) (requirements_file : option string)
  (pip_options : option (list string)) : M F PythonSpec :=
  let executable := spec_executable spec in
  let command := uninstall_command self executable packages pip_options in
  pip_context "uninstall" (spec_root spec) (Some packages) None
    (run_subprocess command (default_ex_type W) ;;; ret tt) ;;;
  new_packages <- list_packages executable ;;
  ret (update_packages W spec new_packages).

End Methods.

(** The iteration order of a set holds each element of the list once. *)
Definition set_order {F : Type} (W : World F) : Prop :=
  forall l, NoDup (list_set W l) /\ forall x, In x (list_set W l) <-> In x l.

(** A scripted pip for the examples: the answer depends on the fourth token
    alone, and a set is iterated in the order of the list, each element at
    its last occurrence. *)
Definition scripted (install_answer uninstall_answer : Z * string * string)
  (freeze : string) : World unit :=
  mkWorld
    (fun command f =>
       (match nth_error command 3 with
        | Some op =>
            if String.eqb op "list" then (0%Z, freeze, "")
            else if String.eqb op "install" then install_answer
            else uninstall_answer
        | None => (1%Z, "", "usage")
        end, f))
    OtherError
    (fun directory => directory)
    ["/var/cache/wheels"]
    (nodup string_dec)
    (fun spec packages =>
       mkPythonSpec (spec_root spec) (spec_executable spec)
                    (spec_version spec) packages).

Definition start : State unit := mkState tt [] [].

Definition example_spec : PythonSpec :=
  mkPythonSpec "/home/user/venv" "/home/user/venv/bin/python" "3.9.7" [].

End Builder.

(** * Properties *)

(** ** Versions: the order of the guard *)

Lemma vt_ltb_spec (a b : VersionTuple) : reflect (vt_lt a b) (vt_ltb a b).
Proof.
  apply iff_reflect.
  destruct a as [[a1 a2] a3], b as [[b1 b2] b3]; unfold vt_lt, vt_ltb.
  rewrite !Bool.orb_true_iff, !Bool.andb_true_iff, !Bool.orb_true_iff,
    !Bool.andb_true_iff, !Nat.ltb_lt, !Nat.eqb_eq.
  tauto.
Qed.

Ltac vt_prop :=
  repeat match goal with
    | H : vt_ltb ?a ?b = true |- _ =>
        destruct (vt_ltb_spec a b); [clear H | discriminate H]
    | H : vt_ltb ?a ?b = false |- _ =>
        destruct (vt_ltb_spec a b); [discriminate H | clear H]
    | |- context [vt_ltb ?a ?b] => destruct (vt_ltb_spec a b)
    end.

Ltac vt_lia :=
  vt_prop;
  repeat match goal with
    | v : VersionTuple |- _ => destruct v as [[? ?] ?]
    end;
  unfold vt_lt in *; simpl in *; try congruence; try lia.

Lemma vt_ltb_irrefl a : vt_ltb a a = false.
Proof. vt_lia. Qed.

Lemma vt_ltb_trans a b c :
  vt_ltb a b = true -> vt_ltb b c = true -> vt_ltb a c = true.
Proof. intros H1 H2. vt_lia. Qed.

Lemma vt_ltb_total a b : vt_ltb a b = false -> vt_ltb b a = false -> a = b.
Proof.
  intros H1 H2. vt_prop. destruct a as [[a1 a2] a3], b as [[b1 b2] b3].
  unfold vt_lt in *.
  assert (a1 = b1) by lia. assert (a2 = b2) by lia. assert (a3 = b3) by lia.
  congruence.
Qed.

Lemma vt_le_refl a : vt_le a a.
Proof. apply vt_ltb_irrefl. Qed.

Lemma vt_le_trans a b c : vt_le a b -> vt_le b c -> vt_le a c.
Proof. unfold vt_le. intros H1 H2. vt_lia. Qed.

Lemma vt_max_ge_l a b : vt_le a (vt_max a b).
Proof. unfold vt_le, vt_max. destruct (vt_ltb a b) eqn:E; vt_lia. Qed.

Lemma vt_max_ge_r a b : vt_le b (vt_max a b).
Proof. unfold vt_le, vt_max. destruct (vt_ltb a b) eqn:E; [vt_lia | exact E]. Qed.

Lemma max_version_ge_base vs : forall base, vt_le base (max_version base vs).
Proof.
  induction vs as [|v vs IH]; intros base; simpl.
  - apply vt_le_refl.
  - eapply vt_le_trans; [apply vt_max_ge_l | apply IH].
Qed.

Lemma max_version_upper vs :
  forall base v, In v vs -> vt_le v (max_version base vs).
Proof.
  induction vs as [|w vs IH]; intros base v Hin; simpl in *; [tauto|].
  destruct Hin as [->|Hin].
  - eapply vt_le_trans; [apply vt_max_ge_r | apply max_version_ge_base].
  - now apply IH.
Qed.

Lemma max_version_member vs :
  forall base, In (max_version base vs) (base :: vs).
Proof.
  induction vs as [|w vs IH]; intros base; simpl; [now left|].
  destruct (IH (vt_max base w)) as [H|H].
  - unfold vt_max in H at 1. destruct (vt_ltb base w); auto.
  - auto.
Qed.

Lemma guard_fold_max options ks :
  forall acc,
    fst (fst (fold_left (guard_step options) ks acc)) =
    max_version (fst (fst acc))
      (flat_map (fun k => match get k options with
                          | Some v => [v] | None => [] end) ks).
Proof.
  induction ks as [|k ks IH]; intros [[m o] t]; simpl; [reflexivity|].
  rewrite IH. unfold guard_step.
  destruct (get k options) as [v|]; simpl; [|reflexivity].
  unfold vt_max. destruct (vt_ltb m v); reflexivity.
Qed.

Lemma guard_scan_max wt_command base options rest :
  fst (fst (guard_scan wt_command base options rest)) =
  max_version base (recognized options rest).
Proof. unfold guard_scan. now rewrite guard_fold_max. Qed.

(** The three tables have the same operations. *)
Lemma known_operation wt_command :
  has_key wt_command command_db = true ->
  wt_command = "add" \/ wt_command = "list" \/ wt_command = "remove".
Proof.
  unfold has_key, command_db, _git_worktree_flags; simpl.
  destruct (String.eqb_spec wt_command "add"); [auto|].
  destruct (String.eqb_spec wt_command "list"); [auto|].
  destruct (String.eqb_spec wt_command "remove"); [auto|discriminate].
Qed.

Lemma known_operation_tables wt_command :
  has_key wt_command command_db = true ->
  exists base options,
    get wt_command _git_worktree_versions = Some base /\
    get wt_command _git_option_versions = Some options.
Proof.
  intros H. destruct (known_operation _ H) as [-> | [-> | ->]];
    simpl; eauto.
Qed.

Lemma feature_guard_known installed command wt_command rest :
  skipn 2 command = wt_command :: rest ->
  has_key wt_command command_db = true ->
  exists m, binding_minimum command = Some m /\
    feature_guard installed command =
    if vt_ltb installed m
    then Raise (GitError (guard_message command installed
            (match get wt_command _git_worktree_versions,
                   get wt_command _git_option_versions with
             | Some b, Some o => guard_scan wt_command b o rest
             | _, _ => ((0, 0, 0), "", "")
             end)))
    else OK tt.
Proof.
  intros Hs Hk. destruct (known_operation_tables _ Hk) as (b & o & Hb & Ho).
  unfold binding_minimum, feature_guard. rewrite Hs, Hk, Hb, Ho. simpl.
  eexists; split; reflexivity.
Qed.

Lemma versions_known wt_command base :
  get wt_command _git_worktree_versions = Some base ->
  has_key wt_command command_db = true.
Proof.
  unfold has_key, command_db, _git_worktree_flags; simpl.
  destruct (String.eqb wt_command "add"); [reflexivity|].
  destruct (String.eqb wt_command "list"); [reflexivity|].
  destruct (String.eqb wt_command "remove"); [reflexivity|discriminate].
Qed.

(** A command the builder has put together names a known operation right
    after the two leading tokens. *)
Lemma prepare_subprocess_args_shape wt_command args kwargs command :
  prepare_subprocess_args wt_command args kwargs = OK command ->
  has_key wt_command command_db = true /\
  exists flags, parse_flags wt_command kwargs = OK flags /\
    command = ["git"; "worktree"; wt_command] ++ args ++ flags.
Proof.
  unfold prepare_subprocess_args, rbind.
  destruct (parse_flags wt_command kwargs) as [flags|e] eqn:E; [|discriminate].
  intros [= <-]. split.
  - unfold parse_flags in E. unfold has_key.
    destruct (get wt_command command_db); [reflexivity|discriminate].
  - exists flags. split; reflexivity.
Qed.

(** C2. For a command built for a known operation, when the installed
    version is strictly below the binding minimum, [run_command] raises a
    [GitError] and leaves the state as it found it: nothing was handed to the
    external executable.  When the installed version is not below it, the
    guard raises nothing and the command is handed over. *)
Theorem run_command_version_guard {G : Type} (W : World G)
  (wt_command : string) (args : list string) (kwargs : kwargs_t)
  (command : list string) (s : State G) :
  prepare_subprocess_args wt_command args kwargs = OK command ->
  exists m, binding_minimum command = Some m /\
    (vt_ltb (get_git_version W) m = true ->
     exists msg,
       run_command W wt_command args kwargs s = (Raise (GitError msg), s) /\
       calls (snd (run_command W wt_command args kwargs s)) = calls s) /\
    (vt_ltb (get_git_version W) m = false ->
     feature_guard (get_git_version W) command = OK tt /\
     run_command W wt_command args kwargs s = run_subprocess W command s).
Proof.
  intros Hp.
  destruct (prepare_subprocess_args_shape _ _ _ _ Hp) as (Hk & flags & _ & Hc).
  assert (Hs : skipn 2 command = wt_command :: (args ++ flags))
    by (subst command; reflexivity).
  destruct (feature_guard_known (get_git_version W) _ _ _ Hs Hk)
    as (m & Hm & Hg).
  exists m. split; [exact Hm|].
  unfold run_command, bind, lift. rewrite Hp. split; intros Hv.
  - rewrite Hv in Hg. rewrite Hg. eexists. split; reflexivity.
  - rewrite Hv in Hg. rewrite Hg. split; reflexivity.
Qed.

(** C3. For the tokens of a known operation the binding minimum the guard
    computes is the maximum, in the lexicographic order, of the operation's
    base version and the versions of the recognized flags among the tokens
    (the others are passed over): it is one of them and none of them is above
    it.  An installed version equal to it, or above, passes the guard. *)
Theorem guard_binding_minimum_is_maximum (command : list string)
  (wt_command : string) (rest : list string) (base : VersionTuple)
  (options : dict VersionTuple) :
  skipn 2 command = wt_command :: rest ->
  get wt_command _git_worktree_versions = Some base ->
  get wt_command _git_option_versions = Some options ->
  let vs := recognized options rest in
  let m := max_version base vs in
  binding_minimum command = Some m /\
  In m (base :: vs) /\
  Forall (fun v => vt_le v m) (base :: vs) /\
  feature_guard m command = OK tt /\
  (forall installed, vt_le m installed ->
                     feature_guard installed command = OK tt).
Proof.
  intros Hs Hb Ho vs m.
  assert (Hm : binding_minimum command = Some m).
  { unfold binding_minimum. rewrite Hs, Hb, Ho.
    now rewrite guard_scan_max. }
  assert (Hpass : forall installed, vt_le m installed ->
                    feature_guard installed command = OK tt).
  { intros installed Hle.
    destruct (feature_guard_known installed _ _ _ Hs (versions_known _ _ Hb))
      as (m' & Hm' & Hg).
    rewrite Hm in Hm'. injection Hm' as <-.
    unfold vt_le in Hle.
    rewrite Hg.
    destruct (vt_ltb installed m) eqn:E; [|reflexivity].
    vt_lia. }
  split; [exact Hm|]. split; [apply max_version_member|].
  split.
  - constructor; [apply max_version_ge_base|].
    apply Forall_forall. intros v Hv. now apply max_version_upper.
  - split; [apply Hpass, vt_le_refl | exact Hpass].
Qed.

(** ** The command builder: order of the flags, unknown values *)

Lemma parse_flags_loop_flat command_options kwargs :
  Forall (value_known command_options) kwargs ->
  forall flags,
    parse_flags_loop command_options kwargs flags =
    OK (flags ++ flat_map (emitted command_options) kwargs).
Proof.
  induction 1 as [|[k v] kwargs Hkv _ IH]; intros flags; simpl.
  - now rewrite app_nil_r.
  - unfold emitted, value_known in *; simpl in *.
    destruct (get k command_options) as [cmd_opts|]; [|apply IH].
    specialize (Hkv _ eq_refl).
    destruct (pyget v cmd_opts) as [[flag|]|]; [| apply IH | congruence].
    rewrite IH. now rewrite <- app_assoc.
Qed.

(** The first keyword argument whose value is no key of its option's table
    stops the builder with a lookup error. *)
Lemma parse_flags_loop_unknown_value command_options before k v cmd_opts after :
  Forall (value_known command_options) before ->
  get k command_options = Some cmd_opts ->
  pyget v cmd_opts = None ->
  forall flags,
    parse_flags_loop command_options (before ++ (k, v) :: after) flags =
    Raise (KeyError v).
Proof.
  induction 1 as [|[k' v'] before Hkv _ IH]; intros Hk Hv flags; simpl.
  - now rewrite Hk, Hv.
  - unfold value_known in Hkv; simpl in Hkv.
    destruct (get k' command_options) as [t|]; [|now apply IH].
    specialize (Hkv _ eq_refl).
    destruct (pyget v' t) as [[flag|]|]; [now apply IH | now apply IH | congruence].
Qed.

(** C4, as stated, fails: the same two options given in two orders make two
    different flag sequences, each in the order of the call. *)
Lemma parse_flags_order_counterexample :
  Permutation request_force_lock request_lock_force /\
  parse_flags "add" request_force_lock = OK ["-f"; "--lock"] /\
  parse_flags "add" request_lock_force = OK ["--lock"; "-f"] /\
  parse_flags "add" request_force_lock <> parse_flags "add" request_lock_force /\
  parse_flags "add" request_lock_force <>
  parse_flags_table_order "add" request_lock_force.
Proof.
  split; [apply perm_swap|].
  repeat split; try reflexivity; vm_compute; discriminate.
Qed.

(** C4, amended. The flags follow the order in which the caller gave the
    options: the result is the flags of the recognized options, one after the
    other in the order of the keyword arguments.  The same options in another
    order give the same flags in the matching other order; and at the calls
    this module makes itself, which give the options in the order of the
    table, the result is the one of the table's declaration order. *)
Theorem parse_flags_follows_caller_order (command : string)
  (command_options : dict flag_table) (kwargs : kwargs_t) :
  get command command_db = Some command_options ->
  Forall (value_known command_options) kwargs ->
  parse_flags command kwargs = OK (flat_map (emitted command_options) kwargs) /\
  (forall kwargs', Permutation kwargs kwargs' ->
     exists flags',
       parse_flags command kwargs' = OK flags' /\
       Permutation (flat_map (emitted command_options) kwargs) flags') /\
  (forall force checkout lock porcelain : bool,
     parse_flags "add" [("force", PyBool force); ("checkout", PyBool checkout);
                        ("lock", PyBool lock)] =
     parse_flags_table_order "add"
       [("force", PyBool force); ("checkout", PyBool checkout);
        ("lock", PyBool lock)] /\
     parse_flags "list" [("porcelain", PyBool porcelain)] =
     parse_flags_table_order "list" [("porcelain", PyBool porcelain)] /\
     parse_flags "remove" [("force", PyBool force)] =
     parse_flags_table_order "remove" [("force", PyBool force)]).
Proof.
  intros Hc Hk. unfold parse_flags. rewrite Hc.
  split; [now rewrite parse_flags_loop_flat|].
  split.
  - intros kwargs' Hp. eexists. split.
    + rewrite parse_flags_loop_flat; [reflexivity|].
      eapply Permutation_Forall; eassumption.
    + simpl. now apply Permutation_flat_map.
  - intros [] [] [] []; repeat split; reflexivity.
Qed.

(** C4, amended, at the request that gives lock before force. *)
Lemma parse_flags_follows_caller_order_witness :
  parse_flags "add" request_lock_force =
  OK (flat_map (emitted
        [ ("force", [ (PyBool true, Some "-f"); (PyBool false, None) ]);
          ("checkout", [ (PyBool true, None);
                         (PyBool false, Some "--no-checkout") ]);
          ("lock", [ (PyBool true, Some "--lock"); (PyBool false, None) ]) ])
        request_lock_force).
Proof.
  apply (parse_flags_follows_caller_order "add" _ request_lock_force).
  - reflexivity.
  - repeat constructor; intros t [= <-]; discriminate.
Defined.

(** C10. An option of the table given a value that is no key of its
    value-to-flag table makes [parse_flags] raise the lookup error of the
    dict, neither dropping the flag nor reporting an error of the module's
    own: [force=None] for the add operation is such a case, and so is any
    such value of any recognized option. *)
Theorem parse_flags_unknown_value_raises :
  parse_flags "add" [("force", PyNone)] = Raise (KeyError PyNone) /\
  (exists command_options cmd_opts,
     get "add" command_db = Some command_options /\
     get "force" command_options = Some cmd_opts /\
     map fst cmd_opts = [PyBool true; PyBool false] /\
     pyget PyNone cmd_opts = None) /\
  (forall command command_options k v cmd_opts after,
     get command command_db = Some command_options ->
     get k command_options = Some cmd_opts ->
     pyget v cmd_opts = None ->
     parse_flags command ((k, v) :: after) = Raise (KeyError v)).
Proof.
  split; [reflexivity|]. split.
  - do 2 eexists. repeat split; reflexivity.
  - intros command command_options k v cmd_opts after Hc Hk Hv.
    unfold parse_flags. rewrite Hc.
    now apply (parse_flags_loop_unknown_value command_options [] k v cmd_opts).
Qed.

(** ** The guard's message: which offender it names *)

Lemma filter_positional_then_flag (args : list string) (k : string) :
  Forall (fun a => startswith "-" a = false) args ->
  filter (startswith "-") (args ++ [k]) = filter (startswith "-") [k].
Proof.
  induction 1 as [|a args Ha _ IH]; [reflexivity|].
  cbn [app filter]. rewrite Ha. exact IH.
Qed.

(** Every flag of the option tables starts with a dash. *)
Lemma option_flags_dashed op options k v :
  get op _git_option_versions = Some options ->
  get k options = Some v ->
  startswith "-" k = true.
Proof.
  intros Ho Hk. cbn [get _git_option_versions] in Ho.
  destruct (String.eqb op "add");
    [injection Ho as <-
    |destruct (String.eqb op "list");
       [injection Ho as <-
       |destruct (String.eqb op "remove");
          [injection Ho as <- | discriminate]]];
    cbn [get] in Hk;
    repeat match type of Hk with
      | context [String.eqb k ?b] =>
          destruct (String.eqb_spec k b); [subst; reflexivity|]
      end; discriminate.
Qed.

(** C5, as stated, fails: git 2.5.0 is older than the version the force flag
    of the add operation needs, and the message names the operation as the
    command, not the flag as a switch. *)
Lemma guard_message_counterexample :
  get "-f" [ ("-f", (2, 6, 7)); ("--checkout", (2, 9, 5));
             ("--no-checkout", (2, 9, 5)); ("--lock", (2, 13, 7)) ]
  = Some (2, 6, 7) /\
  vt_ltb (2, 5, 0) (2, 6, 7) = true /\
  feature_guard (2, 5, 0) ["git"; "worktree"; "add"; "d"; "r"; "-f"] =
  Raise (GitError
    ("Running the command 'git worktree add d r -f' requires a minimum git "
     ++ "version of 2.6.7, but your git version was found to be only 2.5.0. "
     ++ "This version requirement is because the command 'add' was used, "
     ++ "which was first introduced in git version 2.6.7.")) /\
  (forall msg,
     feature_guard (2, 5, 0) ["git"; "worktree"; "add"; "d"; "r"; "-f"] =
     Raise (GitError msg) ->
     contains "switch" msg = false /\ contains "'-f'" msg = false).
Proof.
  split; [reflexivity|]. split; [reflexivity|]. split; [reflexivity|].
  intros msg H. vm_compute in H. injection H as <-. split; reflexivity.
Qed.

Ltac flag_case :=
  let H := fresh "H" in
  let Hop := fresh "Hop" in
  let Hfl := fresh "Hfl" in
  intros [= <-]; simpl;
  split;
  [ intros H; first [reflexivity | discriminate H]
  | split;
    [ intros H; first [discriminate H | (split; [reflexivity | auto])]
    | intros [Hop Hfl];
      first [ reflexivity
            | discriminate Hop
            | (destruct Hfl as [Hfl|[Hfl|Hfl]]; discriminate Hfl) ] ] ].

(** C5, amended. For every operation and every flag of its option table
    whose minimum version is above the installed one, the command with that
    one flag is refused, and the message ends with the flag's own minimum
    version string.  It names the flag as the switch when the flag's minimum
    is strictly above the operation's: the checkout, no-checkout and lock
    flags of the add operation.  When the two are equal (the force flag of
    add and remove, the porcelain flag of list) it names the operation, as
    the command. *)
Theorem single_flag_guard_message (op : string) (base : VersionTuple)
  (options : dict VersionTuple) (k : string) (v : VersionTuple)
  (args : list string) (installed : VersionTuple) :
  get op _git_worktree_versions = Some base ->
  get op _git_option_versions = Some options ->
  get k options = Some v ->
  Forall (fun a => startswith "-" a = false) args ->
  vt_ltb installed v = true ->
  let command := ["git"; "worktree"; op] ++ args ++ [k] in
  let strictly := vt_ltb base v in
  feature_guard installed command =
  Raise (GitError
           (guard_requirement command installed v
            ++ guard_reason (if strictly then "switch" else "command")
                            (if strictly then k else op) v)) /\
  (strictly = false -> base = v) /\
  (strictly = true <->
   op = "add" /\ (k = "--checkout" \/ k = "--no-checkout" \/ k = "--lock")).
Proof.
  intros Hb Ho Hk Hargs Hv command strictly.
  assert (Hscan : guard_scan op base options (args ++ [k]) =
                  if strictly then (v, k, "switch") else (base, op, "command")).
  { unfold guard_scan. rewrite (filter_positional_then_flag args k Hargs).
    assert (Hd : startswith "-" k = true)
      by (eapply option_flags_dashed; eassumption).
    cbn [filter]. rewrite Hd. cbn [fold_left]. unfold guard_step.
    rewrite Hk. reflexivity. }
  assert (Hcases :
    (strictly = false -> base = v) /\
    (strictly = true <->
     op = "add" /\ (k = "--checkout" \/ k = "--no-checkout" \/ k = "--lock"))).
  { subst strictly. revert Hb Ho Hk.
    unfold _git_worktree_versions, _git_option_versions.
    cbn [get].
    destruct (String.eqb_spec op "add") as [->|Hadd];
      [|destruct (String.eqb_spec op "list") as [->|Hlist];
        [|destruct (String.eqb_spec op "remove") as [->|Hrem];
          [|discriminate]]];
      intros [= <-] [= <-]; cbn [get];
      repeat match goal with
        | |- context [String.eqb k ?b] =>
            destruct (String.eqb_spec k b); [subst k; flag_case|]
        end; discriminate. }
  split; [|exact Hcases].
  unfold feature_guard. subst command.
  change (skipn 2 (["git"; "worktree"; op] ++ args ++ [k]))
    with (op :: args ++ [k]).
  cbv iota beta. rewrite (versions_known _ _ Hb), Hb, Ho. cbn [negb].
  rewrite Hscan. destruct Hcases as [Heq _].
  destruct strictly eqn:Es; simpl fst.
  - rewrite Hv. reflexivity.
  - rewrite (Heq eq_refl), Hv. reflexivity.
Qed.

(** C5, amended, at the lock flag of the add operation under git 2.9.0. *)
Lemma single_flag_guard_message_witness :
  feature_guard (2, 9, 0) (["git"; "worktree"; "add"] ++ ["d"; "r"] ++ ["--lock"]) =
  Raise (GitError
           (guard_requirement (["git"; "worktree"; "add"] ++ ["d"; "r"] ++ ["--lock"])
                              (2, 9, 0) (2, 13, 7)
            ++ guard_reason "switch" "--lock" (2, 13, 7))).
Proof.
  apply (single_flag_guard_message "add" (2, 6, 7)
           [ ("-f", (2, 6, 7)); ("--checkout", (2, 9, 5));
             ("--no-checkout", (2, 9, 5)); ("--lock", (2, 13, 7)) ]
           "--lock" (2, 13, 7) ["d"; "r"] (2, 9, 0));
    try reflexivity.
  repeat constructor.
Defined.

(** ** The listing parser *)

Lemma append_nil_r (s : string) : (s ++ "")%string = s.
Proof. induction s as [|c s IH]; simpl; [reflexivity | now rewrite IH]. Qed.

Lemma append_assoc (a b c : string) :
  ((a ++ b) ++ c)%string = (a ++ b ++ c)%string.
Proof. induction a as [|x a IH]; simpl; [reflexivity | now rewrite IH]. Qed.

Lemma splitlines_aux_line (l : string) :
  no_linebreak l = true ->
  forall cur rest,
    splitlines_aux false cur (l ++ nl ++ rest) =
    (cur ++ l)%string :: splitlines_aux false "" rest.
Proof.
  induction l as [|c l IH]; intros Hl cur rest.
  - simpl. now rewrite append_nil_r.
  - simpl in Hl. apply andb_prop in Hl as [Hc Hl].
    apply negb_true_iff in Hc.
    cbn [append splitlines_aux andb]. rewrite Hc.
    rewrite (IH Hl). now rewrite append_assoc.
Qed.

Lemma wf_line_nonempty l : wf_line l -> nonempty l = true.
Proof.
  intros [_ H]. destruct l; [now contradiction H | reflexivity].
Qed.

Lemma splitlines_unlines (ls : list string) (rest : string) :
  Forall wf_line ls ->
  filter nonempty (splitlines_aux false "" (unlines ls ++ rest)) =
  ls ++ filter nonempty (splitlines_aux false "" rest).
Proof.
  induction 1 as [|l ls Hl _ IH]; [reflexivity|].
  cbn [unlines]. rewrite !append_assoc.
  rewrite splitlines_aux_line by apply Hl.
  cbn [append filter]. rewrite (wf_line_nonempty _ Hl).
  now rewrite IH.
Qed.

(** Blank lines only separate: the data lines of a listing are the lines of
    its groups, one group after the other. *)
Lemma listing_lines (groups : list (list string)) :
  Forall (Forall wf_line) groups ->
  filter nonempty (splitlines (render_listing groups)) = List.concat groups.
Proof.
  unfold splitlines.
  induction 1 as [|g groups Hg _ IH]; [reflexivity|].
  cbn [render_listing List.concat].
  rewrite splitlines_unlines by exact Hg.
  pose proof (splitlines_aux_line "" eq_refl "" (render_listing groups)) as E.
  cbn [append] in E. rewrite E. cbn [filter nonempty String.eqb negb].
  now rewrite IH.
Qed.

Lemma lmap_r_datum (ls : list string) :
  Forall wf_line ls ->
  lmap_r (fun x => last_item (split_ws x)) ls = OK (map datum ls).
Proof.
  induction 1 as [|l ls [_ Hl] _ IH]; [reflexivity|].
  cbn [lmap_r map]. rewrite IH. unfold last_item, datum.
  destruct (split_ws l); [now contradiction Hl | reflexivity].
Qed.

Lemma range3_step (n : nat) :
  range3 (S (S (S n))) = 0 :: map (fun i => i + 3) (range3 n).
Proof.
  unfold range3.
  replace ((S (S (S n)) + 2) / 3) with (S ((n + 2) / 3)).
  - cbn [seq map]. f_equal. rewrite <- seq_shift, !map_map.
    apply map_ext. intros k. lia.
  - replace (S (S (S n)) + 2) with (1 * 3 + (n + 2)) by lia.
    rewrite Nat.div_add_l by lia. lia.
Qed.

Lemma wt_chunks_step a b c (l : list string) :
  wt_chunks (a :: b :: c :: l) = [a; b; c] :: wt_chunks l.
Proof.
  unfold wt_chunks. cbn [List.length]. rewrite range3_step.
  cbn [map skipn firstn]. f_equal. rewrite map_map. apply map_ext.
  intros i. replace (i + 3) with (S (S (S i))) by lia. reflexivity.
Qed.

Lemma wt_chunks_structural (l : list string) : wt_chunks l = chunks3 l.
Proof.
  assert (H : forall n (l : list string), List.length l <= n ->
                wt_chunks l = chunks3 l).
  { induction n as [n IH] using lt_wf_ind. intros l0 Hn.
    destruct l0 as [|a [|b [|c l0]]]; try reflexivity.
    rewrite wt_chunks_step. cbn [chunks3]. f_equal.
    apply (IH (List.length l0)); simpl in *; lia. }
  now apply (H (List.length l)).
Qed.

Lemma chunks3_map {A B} (f : A -> B) (l : list A) :
  chunks3 (map f l) = map (map f) (chunks3 l).
Proof.
  assert (H : forall n (l : list A), List.length l <= n ->
                chunks3 (map f l) = map (map f) (chunks3 l)).
  { induction n as [n IH] using lt_wf_ind. intros l0 Hn.
    destruct l0 as [|a [|b [|c l0]]]; try reflexivity.
    cbn [map chunks3]. f_equal.
    apply (IH (List.length l0)); simpl in *; lia. }
  now apply (H (List.length l)).
Qed.

Lemma chunks3_concat {A} (groups : list (list A)) :
  Forall (fun g => List.length g = 3) groups ->
  chunks3 (List.concat groups) = groups.
Proof.
  induction 1 as [|g groups Hg _ IH]; [reflexivity|].
  destruct g as [|a [|b [|c [|d g]]]]; try discriminate Hg.
  cbn [List.concat app chunks3]. now rewrite IH.
Qed.

(** The slices of a sequence of [3 * n] data make [n] records; one or two
    data left over make a last slice that is no record. *)
Lemma from_list_chunks (n : nat) :
  forall data : list string,
    (List.length data = 3 * n ->
     exists wts, lmap_r from_list (chunks3 data) = OK wts /\
                 List.length wts = n /\
                 List.concat (map (fun wt => [root wt; commit wt; ref_label wt]) wts)
                 = data) /\
    (List.length data = 3 * n + 1 \/ List.length data = 3 * n + 2 ->
     lmap_r from_list (chunks3 data) = Raise ParseError).
Proof.
  induction n as [|n IH]; intros data.
  - split.
    + destruct data; [|discriminate]. intros _. exists []. now repeat split.
    + destruct data as [|a [|b [|c data]]]; simpl; intros [H|H];
        try discriminate H; reflexivity.
  - destruct data as [|a [|b [|c data]]];
      try (split; [intros H | intros [H|H]]; simpl in H; lia).
    destruct (IH data) as [IH1 IH2]. cbn [chunks3 lmap_r from_list]. split.
    + intros H. destruct IH1 as (wts & -> & Hlen & Hdata);
        [simpl in H; lia|].
      exists (mkWorktree a b c :: wts). repeat split.
      * simpl. now rewrite Hlen.
      * simpl. now rewrite Hdata.
    + intros H. rewrite IH2; [reflexivity | simpl in H; lia].
Qed.

Lemma parse_listing_render (groups : list (list string)) :
  Forall (Forall wf_line) groups ->
  parse_listing (render_listing groups) =
  lmap_r from_list (chunks3 (map datum (List.concat groups))).
Proof.
  intros Hg. unfold parse_listing.
  change (fun x : string => negb (String.eqb x "")) with nonempty.
  rewrite (listing_lines groups Hg).
  rewrite lmap_r_datum.
  - cbn [rbind]. now rewrite wt_chunks_structural.
  - apply Forall_concat. exact Hg.
Qed.

Lemma from_list_triples (groups : list (list string)) :
  Forall (fun g => List.length g = 3) groups ->
  exists wts,
    lmap_r from_list groups = OK wts /\
    map (fun wt => [root wt; commit wt; ref_label wt]) wts = groups.
Proof.
  induction 1 as [|g groups Hg _ (wts & IH & Hm)]; [now exists []|].
  destruct g as [|a [|b [|c [|d g]]]]; try discriminate Hg.
  exists (mkWorktree a b c :: wts). cbn [lmap_r from_list]. rewrite IH.
  split; [reflexivity|]. simpl. now rewrite Hm.
Qed.

Lemma list_worktrees_parses {G : Type} (W : World G) (porcelain : bool)
  (rc : Z) (output : string) (s s' : State G) :
  run_command W "list" [] [("porcelain", PyBool porcelain)] s
  = (OK (rc, output), s') ->
  list_worktrees W porcelain s = (parse_listing output, s').
Proof. intros H. unfold list_worktrees, bind. now rewrite H. Qed.

(** C6, as stated, fails: a listing whose groups have four and two data
    items is parsed into two records, the second made of the leftovers; no
    parse error is raised. *)
Lemma list_worktrees_counterexample :
  map (@List.length string) Fixture.four_and_two = [4; 2] /\
  fst (list_worktrees
         (Fixture.scripted (2, 30, 0) (render_listing Fixture.four_and_two)
                           Fixture.done Fixture.done)
         true Fixture.start) =
  OK [ mkWorktree "/home/user/repo@dev" "4a5b6c" "refs/heads/dev";
       mkWorktree "locked" "/home/user/bare" "bare" ].
Proof. split; reflexivity. Qed.

(** C6, amended. For a listing of N groups of three well-formed lines,
    [list_worktrees] returns N records in the order of the listing, each with
    the data of its group.  The data lines are taken across the groups and
    cut in threes: whenever their total number is a multiple of three the
    result is that many records, whatever the sizes of the groups, and a
    parse error is raised exactly when one or two data lines are left
    over. *)
Theorem list_worktrees_groups {G : Type} (W : World G) (porcelain : bool)
  (groups : list (list string)) (rc : Z) (s s' : State G) :
  Forall (Forall wf_line) groups ->
  run_command W "list" [] [("porcelain", PyBool porcelain)] s
  = (OK (rc, render_listing groups), s') ->
  let data := map datum (List.concat groups) in
  (Forall (fun g => List.length g = 3) groups ->
   exists wts,
     list_worktrees W porcelain s = (OK wts, s') /\
     List.length wts = List.length groups /\
     map (fun wt => [root wt; commit wt; ref_label wt]) wts
     = map (map datum) groups) /\
  (forall n, List.length data = 3 * n ->
     exists wts,
       list_worktrees W porcelain s = (OK wts, s') /\
       List.length wts = n /\
       List.concat (map (fun wt => [root wt; commit wt; ref_label wt]) wts)
       = data) /\
  (List.length data mod 3 <> 0 ->
   list_worktrees W porcelain s = (Raise ParseError, s')).
Proof.
  intros Hg Hrun data.
  rewrite (list_worktrees_parses W porcelain rc _ s s' Hrun).
  rewrite (parse_listing_render groups Hg). fold data.
  split; [|split].
  - intros H3. subst data. rewrite chunks3_map, (chunks3_concat groups H3).
    destruct (from_list_triples (map (map datum) groups)) as (wts & E & Hm).
    { apply Forall_map. eapply Forall_impl; [|exact H3].
      intros g Hl. simpl. now rewrite length_map. }
    exists wts. rewrite E. repeat split; [|exact Hm].
    rewrite <- (length_map (fun wt => [root wt; commit wt; ref_label wt])).
    rewrite Hm. apply length_map.
  - intros n Hn. destruct (from_list_chunks n data) as [H _].
    destruct (H Hn) as (wts & -> & Hl & Hd). now exists wts.
  - intros Hmod. destruct (from_list_chunks (List.length data / 3) data)
      as [_ H].
    rewrite H; [reflexivity|].
    pose proof (Nat.div_mod_eq (List.length data) 3) as E.
    pose proof (Nat.mod_upper_bound (List.length data) 3) as B. lia.
Qed.

(** C6, amended, at a listing of two groups of three lines. *)
Lemma list_worktrees_groups_witness :
  exists wts,
    list_worktrees
      (Fixture.scripted (2, 30, 0) (render_listing Fixture.two_groups)
                        Fixture.done Fixture.done)
      true Fixture.start
    = (OK wts, mkState tt [["git"; "worktree"; "list"; "--porcelain"]] []) /\
    List.length wts = List.length Fixture.two_groups /\
    map (fun wt => [root wt; commit wt; ref_label wt]) wts
    = map (map datum) Fixture.two_groups.
Proof.
  apply (list_worktrees_groups
           (Fixture.scripted (2, 30, 0) (render_listing Fixture.two_groups)
                             Fixture.done Fixture.done)
           true Fixture.two_groups 0%Z Fixture.start).
  - repeat constructor; discriminate.
  - reflexivity.
  - repeat constructor.
Defined.

(** ** The stateful methods: what reaches the external tool *)

Lemma find_pointwise {A} (f g : A -> bool) (l : list A) :
  (forall x, f x = g x) -> find f l = find g l.
Proof.
  intros H. induction l as [|x l IH]; simpl; [reflexivity|].
  now rewrite H, IH.
Qed.

Section Effects.

Context {G : Type}.
Variable W : World G.

Lemma run_subprocess_effect command s :
  exists rc out err g,
    exec W command (git s) = ((rc, out, err), g) /\
    run_subprocess W command s =
    (if Z.eqb rc 0 then OK (rc, out) else Raise (GitError err),
     mkState g (calls s ++ [command]) (stdout s)).
Proof.
  unfold run_subprocess.
  destruct (exec W command (git s)) as [[[rc out] err] g].
  exists rc, out, err, g. split; [reflexivity|].
  destruct (Z.eqb rc 0); reflexivity.
Qed.

(** [run_command] either stops before the external tool, leaving the state
    as it was, or hands over exactly the built command. *)
Lemma run_command_effect wt_command args kwargs s :
  (exists e, run_command W wt_command args kwargs s = (Raise e, s) /\
             (prepare_subprocess_args wt_command args kwargs = Raise e \/
              exists command,
                prepare_subprocess_args wt_command args kwargs = OK command /\
                feature_guard (get_git_version W) command = Raise e)) \/
  (exists command,
     prepare_subprocess_args wt_command args kwargs = OK command /\
     feature_guard (get_git_version W) command = OK tt /\
     run_command W wt_command args kwargs s = run_subprocess W command s).
Proof.
  unfold run_command, bind, lift.
  destruct (prepare_subprocess_args wt_command args kwargs) as [command|e].
  - destruct (feature_guard (get_git_version W) command) as [[]|e] eqn:E.
    + right. exists command. now repeat split.
    + left. exists e. split; [reflexivity|]. right. now exists command.
  - left. exists e. split; [reflexivity | now left].
Qed.

Lemma run_command_frame wt_command args kwargs s r s' out :
  run_command W wt_command args kwargs s = (r, s') ->
  stdout s' = stdout s /\
  run_command W wt_command args kwargs (with_stdout s out)
  = (r, with_stdout s' out).
Proof.
  unfold run_command, bind, lift.
  destruct (prepare_subprocess_args wt_command args kwargs) as [command|e].
  - destruct (feature_guard (get_git_version W) command) as [[]|e].
    + unfold run_subprocess, with_stdout. simpl.
      destruct (exec W command (git s)) as [[[rc o] err] g].
      destruct (Z.eqb rc 0); intros [= <- <-]; split; reflexivity.
    + intros [= <- <-]. split; reflexivity.
  - intros [= <- <-]. split; reflexivity.
Qed.

Lemma list_worktrees_frame porcelain s r s' out :
  list_worktrees W porcelain s = (r, s') ->
  stdout s' = stdout s /\
  list_worktrees W porcelain (with_stdout s out) = (r, with_stdout s' out).
Proof.
  unfold list_worktrees, bind.
  destruct (run_command W "list" [] [("porcelain", PyBool porcelain)] s)
    as [[x|e] s1] eqn:E;
    destruct (run_command_frame _ _ _ _ _ _ out E) as [Ho ->];
    unfold lift; intros [= <- <-]; split; auto.
Qed.

Lemma list_worktrees_calls porcelain s r s' :
  list_worktrees W porcelain s = (r, s') ->
  (s' = s /\ exists e, r = Raise e) \/
  (calls s' = calls s ++ [["git"; "worktree"; "list"]
                          ++ (if porcelain then ["--porcelain"] else [])]).
Proof.
  unfold list_worktrees, bind.
  destruct (run_command_effect "list" [] [("porcelain", PyBool porcelain)] s)
    as [(e & -> & _)|(command & Hp & _ & ->)].
  - intros [= <- <-]. left. split; [reflexivity | now exists e].
  - assert (command = ["git"; "worktree"; "list"]
                      ++ (if porcelain then ["--porcelain"] else []))
      by (destruct porcelain; injection Hp as <-; reflexivity).
    subst command.
    destruct (run_subprocess_effect
                (["git"; "worktree"; "list"]
                 ++ (if porcelain then ["--porcelain"] else [])) s)
      as (rc & o & err & g & _ & ->).
    destruct (Z.eqb rc 0); unfold lift; intros [= <- <-]; right; reflexivity.
Qed.

Lemma attr_checks_matches attr value :
  known_attr attr ->
  exists match_,
    get attr (attr_checks value) = Some match_ /\
    forall wt, match_ (getattr wt attr) = attr_matches attr value wt.
Proof.
  intros [-> | [-> | [-> | ->]]]; eexists; (split; [reflexivity|]);
    intros wt; reflexivity.
Qed.

(** The resolver without its progress messages: one listing, then the
    first record that matches. *)
Lemma get_worktree_by_attr_quiet attr value s r s' :
  known_attr attr ->
  list_worktrees W true s = (r, s') ->
  get_worktree_by_attr W attr value false s =
  (match r with
   | OK wts => OK (find (attr_matches attr value) wts)
   | Raise e => Raise e
   end, s').
Proof.
  intros Ha Hl. destruct (attr_checks_matches attr value Ha) as (m & Hm & Hx).
  unfold get_worktree_by_attr. rewrite Hm.
  unfold when, bind, ret. rewrite Hl. destruct r as [wts|e]; [|reflexivity].
  rewrite (find_pointwise _ (attr_matches attr value) wts Hx).
  destruct (find (attr_matches attr value) wts); reflexivity.
Qed.

Lemma get_worktree_by_attr_calls attr value s r s' :
  known_attr attr ->
  get_worktree_by_attr W attr value false s = (r, s') ->
  (s' = s /\ exists e, r = Raise e) \/ calls s' = calls s ++ [list_command].
Proof.
  intros Ha. destruct (list_worktrees W true s) as [r0 s0] eqn:Hl.
  rewrite (get_worktree_by_attr_quiet attr value s r0 s0 Ha Hl).
  intros [= <- <-].
  destruct (list_worktrees_calls true s r0 s0 Hl) as [[-> [e ->]]|H].
  - left. split; [reflexivity | now exists e].
  - right. exact H.
Qed.

End Effects.

(** ** The resolver's predicates *)

Lemma startswith_spec (p s : string) :
  startswith p s = true <-> exists post, s = (p ++ post)%string.
Proof.
  revert s. induction p as [|a p IH]; intros s; simpl.
  - split; [intros _; now exists s | reflexivity].
  - destruct s as [|b s].
    + split; [discriminate | intros [post H]; discriminate H].
    + rewrite andb_true_iff, IH. split.
      * intros [Hab [post ->]]. apply Ascii.eqb_eq in Hab as ->.
        now exists post.
      * intros [post [= -> ->]]. split; [apply Ascii.eqb_refl|].
        now exists post.
Qed.

(** [value in x]: the text [x] has [value] somewhere inside. *)
Lemma contains_spec (value x : string) :
  contains value x = true <->
  exists pre post, x = (pre ++ value ++ post)%string.
Proof.
  induction x as [|c x IH].
  - cbn [contains]. rewrite orb_false_r, startswith_spec. split.
    + intros [post H]. now exists ""%string, post.
    + intros (pre & post & H). destruct pre; [now exists post|discriminate H].
  - cbn [contains]. rewrite orb_true_iff, startswith_spec, IH. split.
    + intros [[post H]|(pre & post & ->)].
      * now exists ""%string, post.
      * now exists (String c pre), post.
    + intros (pre & post & H). destruct pre as [|a pre].
      * left. now exists post.
      * right. injection H as -> ->. now exists pre, post.
Qed.

Lemma split_on_nonempty sep x : split_on sep x <> [].
Proof.
  destruct x as [|c x]; simpl; [discriminate|].
  destruct (Ascii.eqb c sep); [discriminate|].
  destruct (split_on sep x); discriminate.
Qed.

(** Splitting at a separator and joining again gives the text back, and no
    piece holds the separator. *)
Lemma join_cons sep a b (l : list string) :
  join sep (a :: b :: l) = (a ++ sep ++ join sep (b :: l))%string.
Proof. reflexivity. Qed.

Lemma join_split_on sep x : join (String sep "") (split_on sep x) = x.
Proof.
  induction x as [|c x IH]; [reflexivity|].
  cbn [split_on]. pose proof (split_on_nonempty sep x) as Hn.
  destruct (Ascii.eqb_spec c sep) as [->|Hc];
    destruct (split_on sep x) as [|w ws]; try contradiction.
  - rewrite join_cons, IH. reflexivity.
  - destruct ws as [|w' ws].
    + cbn [join] in *. now rewrite IH.
    + rewrite join_cons in *. rewrite <- IH. reflexivity.
Qed.

Lemma split_on_pieces sep x :
  Forall (fun w => has_char sep w = false) (split_on sep x).
Proof.
  induction x as [|c x IH]; [repeat constructor|].
  cbn [split_on]. destruct (Ascii.eqb c sep) eqn:Hc.
  - constructor; [reflexivity | exact IH].
  - destruct (split_on sep x) as [|w ws]; [repeat constructor; simpl; now rewrite Hc|].
    inversion IH as [|? ? Hw Hws]; subst.
    constructor; [simpl; now rewrite Hc, Hw | exact Hws].
Qed.

(** The last piece is [value] exactly when the pieces end with [value]. *)
Lemma last_segment_spec (x value : string) :
  String.eqb (last (split_on "/" x) "") value = true <->
  exists init, split_on "/" x = init ++ [value] /\
               x = join "/" (init ++ [value]) /\
               has_char "/" value = false.
Proof.
  rewrite String.eqb_eq. split.
  - intros H. exists (removelast (split_on "/" x)).
    assert (E : split_on "/" x = removelast (split_on "/" x) ++ [value]).
    { rewrite <- H. apply app_removelast_last, split_on_nonempty. }
    split; [exact E|]. split.
    + rewrite <- E. symmetry. apply join_split_on.
    + pose proof (split_on_pieces "/" x) as F. rewrite E in F.
      apply Forall_app in F as [_ F]. now inversion F.
  - intros (init & E & _). rewrite E. apply last_last.
Qed.

Lemma find_first {A} (f : A -> bool) (l : list A) (x : A) :
  find f l = Some x ->
  exists before after,
    l = before ++ x :: after /\ f x = true /\
    Forall (fun y => f y = false) before.
Proof.
  induction l as [|y l IH]; [discriminate|]. simpl.
  destruct (f y) eqn:E.
  - intros [= ->]. exists [], l. now repeat split.
  - intros H. destruct (IH H) as (before & after & -> & Hx & Hb).
    exists (y :: before), after. repeat split; auto.
Qed.

Lemma find_none_iff {A} (f : A -> bool) (l : list A) :
  find f l = None <-> Forall (fun y => f y = false) l.
Proof.
  induction l as [|y l IH]; simpl.
  - split; [constructor | reflexivity].
  - destruct (f y) eqn:E.
    + split; [discriminate|]. intros H. inversion H; congruence.
    + rewrite IH. split; [now constructor | intros H; now inversion H].
Qed.

(** C7. For each of the four attributes the resolver returns the first
    record of the listing, in listing order, whose attribute passes the
    attribute's test, and not-found when no record passes.  The tests: for
    the root, the final path components of candidate and value are equal;
    for the commit, the value occurs inside the commit id; for branch and
    tag, the last slash-delimited segment of the ref label is the value,
    letter for letter. *)
Theorem get_worktree_by_attr_first_match {G : Type} (W : World G)
  (attr value : string) (verbose : bool) (s s1 : State G)
  (wts : list Worktree) :
  known_attr attr ->
  list_worktrees W true s = (OK wts, s1) ->
  let found := find (attr_matches attr value) wts in
  fst (get_worktree_by_attr W attr value verbose s) = OK found /\
  get_worktree_by_attr W attr value false s = (OK found, s1) /\
  (forall wt, found = Some wt ->
     exists before after,
       wts = before ++ wt :: after /\
       attr_matches attr value wt = true /\
       Forall (fun w => attr_matches attr value w = false) before) /\
  (found = None <->
   Forall (fun w => attr_matches attr value w = false) wts) /\
  (forall wt, attr_matches "root" value wt = true <->
              name (path_of (root wt)) = name (path_of value)) /\
  (forall wt, attr_matches "commit" value wt = true <->
              exists pre post, commit wt = (pre ++ value ++ post)%string) /\
  (forall wt a, a = "branch" \/ a = "tag" ->
     (attr_matches a value wt = true <->
      exists init, split_on "/" (ref_label wt) = init ++ [value] /\
                   ref_label wt = join "/" (init ++ [value]) /\
                   has_char "/" value = false)).
Proof.
  intros Ha Hl found.
  assert (Hq : get_worktree_by_attr W attr value false s = (OK found, s1))
    by exact (get_worktree_by_attr_quiet W attr value s (OK wts) s1 Ha Hl).
  split; [|split; [exact Hq|]].
  - destruct verbose; [|now rewrite Hq].
    destruct (attr_checks_matches attr value Ha) as (m & Hm & Hx).
    unfold get_worktree_by_attr. rewrite Hm.
    unfold when, bind, print, ret.
    match goal with
    | |- context [list_worktrees W true ?s0] =>
        destruct (list_worktrees_frame W true s (OK wts) s1 (stdout s0) Hl)
          as [_ E]; change s0 with (with_stdout s (stdout s0));
        rewrite E
    end.
    rewrite (find_pointwise _ (attr_matches attr value) wts Hx).
    fold found. destruct found as [wt|]; [|reflexivity].
    destruct (get_ref_and_type W wt); reflexivity.
  - split; [apply find_first|]. split; [apply find_none_iff|].
    split; [|split].
    + intros wt. unfold attr_matches. simpl. apply String.eqb_eq.
    + intros wt. unfold attr_matches. simpl. apply contains_spec.
    + intros wt a [-> | ->]; unfold attr_matches; simpl;
        apply last_segment_spec.
Qed.

(** ** Create and remove *)

Section Lifecycle.

Context {G : Type}.
Variable W : World G.

Lemma prepare_add destination ref force checkout lock :
  prepare_subprocess_args "add" [destination; ref]
    [("force", PyBool force); ("checkout", PyBool checkout);
     ("lock", PyBool lock)] =
  OK (add_command destination ref force checkout lock).
Proof. destruct force, checkout, lock; reflexivity. Qed.

Lemma prepare_remove destination force :
  prepare_subprocess_args "remove" [destination] [("force", PyBool force)] =
  OK (remove_command destination force).
Proof. destruct force; reflexivity. Qed.

(** No [GitError] leaves the [with] block: the context manager reports a
    failed body as handled. *)
Lemma git_worktree_context_no_git_error action ref ref_type directory
  (body : M G unit) s r s' :
  git_worktree_context W action ref ref_type directory body s = (r, s') ->
  forall msg, r <> Raise (GitError msg).
Proof.
  unfold git_worktree_context, bind, print. cbn beta iota.
  match goal with |- context [body ?s0] => destruct (body s0) as [[[]|e] s2] end.
  - intros [= <- <-] m. discriminate.
  - destruct e; intros [= <- <-] m; discriminate.
Qed.

(** A guarded command run as the body of the context manager is handed to
    the external tool once, and the block ends normally whatever the exit
    status: after a non-zero exit the last thing printed is the failure
    mark. *)
Lemma git_worktree_context_run action ref ref_type directory
  wt_command args kwargs command s rc out err g :
  prepare_subprocess_args wt_command args kwargs = OK command ->
  feature_guard (get_git_version W) command = OK tt ->
  exec W command (git s) = ((rc, out, err), g) ->
  exists texts,
    git_worktree_context W action ref ref_type directory
      (run_command W wt_command args kwargs ;;; ret tt) s =
    (OK tt, mkState g (calls s ++ [command]) (stdout s ++ texts)) /\
    (rc <> 0%Z -> last texts "" = ("failed." ++ nl)%string).
Proof.
  intros Hp Hg He.
  unfold git_worktree_context, run_command. unfold bind, print, ret, lift.
  cbn beta iota. rewrite Hp. cbn beta iota. rewrite Hg. cbn beta iota.
  unfold run_subprocess. cbn [git calls stdout]. rewrite He. destruct (Z.eqb_spec rc 0) as [->|Hrc].
  - eexists. split.
    + cbn [git calls stdout]. rewrite <- !app_assoc. reflexivity.
    + intros H. now contradiction H.
  - eexists. split.
    + cbn [git calls stdout]. rewrite <- !app_assoc. reflexivity.
    + intros _. reflexivity.
Qed.

(** What [add_worktree] does once the precondition holds and the reference
    is resolved. *)
Lemma add_worktree_resolved commit_ish destination force checkout lock
  resolve_commits verbose s ref ref_type :
  is_main_worktree W (current_folder W) = true ->
  resolve_ref W commit_ish resolve_commits (git s) = OK (ref, ref_type) ->
  add_worktree W commit_ish destination force checkout lock resolve_commits
               verbose s =
  (dup <- (if force then ret false
           else wt <- get_worktree_by_attr W ref_type ref false ;;
                ret (match wt with Some _ => true | None => false end)) ;;
   if dup : bool
   then raise (GitError (duplicate_message ref_type commit_ish))
   else
     let d := effective_destination W commit_ish destination in
     git_worktree_context W "add" ref ref_type d
       (run_command W "add" [d; ref]
          [("force", PyBool force); ("checkout", PyBool checkout);
           ("lock", PyBool lock)] ;;; ret tt) ;;;
     wt <- get_worktree_by_attr W "root" d false ;;
     match wt with
     | None =>
         raise (AssertionError "internal error in git worktree construction")
     | Some wt => ret wt
     end)
    (announced commit_ish ref_type verbose s).
Proof.
  intros Hm Hr. unfold add_worktree. rewrite Hm. cbn [negb].
  unfold bind at 1. unfold read. rewrite Hr.
  unfold bind at 1. unfold lift.
  unfold bind at 1. unfold announced, when.
  destruct verbose; reflexivity.
Qed.

(** Once the duplicate check is behind, the create invocation is the next
    command handed to the external tool; at most the listing of the final
    look-up follows. *)
Lemma add_worktree_invokes commit_ish destination (force : bool) checkout
  lock resolve_commits verbose s ref ref_type s1 :
  is_main_worktree W (current_folder W) = true ->
  resolve_ref W commit_ish resolve_commits (git s) = OK (ref, ref_type) ->
  (if force then s1 = announced commit_ish ref_type verbose s
   else get_worktree_by_attr W ref_type ref false
          (announced commit_ish ref_type verbose s) = (OK None, s1)) ->
  let d := effective_destination W commit_ish destination in
  feature_guard (get_git_version W) (add_command d ref force checkout lock)
  = OK tt ->
  exists tl,
    calls (snd (add_worktree W commit_ish destination force checkout lock
                             resolve_commits verbose s)) =
    calls s1 ++ add_command d ref force checkout lock :: tl /\
    (tl = [] \/ tl = [list_command]).
Proof.
  intros Hm Hr Hc d Hg.
  rewrite (add_worktree_resolved _ _ _ _ _ _ _ _ _ _ Hm Hr).
  assert (Hdup :
    (if force then ret false
     else wt <- get_worktree_by_attr W ref_type ref false ;;
          ret (match wt with Some _ => true | None => false end))
      (announced commit_ish ref_type verbose s) = (OK false, s1)).
  { destruct force; [now subst s1|]. unfold bind. now rewrite Hc. }
  unfold bind at 1. rewrite Hdup. cbv zeta. fold d.
  destruct (exec W (add_command d ref force checkout lock) (git s1))
    as [[[rc out] err] g] eqn:He.
  destruct (git_worktree_context_run "add" ref ref_type d "add" [d; ref] _ _
              s1 rc out err g (prepare_add d ref force checkout lock) Hg He)
    as (texts & Hctx & _).
  unfold bind at 1. rewrite Hctx.
  set (s2 := mkState g (calls s1 ++ [add_command d ref force checkout lock])
                     (stdout s1 ++ texts)).
  destruct (get_worktree_by_attr W "root" d false s2) as [r s3] eqn:Hpost.
  assert (Hroot : known_attr "root") by now left.
  destruct (get_worktree_by_attr_calls W "root" d s2 r s3 Hroot Hpost)
    as [[-> [e ->]]|Hcalls].
  - exists []. unfold bind. rewrite Hpost. cbn [snd calls].
    split; [reflexivity | now left].
  - exists [list_command]. unfold bind. rewrite Hpost.
    split; [|now right].
    destruct r as [[wt|]|e]; unfold ret, raise; cbn [snd]; rewrite Hcalls;
      subst s2; cbn [calls]; now rewrite <- app_assoc.
Qed.

End Lifecycle.

Lemma attr_checks_known attr value :
  get attr (attr_checks value) = None \/ known_attr attr.
Proof.
  unfold attr_checks, known_attr. cbn [get].
  destruct (String.eqb_spec attr "root"); [now right; left|].
  destruct (String.eqb_spec attr "commit"); [now right; right; left|].
  destruct (String.eqb_spec attr "branch"); [now right; right; right; left|].
  destruct (String.eqb_spec attr "tag"); [now right; right; right; right|].
  now left.
Qed.

Lemma get_worktree_by_attr_ok_calls {G : Type} (W : World G) attr value
  (s s1 : State G) (found : option Worktree) :
  get_worktree_by_attr W attr value false s = (OK found, s1) ->
  calls s1 = calls s ++ [list_command].
Proof.
  intros H. destruct (attr_checks_known attr value) as [Hn|Hk].
  - unfold get_worktree_by_attr in H. rewrite Hn in H. discriminate H.
  - destruct (get_worktree_by_attr_calls W attr value s _ _ Hk H)
      as [[_ [e He]]|Hc]; [discriminate He | exact Hc].
Qed.

Lemma announced_calls {G : Type} commit_ish ref_type verbose (s : State G) :
  calls (announced commit_ish ref_type verbose s) = calls s.
Proof. destruct verbose; reflexivity. Qed.

(** C8. In the main checkout, with the reference resolved: a create call
    without force that finds a worktree for the resolved reference raises
    the error whose message names the ref type and tells to supply the force
    option, and the listing is the only command that reached the external
    tool; a create call with force looks for no duplicate, and its first
    command to the external tool is the create invocation. *)
Theorem add_worktree_duplicate_check {G : Type} (W : World G)
  (commit_ish : string) (destination : option string)
  (checkout lock resolve_commits verbose : bool) (s : State G)
  (ref ref_type : string) :
  is_main_worktree W (current_folder W) = true ->
  resolve_ref W commit_ish resolve_commits (git s) = OK (ref, ref_type) ->
  (forall wt s1,
     get_worktree_by_attr W ref_type ref false
       (announced commit_ish ref_type verbose s) = (OK (Some wt), s1) ->
     add_worktree W commit_ish destination false checkout lock
                  resolve_commits verbose s =
     (Raise (GitError
        ("Worktree for " ++ ref_type ++ " " ++ repr commit_ish
         ++ " already exists. If you want to check out the same "
         ++ ref_type
         ++ " multiple times, supply the -f/--force option to `pybm create`.")),
      s1) /\
     calls s1 = calls s ++ [list_command]) /\
  (let d := effective_destination W commit_ish destination in
   feature_guard (get_git_version W) (add_command d ref true checkout lock)
   = OK tt ->
   exists tl,
     calls (snd (add_worktree W commit_ish destination true checkout lock
                              resolve_commits verbose s)) =
     calls s ++ add_command d ref true checkout lock :: tl /\
     (tl = [] \/ tl = [list_command])).
Proof.
  intros Hm Hr. split.
  - intros wt s1 Hfound. split.
    + rewrite (add_worktree_resolved W _ _ _ _ _ _ _ _ _ _ Hm Hr).
      unfold bind. rewrite Hfound. reflexivity.
    + rewrite (get_worktree_by_attr_ok_calls W _ _ _ _ _ Hfound).
      now rewrite announced_calls.
  - intros d Hg.
    destruct (add_worktree_invokes W commit_ish destination true checkout lock
                resolve_commits verbose s ref ref_type
                (announced commit_ish ref_type verbose s) Hm Hr eq_refl Hg)
      as (tl & Hc & Htl).
    exists tl. split; [|exact Htl]. rewrite Hc. now rewrite announced_calls.
Qed.

(** C8 at a create call for the branch main, which the listing shows
    checked out already. *)
Lemma add_worktree_duplicate_check_witness :
  add_worktree
    (Fixture.scripted (2, 30, 0) (render_listing Fixture.two_groups)
                      Fixture.done Fixture.done)
    "main" None false true false false false Fixture.start =
  (Raise (GitError
     ("Worktree for branch 'main' already exists. If you want to check out "
      ++ "the same branch multiple times, supply the -f/--force option to "
      ++ "`pybm create`.")),
   mkState tt [list_command] []) /\
  calls (mkState tt [list_command] []) = calls Fixture.start ++ [list_command].
Proof.
  apply (proj1 (add_worktree_duplicate_check
                  (Fixture.scripted (2, 30, 0)
                     (render_listing Fixture.two_groups)
                     Fixture.done Fixture.done)
                  "main" None true false false false Fixture.start
                  "main" "branch" eq_refl eq_refl)
               (mkWorktree "/home/user/repo" "1f2e3d" "refs/heads/main")).
  reflexivity.
Defined.

(** ** The default destination *)

Lemma has_char_app a (x y : string) :
  has_char a (x ++ y) = has_char a x || has_char a y.
Proof.
  induction x as [|c x IH]; [reflexivity|]. simpl. rewrite IH.
  now rewrite orb_assoc.
Qed.

Lemma replace_char_get a b (x : string) (i : nat) :
  String.get i (replace_char a b x) =
  option_map (fun c => if Ascii.eqb c a then b else c) (String.get i x).
Proof.
  revert i. induction x as [|c x IH]; intros i; [reflexivity|].
  destruct i; simpl; [reflexivity | apply IH].
Qed.

Lemma replace_char_gone a b (x : string) :
  a <> b -> has_char a (replace_char a b x) = false.
Proof.
  intros Hab. induction x as [|c x IH]; [reflexivity|]. simpl. rewrite IH.
  destruct (Ascii.eqb_spec c a) as [->|Hc].
  - destruct (Ascii.eqb_spec b a); [congruence | reflexivity].
  - destruct (Ascii.eqb_spec c a); [congruence | reflexivity].
Qed.

Lemma no_slash_not_rooted (p w : string) :
  has_char "/" w = false -> startswith (String "/" p) w = false.
Proof.
  destruct w as [|c w]; [reflexivity|]. cbn [startswith has_char].
  intros H. apply orb_false_elim in H as [H _].
  rewrite Ascii.eqb_sym, H. reflexivity.
Qed.

Lemma split_on_whole sep (w : string) :
  has_char sep w = false -> split_on sep w = [w].
Proof.
  induction w as [|c w IH]; [reflexivity|]. cbn [split_on has_char].
  intros H. apply orb_false_elim in H as [Hc Hw].
  rewrite Hc, (IH Hw). reflexivity.
Qed.

Lemma at_sign_is_part (w : string) : has_char "@" w = true -> is_part w = true.
Proof.
  destruct w as [|c w]; [discriminate|]. unfold is_part. simpl.
  destruct (Ascii.eqb_spec c "."); [subst c|reflexivity].
  destruct w; simpl; [discriminate | reflexivity].
Qed.

(** One new component is appended to the directory. *)
Lemma joinpath_component (p : Path) (w : string) :
  has_char "/" w = false -> has_char "@" w = true ->
  joinpath p w = mkPath (anchor p) (parts p ++ [w]).
Proof.
  intros Hs Ha. unfold joinpath, path_of.
  rewrite !(no_slash_not_rooted _ w Hs), (split_on_whole "/" w Hs).
  cbn [filter]. rewrite (at_sign_is_part w Ha). reflexivity.
Qed.

Lemma last_Forall {A} (P : A -> Prop) (l : list A) (d : A) :
  Forall P l -> P d -> P (last l d).
Proof.
  induction 1 as [|x l Hx Hl IH]; intros Hd; [exact Hd|].
  destruct l; [exact Hx | now apply IH].
Qed.

Lemma name_no_slash (x : string) : has_char "/" (name (path_of x)) = false.
Proof.
  unfold name, path_of. cbn [parts].
  apply (last_Forall (fun w => has_char "/" w = false)); [|reflexivity].
  apply incl_Forall with (l1 := split_on "/" x);
    [apply incl_filter | apply split_on_pieces].
Qed.

Lemma default_destination_shape (x : string) (in_parent : bool)
  (commit_ish : string) :
  default_destination (path_of x) in_parent commit_ish =
  (anchor (path_of x)
   ++ join "/" ((if in_parent then removelast (parts (path_of x))
                 else parts (path_of x))
                ++ [name (path_of x) ++ "@"
                    ++ replace_char "/" "-" commit_ish]))%string.
Proof.
  unfold default_destination. cbv zeta.
  change (join "@" [name (path_of x); replace_char "/" "-" commit_ish])
    with (name (path_of x) ++ "@" ++ replace_char "/" "-" commit_ish)%string.
  set (w := (name (path_of x) ++ "@" ++ replace_char "/" "-" commit_ish)%string).
  assert (Hs : has_char "/" w = false).
  { unfold w. rewrite !has_char_app, name_no_slash.
    rewrite replace_char_gone by discriminate. reflexivity. }
  assert (Ha : has_char "@" w = true).
  { unfold w. rewrite !has_char_app.
    change (has_char "@" "@") with true. cbn [orb]. apply orb_true_r. }
  rewrite (joinpath_component _ w Hs Ha).
  unfold path_str. cbn [anchor parts].
  replace (anchor (if in_parent then parent (path_of x) else path_of x))
    with (anchor (path_of x)) by (destruct in_parent; reflexivity).
  replace (parts (if in_parent then parent (path_of x) else path_of x))
    with (if in_parent then removelast (parts (path_of x))
          else parts (path_of x)) by (destruct in_parent; reflexivity).
  destruct ((if in_parent then removelast (parts (path_of x))
             else parts (path_of x)) ++ [w]) eqn:E.
  - symmetry in E. now apply app_cons_not_nil in E.
  - destruct (anchor (path_of x)); reflexivity.
Qed.

(** C9. When the destination is omitted and the call gets as far as the
    create invocation, the destination handed to the external tool is the
    one made from the commit-ish, the current checkout and the configuration
    flag alone: the components of the checkout's parent (flag set) or of the
    checkout itself (flag unset), followed by the single component
    repository name, at sign, commit-ish with every slash replaced by a
    dash. *)
Theorem add_worktree_default_destination {G : Type} (W : World G)
  (commit_ish : string) (destination : option string)
  (force checkout lock resolve_commits verbose : bool) (s s1 : State G)
  (ref ref_type : string) :
  omitted destination = true ->
  is_main_worktree W (current_folder W) = true ->
  resolve_ref W commit_ish resolve_commits (git s) = OK (ref, ref_type) ->
  (if force then s1 = announced commit_ish ref_type verbose s
   else get_worktree_by_attr W ref_type ref false
          (announced commit_ish ref_type verbose s) = (OK None, s1)) ->
  let d := default_destination (current_folder W) (create_in_parent W)
                               commit_ish in
  feature_guard (get_git_version W) (add_command d ref force checkout lock)
  = OK tt ->
  (exists tl,
     calls (snd (add_worktree W commit_ish destination force checkout lock
                              resolve_commits verbose s)) =
     calls s1 ++ add_command d ref force checkout lock :: tl) /\
  (forall x, current_folder W = path_of x ->
     d = (anchor (path_of x)
          ++ join "/" ((if create_in_parent W
                        then removelast (parts (path_of x))
                        else parts (path_of x))
                       ++ [name (path_of x) ++ "@"
                           ++ replace_char "/" "-" commit_ish]))%string) /\
  has_char "/" (replace_char "/" "-" commit_ish) = false /\
  (forall i, String.get i (replace_char "/" "-" commit_ish) =
             option_map (fun c => if Ascii.eqb c "/" then "-"%char else c)
                        (String.get i commit_ish)) /\
  (forall W' : World G,
     current_folder W' = current_folder W ->
     create_in_parent W' = create_in_parent W ->
     default_destination (current_folder W') (create_in_parent W') commit_ish
     = d).
Proof.
  intros Ho Hm Hr Hc d Hg.
  assert (Hd : effective_destination W commit_ish destination = d)
    by (unfold effective_destination; now rewrite Ho).
  split; [|split; [|split; [|split]]].
  - destruct (add_worktree_invokes W commit_ish destination force checkout
                lock resolve_commits verbose s ref ref_type s1 Hm Hr Hc)
      as (tl & Hcalls & _).
    + now rewrite Hd.
    + exists tl. now rewrite Hcalls, Hd.
  - intros x Hx. subst d. rewrite Hx. apply default_destination_shape.
  - apply replace_char_gone. discriminate.
  - intros i. apply replace_char_get.
  - intros W' -> ->. reflexivity.
Qed.

(** C9 at a create call for feature/x from /home/user/repo, worktrees being
    made in the parent directory. *)
Lemma add_worktree_default_destination_witness :
  exists tl,
    calls (snd (add_worktree
                  (Fixture.scripted (2, 30, 0)
                     (render_listing Fixture.two_groups)
                     Fixture.done Fixture.done)
                  "feature/x" None false true false false false
                  Fixture.start)) =
    [list_command]
    ++ add_command "/home/user/repo@feature-x" "feature/x" false true false
    :: tl.
Proof.
  apply (add_worktree_default_destination
           (Fixture.scripted (2, 30, 0) (render_listing Fixture.two_groups)
                             Fixture.done Fixture.done)
           "feature/x" None false true false false false Fixture.start
           (mkState tt [list_command] []) "feature/x" "branch");
    reflexivity.
Defined.

(** ** The context manager and failed invocations *)

(** After a non-zero exit of the remove invocation, [remove_worktree]
    returns the worktree as if it had been removed. *)
Lemma remove_worktree_hides_failure {G : Type} (W : World G)
  (info : string) (force verbose : bool) (s s1 : State G)
  (attr : string) (wt : Worktree) (rc : Z) (out err : string) (g : G) :
  is_main_worktree W (current_folder W) = true ->
  disambiguate_info W info (git s) = Some attr ->
  attr <> ""%string ->
  get_worktree_by_attr W attr info verbose
    (if verbose
     then with_stdout s (stdout s ++ [determined_message info attr])
     else s) = (OK (Some wt), s1) ->
  feature_guard (get_git_version W) (remove_command (root wt) force) = OK tt ->
  exec W (remove_command (root wt) force) (git s1) = ((rc, out, err), g) ->
  rc <> 0%Z ->
  exists texts,
    remove_worktree W info force verbose s =
    (OK wt, mkState g (calls s1 ++ [remove_command (root wt) force])
                    (stdout s1 ++ texts)) /\
    last texts "" = ("failed." ++ nl)%string.
Proof.
  intros Hm Hd Ha Hf Hg He Hrc. unfold remove_worktree. rewrite Hm.
  cbn [negb]. unfold bind at 1. unfold read. rewrite Hd.
  destruct attr as [|c attr]; [now contradiction Ha|].
  destruct (git_worktree_context_run W "remove"
              (fst (get_ref_and_type W wt)) (snd (get_ref_and_type W wt))
              (root wt) "remove" [root wt] [("force", PyBool force)] _ s1
              rc out err g (prepare_remove (root wt) force) Hg He)
    as (texts & Hctx & Hlast).
  exists texts. split; [|exact (Hlast Hrc)].
  unfold bind at 1.
  assert (Hf' :
    get_worktree_by_attr W (String c attr) info verbose
      (snd (when verbose (print (determined_message info (String c attr))) s))
    = (OK (Some wt), s1)) by (destruct verbose; exact Hf).
  destruct verbose; cbn [when print ret snd] in *;
    unfold bind at 1; rewrite Hf';
    destruct (get_ref_and_type W wt) as [ref ref_type];
    unfold bind at 1; cbn [fst snd] in Hctx; rewrite Hctx; reflexivity.
Qed.

(** C1, at two failing inputs.  The external remove exits with status 128:
    [remove_worktree] raises nothing and returns the worktree, the failure
    mark on the output being all that is left of the error.  The external
    add exits with status 128: [add_worktree] does not raise the [GitError]
    with the captured error stream; what reaches the caller is the failed
    assertion of the final look-up.  The with block lets no [GitError]
    through, whatever its body. *)
Theorem worktree_git_error_swallowed :
  exec Failing.refusing_remove (remove_command "/home/user/repo@dev" false) tt
  = ((128%Z, "",
      ("fatal: '/home/user/repo@dev' contains modified or untracked files, "
       ++ "use --force to delete it")%string), tt) /\
  remove_worktree Failing.refusing_remove "dev" false false Fixture.start =
  (OK (mkWorktree "/home/user/repo@dev" "4a5b6c" "refs/heads/dev"),
   mkState tt
     [list_command; remove_command "/home/user/repo@dev" false]
     [("Removing existing worktree for branch 'dev' in location "
       ++ "/home/user/repo@dev.....")%string; ("failed." ++ nl)%string]) /\
  exec Failing.refusing_add
       (add_command "/home/user/wt" "feature" true true false) tt
  = ((128%Z, "", "fatal: '/home/user/wt' already exists"), tt) /\
  add_worktree Failing.refusing_add "feature" (Some "/home/user/wt")
               true true false false false Fixture.start =
  (Raise (AssertionError "internal error in git worktree construction"),
   mkState tt
     [add_command "/home/user/wt" "feature" true true false; list_command]
     [("Adding existing worktree for branch 'feature' in location "
       ++ "/home/user/wt.....")%string; ("failed." ++ nl)%string]) /\
  (forall (G : Type) (W : World G) action ref ref_type directory
          (body : M G unit) s r s',
     git_worktree_context W action ref ref_type directory body s = (r, s') ->
     forall msg, r <> Raise (GitError msg)).
Proof.
  repeat split; try reflexivity.
  intros G W action ref ref_type directory body s r s' H.
  exact (git_worktree_context_no_git_error W _ _ _ _ _ _ _ _ H).
Qed.

(** ** Instances *)

(** C2 at the add operation with the lock option under git 2.9.0. *)
Lemma run_command_version_guard_witness :
  exists m,
    binding_minimum ["git"; "worktree"; "add"; "d"; "r"; "--lock"] = Some m /\
    (vt_ltb (2, 9, 0) m = true ->
     exists msg,
       run_command (Fixture.scripted (2, 9, 0) "" Fixture.done Fixture.done)
                   "add" ["d"; "r"] [("lock", PyBool true)] Fixture.start
       = (Raise (GitError msg), Fixture.start) /\
       calls (snd (run_command
                     (Fixture.scripted (2, 9, 0) "" Fixture.done Fixture.done)
                     "add" ["d"; "r"] [("lock", PyBool true)] Fixture.start))
       = calls Fixture.start) /\
    (vt_ltb (2, 9, 0) m = false ->
     feature_guard (2, 9, 0) ["git"; "worktree"; "add"; "d"; "r"; "--lock"]
     = OK tt /\
     run_command (Fixture.scripted (2, 9, 0) "" Fixture.done Fixture.done)
                 "add" ["d"; "r"] [("lock", PyBool true)] Fixture.start
     = run_subprocess (Fixture.scripted (2, 9, 0) "" Fixture.done Fixture.done)
         ["git"; "worktree"; "add"; "d"; "r"; "--lock"] Fixture.start).
Proof.
  apply (run_command_version_guard
           (Fixture.scripted (2, 9, 0) "" Fixture.done Fixture.done)
           "add" ["d"; "r"] [("lock", PyBool true)]
           ["git"; "worktree"; "add"; "d"; "r"; "--lock"] Fixture.start).
  reflexivity.
Defined.

(** C3 at an add command with the no-checkout and the lock flag. *)
Lemma guard_binding_minimum_is_maximum_witness :
  binding_minimum
    ["git"; "worktree"; "add"; "d"; "r"; "--no-checkout"; "--lock"]
  = Some (2, 13, 7) /\
  In (2, 13, 7) [(2, 6, 7); (2, 9, 5); (2, 13, 7)] /\
  Forall (fun v => vt_le v (2, 13, 7)) [(2, 6, 7); (2, 9, 5); (2, 13, 7)] /\
  feature_guard (2, 13, 7)
    ["git"; "worktree"; "add"; "d"; "r"; "--no-checkout"; "--lock"] = OK tt /\
  (forall installed, vt_le (2, 13, 7) installed ->
     feature_guard installed
       ["git"; "worktree"; "add"; "d"; "r"; "--no-checkout"; "--lock"]
     = OK tt).
Proof.
  apply (guard_binding_minimum_is_maximum
           ["git"; "worktree"; "add"; "d"; "r"; "--no-checkout"; "--lock"]
           "add" ["d"; "r"; "--no-checkout"; "--lock"] (2, 6, 7)
           [ ("-f", (2, 6, 7)); ("--checkout", (2, 9, 5));
             ("--no-checkout", (2, 9, 5)); ("--lock", (2, 13, 7)) ]);
    reflexivity.
Defined.

(** C7 at the branch dev of a listing of two worktrees. *)
Lemma get_worktree_by_attr_first_match_witness :
  fst (get_worktree_by_attr
         (Fixture.scripted (2, 30, 0) (render_listing Fixture.two_groups)
                           Fixture.done Fixture.done)
         "branch" "dev" true Fixture.start) =
  OK (Some (mkWorktree "/home/user/repo@dev" "4a5b6c" "refs/heads/dev")).
Proof.
  apply (get_worktree_by_attr_first_match
           (Fixture.scripted (2, 30, 0) (render_listing Fixture.two_groups)
                             Fixture.done Fixture.done)
           "branch" "dev" true Fixture.start (mkState tt [list_command] [])
           [ mkWorktree "/home/user/repo" "1f2e3d" "refs/heads/main";
             mkWorktree "/home/user/repo@dev" "4a5b6c" "refs/heads/dev" ]).
  - right; right; left; reflexivity.
  - reflexivity.
Defined.

(** * Further properties *)

(** ** The command builder *)

Lemma parse_flags_loop_recognized command_options kwargs :
  forall flags,
    parse_flags_loop command_options kwargs flags =
    parse_flags_loop command_options
      (filter (fun kv => has_key (fst kv) command_options) kwargs) flags.
Proof.
  induction kwargs as [|[k v] kwargs IH]; intros flags; [reflexivity|].
  cbn [parse_flags_loop filter fst]. unfold has_key at 1.
  destruct (get k command_options) as [cmd_opts|] eqn:Hk; [|apply IH].
  cbn [parse_flags_loop]. rewrite Hk.
  destruct (pyget v cmd_opts) as [[flag|]|]; [apply IH | apply IH | reflexivity].
Qed.

(** X1. Options the operation's table does not have are dropped whatever
    their value: the result of [parse_flags], error included, is the one for
    the recognized options alone. *)
Theorem parse_flags_drops_unknown_options (command : string)
  (kwargs : kwargs_t) :
  parse_flags command kwargs =
  parse_flags command
    (filter (fun kv => known_option command (fst kv)) kwargs).
Proof.
  unfold parse_flags, known_option.
  destruct (get command command_db) as [command_options|]; [|reflexivity].
  apply parse_flags_loop_recognized.
Qed.

Lemma parse_flags_loop_emits (P : string -> Prop)
  (command_options : dict flag_table) :
  (forall k cmd_opts v flag,
     get k command_options = Some cmd_opts ->
     pyget v cmd_opts = Some (Some flag) -> P flag) ->
  forall kwargs acc flags,
    parse_flags_loop command_options kwargs acc = OK flags ->
    exists new, flags = acc ++ new /\ Forall P new /\
                List.length new <= List.length kwargs.
Proof.
  intros HP. induction kwargs as [|[k v] kwargs IH]; intros acc flags.
  - intros [= <-]. exists []. rewrite app_nil_r. repeat split; auto.
  - cbn [parse_flags_loop].
    destruct (get k command_options) as [cmd_opts|] eqn:Hk.
    + destruct (pyget v cmd_opts) as [[flag|]|] eqn:Hv; [| |discriminate].
      * intros H. destruct (IH _ _ H) as (new & -> & HF & Hl).
        exists (flag :: new). rewrite <- app_assoc. repeat split.
        -- constructor; [eapply HP; eassumption | exact HF].
        -- simpl. lia.
      * intros H. destruct (IH _ _ H) as (new & -> & HF & Hl).
        exists new. repeat split; auto. simpl. lia.
    + intros H. destruct (IH _ _ H) as (new & -> & HF & Hl).
      exists new. repeat split; auto. simpl. lia.
Qed.

(** Every flag of the builder's table is a key of the guard's option table
    of the same operation. *)
Lemma table_flags_guarded command command_options options k cmd_opts v flag :
  get command command_db = Some command_options ->
  get command _git_option_versions = Some options ->
  get k command_options = Some cmd_opts ->
  pyget v cmd_opts = Some (Some flag) ->
  startswith "-" flag = true /\ exists ver, get flag options = Some ver.
Proof.
  unfold command_db, _git_worktree_flags, _git_option_versions. cbn [get].
  destruct (String.eqb command "add");
    [|destruct (String.eqb command "list");
      [|destruct (String.eqb command "remove"); [|discriminate]]];
    intros [= <-] [= <-]; cbn [get];
    repeat match goal with
      | |- context [String.eqb k ?b] => destruct (String.eqb k b)
      end;
    try discriminate; intros [= <-]; cbn [pyget];
    repeat match goal with
      | |- context [py_eqb v ?b] => destruct (py_eqb v b)
      end;
    try discriminate; intros [= <-]; (split; [reflexivity|]);
    eexists; reflexivity.
Qed.

(** X2. Every flag [parse_flags] emits starts with a dash and has an entry
    in the guard's option table of the same operation, so no flag the builder
    produces escapes the version check; at most one flag is emitted per
    keyword argument. *)
Theorem parse_flags_emits_guarded_flags (command : string)
  (kwargs : kwargs_t) (flags : list string) :
  parse_flags command kwargs = OK flags ->
  exists options,
    get command _git_option_versions = Some options /\
    Forall (fun flag => startswith "-" flag = true /\
                        exists ver, get flag options = Some ver) flags /\
    List.length flags <= List.length kwargs.
Proof.
  unfold parse_flags.
  destruct (get command command_db) as [command_options|] eqn:Hc;
    [|discriminate].
  assert (Hk : has_key command command_db = true)
    by (unfold has_key; now rewrite Hc).
  destruct (known_operation_tables _ Hk) as (base & options & _ & Ho).
  intros H. exists options. split; [exact Ho|].
  destruct (parse_flags_loop_emits
              (fun flag => startswith "-" flag = true /\
                           exists ver, get flag options = Some ver)
              command_options) with (kwargs := kwargs) (acc := @nil string)
              (flags := flags) as (new & -> & HF & Hl); [|exact H|].
  - intros k cmd_opts v flag Hko Hv.
    exact (table_flags_guarded _ _ _ _ _ _ _ Hc Ho Hko Hv).
  - split; assumption.
Qed.

(** X2 at the add operation with all three options set. *)
Lemma parse_flags_emits_guarded_flags_witness :
  exists options,
    get "add" _git_option_versions = Some options /\
    Forall (fun flag => startswith "-" flag = true /\
                        exists ver, get flag options = Some ver)
           ["-f"; "--no-checkout"; "--lock"] /\
    List.length ["-f"; "--no-checkout"; "--lock"] <=
    List.length [("force", PyBool true); ("checkout", PyBool false);
                 ("lock", PyBool true)].
Proof.
  apply (parse_flags_emits_guarded_flags "add"
           [("force", PyBool true); ("checkout", PyBool false);
            ("lock", PyBool true)] ["-f"; "--no-checkout"; "--lock"]).
  reflexivity.
Defined.



(** ** The version guard *)



(** X4. The errors of [feature_guard] on an arbitrary token list: fewer
    than three tokens fail the unpacking, an operation outside the table
    fails the assertion with a message naming it, and nothing else is raised
    but [GitError]; in particular the lookups in the two version tables never
    fail, the three tables having the same operations. *)
Theorem feature_guard_errors (installed : VersionTuple)
  (command : list string) :
  (List.length command <= 2 ->
   feature_guard installed command = Raise ValueError) /\
  (forall wt_command rest,
     skipn 2 command = wt_command :: rest ->
     has_key wt_command command_db = false ->
     feature_guard installed command =
     Raise (AssertionError
              ("unimplemented git worktree command " ++ repr wt_command))) /\
  (forall e, feature_guard installed command = Raise e ->
     e = ValueError \/ (exists msg, e = AssertionError msg) \/
     (exists msg, e = GitError msg)).
Proof.
  split; [|split].
  - intros Hl. unfold feature_guard.
    destruct command as [|a [|b [|c command]]]; try reflexivity.
    simpl in Hl. lia.
  - intros wt_command rest Hs Hk. unfold feature_guard. now rewrite Hs, Hk.
  - intros e. destruct (skipn 2 command) as [|wt_command rest] eqn:Hs.
    + unfold feature_guard. rewrite Hs. intros [= <-]. now left.
    + destruct (has_key wt_command command_db) eqn:Hk.
      * destruct (feature_guard_known installed _ _ _ Hs Hk) as (m & _ & E).
        rewrite E. destruct (vt_ltb installed m); [|discriminate].
        intros [= <-]. right; right. now eexists.
      * unfold feature_guard. rewrite Hs, Hk. intros [= <-].
        right; left. now eexists.
Qed.

Lemma vt_max_swap a b c : vt_max (vt_max a b) c = vt_max (vt_max a c) b.
Proof.
  unfold vt_max.
  destruct (vt_ltb a b) eqn:Eab, (vt_ltb a c) eqn:Eac;
    try rewrite Eab; try rewrite Eac;
    destruct (vt_ltb b c) eqn:Ebc, (vt_ltb c b) eqn:Ecb;
    try reflexivity; try (now apply vt_ltb_total); try (symmetry; now apply vt_ltb_total);
    exfalso; vt_lia.
Qed.

Lemma max_version_perm vs vs' :
  Permutation vs vs' ->
  forall base, max_version base vs = max_version base vs'.
Proof.
  unfold max_version.
  induction 1 as [|v vs vs' _ IH|v w vs|vs1 vs2 vs3 _ IH1 _ IH2];
    intros base; simpl.
  - reflexivity.
  - apply IH.
  - now rewrite vt_max_swap.
  - now rewrite IH1.
Qed.

Lemma filter_perm {A} (p : A -> bool) (l l' : list A) :
  Permutation l l' -> Permutation (filter p l) (filter p l').
Proof.
  induction 1 as [|x l l' _ IH|x y l|l1 l2 l3 _ IH1 _ IH2]; simpl.
  - constructor.
  - destruct (p x); [now constructor | exact IH].
  - destruct (p x), (p y); try reflexivity. apply perm_swap.
  - now transitivity (filter p l2).
Qed.

Lemma recognized_perm options rest rest' :
  Permutation rest rest' ->
  Permutation (recognized options rest) (recognized options rest').
Proof.
  intros H. unfold recognized. apply Permutation_flat_map.
  now apply filter_perm.
Qed.

Lemma binding_minimum_known command wt_command rest base options :
  skipn 2 command = wt_command :: rest ->
  get wt_command _git_worktree_versions = Some base ->
  get wt_command _git_option_versions = Some options ->
  binding_minimum command =
  Some (max_version base (recognized options rest)).
Proof.
  intros Hs Hb Ho. unfold binding_minimum.
  now rewrite Hs, Hb, Ho, guard_scan_max.
Qed.

Lemma feature_guard_verdict installed command wt_command rest base options :
  skipn 2 command = wt_command :: rest ->
  get wt_command _git_worktree_versions = Some base ->
  get wt_command _git_option_versions = Some options ->
  (feature_guard installed command = OK tt <->
   vt_le (max_version base (recognized options rest)) installed) /\
  (vt_ltb installed (max_version base (recognized options rest)) = true ->
   exists msg, feature_guard installed command = Raise (GitError msg)).
Proof.
  intros Hs Hb Ho.
  destruct (feature_guard_known installed _ _ _ Hs (versions_known _ _ Hb))
    as (m & Hm & E).
  rewrite (binding_minimum_known _ _ _ _ _ Hs Hb Ho) in Hm.
  injection Hm as <-. rewrite E. unfold vt_le.
  destruct (vt_ltb installed (max_version base (recognized options rest))).
  - split; [split; discriminate | intros _; now eexists].
  - split; [split; reflexivity | discriminate].
Qed.

(** X5. The verdict of the guard does not depend on the order of the tokens
    after the operation: any rearrangement of them has the same binding
    minimum version and passes or fails alike. *)
Theorem guard_ignores_token_order (installed : VersionTuple)
  (a b wt_command : string) (rest rest' : list string) :
  Permutation rest rest' ->
  binding_minimum (a :: b :: wt_command :: rest) =
  binding_minimum (a :: b :: wt_command :: rest') /\
  (feature_guard installed (a :: b :: wt_command :: rest) = OK tt <->
   feature_guard installed (a :: b :: wt_command :: rest') = OK tt).
Proof.
  intros Hp.
  destruct (has_key wt_command command_db) eqn:Hk.
  - destruct (known_operation_tables _ Hk) as (base & options & Hb & Ho).
    pose proof (max_version_perm _ _ (recognized_perm options _ _ Hp) base)
      as Hm.
    split.
    + rewrite (binding_minimum_known (a :: b :: wt_command :: rest)
                 wt_command rest base options eq_refl Hb Ho).
      rewrite (binding_minimum_known (a :: b :: wt_command :: rest')
                 wt_command rest' base options eq_refl Hb Ho).
      now rewrite Hm.
    + destruct (feature_guard_verdict installed
                  (a :: b :: wt_command :: rest) wt_command rest base options
                  eq_refl Hb Ho) as [-> _].
      destruct (feature_guard_verdict installed
                  (a :: b :: wt_command :: rest') wt_command rest' base
                  options eq_refl Hb Ho) as [-> _].
      now rewrite Hm.
  - split.
    + unfold binding_minimum. cbn [skipn].
      destruct (get wt_command _git_worktree_versions) as [base|] eqn:Hb;
        [|reflexivity].
      rewrite (versions_known _ _ Hb) in Hk. discriminate.
    + unfold feature_guard. cbn [skipn]. rewrite Hk. cbn [negb].
      split; discriminate.
Qed.

(** X5 at an add command with two flags swapped. *)
Lemma guard_ignores_token_order_witness :
  binding_minimum ["git"; "worktree"; "add"; "--lock"; "-f"] =
  binding_minimum ["git"; "worktree"; "add"; "-f"; "--lock"] /\
  (feature_guard (2, 9, 0) ["git"; "worktree"; "add"; "--lock"; "-f"] = OK tt
   <->
   feature_guard (2, 9, 0) ["git"; "worktree"; "add"; "-f"; "--lock"] = OK tt).
Proof.
  apply (guard_ignores_token_order (2, 9, 0) "git" "worktree" "add"
           ["--lock"; "-f"] ["-f"; "--lock"]).
  apply perm_swap.
Defined.

Lemma recognized_in_table options rest v :
  In v (recognized options rest) -> exists k, get k options = Some v.
Proof.
  unfold recognized. rewrite in_flat_map. intros (k & _ & Hv).
  destruct (get k options) as [w|] eqn:E; [|contradiction].
  destruct Hv as [<-|[]]. now exists k.
Qed.

(** Every version of the tables lies between 2.6.7 and 2.17.0, and no flag
    is older than its operation. *)
Lemma table_version_bounds wt_command base options :
  get wt_command _git_worktree_versions = Some base ->
  get wt_command _git_option_versions = Some options ->
  vt_le (2, 6, 7) base /\ vt_le base (2, 17, 0) /\
  forall k v, get k options = Some v -> vt_le base v /\ vt_le v (2, 17, 0).
Proof.
  unfold _git_worktree_versions, _git_option_versions. cbn [get].
  destruct (String.eqb wt_command "add");
    [|destruct (String.eqb wt_command "list");
      [|destruct (String.eqb wt_command "remove"); [|discriminate]]];
    intros [= <-] [= <-]; (split; [reflexivity|]); (split; [reflexivity|]);
    intros k v; cbn [get];
    repeat match goal with
      | |- context [String.eqb k ?b] => destruct (String.eqb k b)
      end;
    try discriminate; intros [= <-]; split; reflexivity.
Qed.

(** X6. For every known operation and whatever tokens follow it, the
    binding minimum lies between the operation's own minimum and 2.17.0: an
    installed git of 2.17.0 or later passes the guard for every command, and
    one older than 2.6.7 is refused for every command. *)
Theorem guard_version_window (installed : VersionTuple)
  (command : list string) (wt_command : string) (rest : list string) :
  skipn 2 command = wt_command :: rest ->
  has_key wt_command command_db = true ->
  (exists base m,
     get wt_command _git_worktree_versions = Some base /\
     binding_minimum command = Some m /\
     vt_le base m /\ vt_le m (2, 17, 0)) /\
  (vt_le (2, 17, 0) installed -> feature_guard installed command = OK tt) /\
  (vt_ltb installed (2, 6, 7) = true ->
   exists msg, feature_guard installed command = Raise (GitError msg)).
Proof.
  intros Hs Hk.
  destruct (known_operation_tables _ Hk) as (base & options & Hb & Ho).
  destruct (table_version_bounds _ _ _ Hb Ho) as (Hlo & Hhi & Ht).
  set (m := max_version base (recognized options rest)).
  assert (Hbm : vt_le base m) by apply max_version_ge_base.
  assert (Hm17 : vt_le m (2, 17, 0)).
  { destruct (max_version_member (recognized options rest) base) as [E|Hin].
    - unfold m. rewrite <- E. exact Hhi.
    - destruct (recognized_in_table _ _ _ Hin) as (k & Hkv).
      exact (proj2 (Ht _ _ Hkv)). }
  destruct (feature_guard_verdict installed _ _ _ _ _ Hs Hb Ho) as [Hok Hno].
  fold m in Hok, Hno. split; [|split].
  - exists base, m. repeat split; auto.
    apply (binding_minimum_known _ _ _ _ _ Hs Hb Ho).
  - intros Hi. apply Hok. eapply vt_le_trans; eassumption.
  - intros Hi. apply Hno.
    assert (Hlm : vt_le (2, 6, 7) m) by (eapply vt_le_trans; eassumption).
    unfold vt_le in Hlm.
    destruct (vt_ltb installed m) eqn:E; [reflexivity|].
    exfalso. clear Hok Hno Hbm Hm17 Hlo Hhi Ht. vt_lia.
Qed.

(** X6 at a remove command under git 2.20.1. *)
Lemma guard_version_window_witness :
  feature_guard (2, 20, 1) ["git"; "worktree"; "remove"; "/tmp/wt"; "-f"]
  = OK tt.
Proof.
  apply (guard_version_window (2, 20, 1)
           ["git"; "worktree"; "remove"; "/tmp/wt"; "-f"] "remove"
           ["/tmp/wt"; "-f"] eq_refl eq_refl).
  reflexivity.
Defined.

(** ** The listing parser *)

Lemma plain_line_nonempty l : plain_line l -> nonempty l = true.
Proof. intros [_ H]. destruct l; [now contradiction H | reflexivity]. Qed.

Lemma splitlines_unlines_plain (ls : list string) (rest : string) :
  Forall plain_line ls ->
  filter nonempty (splitlines_aux false "" (unlines ls ++ rest)) =
  ls ++ filter nonempty (splitlines_aux false "" rest).
Proof.
  induction 1 as [|l ls Hl _ IH]; [reflexivity|].
  cbn [unlines]. rewrite !append_assoc.
  rewrite splitlines_aux_line by apply Hl.
  cbn [append filter]. rewrite (plain_line_nonempty _ Hl).
  now rewrite IH.
Qed.

Lemma listing_lines_plain (groups : list (list string)) :
  Forall (Forall plain_line) groups ->
  filter nonempty (splitlines (render_listing groups)) = List.concat groups.
Proof.
  unfold splitlines.
  induction 1 as [|g groups Hg _ IH]; [reflexivity|].
  cbn [render_listing List.concat].
  rewrite splitlines_unlines_plain by exact Hg.
  pose proof (splitlines_aux_line "" eq_refl "" (render_listing groups)) as E.
  cbn [append] in E. rewrite E. cbn [filter nonempty String.eqb negb].
  now rewrite IH.
Qed.

Lemma lmap_r_blank (ls : list string) :
  Exists (fun l => split_ws l = []) ls ->
  lmap_r (fun x => last_item (split_ws x)) ls = Raise IndexError.
Proof.
  induction 1 as [l ls Hl|l ls _ IH]; cbn [lmap_r].
  - now rewrite Hl.
  - rewrite IH. unfold last_item. destruct (split_ws l); reflexivity.
Qed.

(** X7. A data line made of whitespace only has no last token: the listing
    that holds one makes [list_worktrees] raise [IndexError], whatever the
    sizes of the groups. *)
Theorem list_worktrees_blank_datum {G : Type} (W : World G)
  (porcelain : bool) (groups : list (list string)) (rc : Z)
  (s s' : State G) :
  Forall (Forall plain_line) groups ->
  Exists (Exists (fun l => split_ws l = [])) groups ->
  run_command W "list" [] [("porcelain", PyBool porcelain)] s
  = (OK (rc, render_listing groups), s') ->
  list_worktrees W porcelain s = (Raise IndexError, s').
Proof.
  intros Hp Hb Hrun.
  rewrite (list_worktrees_parses W porcelain rc _ s s' Hrun).
  unfold parse_listing.
  change (fun x : string => negb (String.eqb x "")) with nonempty.
  rewrite (listing_lines_plain groups Hp). rewrite lmap_r_blank; [reflexivity|].
  apply Exists_concat. exact Hb.
Qed.

(** X7 at a listing whose second line is three spaces. *)
Lemma list_worktrees_blank_datum_witness :
  list_worktrees
    (Fixture.scripted (2, 30, 0)
       (render_listing [["worktree /home/user/repo"; "   "; "branch main"]])
       Fixture.done Fixture.done)
    true Fixture.start =
  (Raise IndexError, mkState tt [list_command] []).
Proof.
  apply (list_worktrees_blank_datum
           (Fixture.scripted (2, 30, 0)
              (render_listing
                 [["worktree /home/user/repo"; "   "; "branch main"]])
              Fixture.done Fixture.done)
           true [["worktree /home/user/repo"; "   "; "branch main"]] 0%Z
           Fixture.start).
  - repeat constructor; discriminate.
  - constructor. apply Exists_cons_tl. constructor. reflexivity.
  - reflexivity.
Defined.

Lemma split_ws_aux_token (b : string) :
  no_space b = true ->
  forall cur, split_ws_aux cur b =
              match (cur ++ b)%string with
              | EmptyString => []
              | _ => [(cur ++ b)%string]
              end.
Proof.
  induction b as [|c b IH]; intros Hb cur.
  - cbn [split_ws_aux]. rewrite append_nil_r. reflexivity.
  - cbn [no_space] in Hb. apply andb_prop in Hb as [Hc Hb].
    apply negb_true_iff in Hc. cbn [split_ws_aux]. rewrite Hc.
    rewrite (IH Hb). now rewrite append_assoc.
Qed.

Lemma split_ws_aux_space (x : string) (sp : ascii) (b : string) :
  isspace sp = true ->
  forall cur,
    split_ws_aux cur (x ++ String sp b) =
    split_ws_aux cur x ++ split_ws_aux "" b.
Proof.
  intros Hsp. induction x as [|c x IH]; intros cur.
  - cbn [append split_ws_aux]. rewrite Hsp. destruct cur; reflexivity.
  - cbn [append split_ws_aux]. destruct (isspace c).
    + destruct cur; rewrite IH; reflexivity.
    + apply IH.
Qed.

(** X8. Of each data line only the last whitespace-free token is kept:
    whatever precedes the last run of whitespace, separators and earlier
    tokens alike, does not reach the record.  A root path with a space in it
    is recorded as its part after the last space. *)
Theorem datum_last_token (x : string) (sp : ascii) (b : string) :
  isspace sp = true ->
  no_space b = true ->
  b <> ""%string ->
  split_ws (x ++ String sp b) = split_ws x ++ [b] /\
  datum (x ++ String sp b) = b /\
  last_item (split_ws (x ++ String sp b)) = OK b.
Proof.
  intros Hsp Hb Hne.
  assert (E : split_ws (x ++ String sp b) = split_ws x ++ [b]).
  { unfold split_ws. rewrite (split_ws_aux_space x sp b Hsp).
    rewrite (split_ws_aux_token b Hb). cbn [append].
    destruct b; [now contradiction Hne | reflexivity]. }
  split; [exact E|]. unfold datum, last_item. rewrite E, last_last.
  split; [reflexivity|]. destruct (split_ws x); reflexivity.
Qed.

(** X8 at a root path with a space in it. *)
Lemma datum_last_token_witness :
  datum ("worktree /home/user/my" ++ String " " "repo") = "repo".
Proof.
  apply (datum_last_token "worktree /home/user/my" " " "repo");
    [reflexivity | reflexivity | discriminate].
Defined.

(** ** The resolver *)

Lemma lmap_r_raises {A B} (P : exn -> Prop) (f : A -> result B) (l : list A) :
  (forall x e, f x = Raise e -> P e) ->
  forall e, lmap_r f l = Raise e -> P e.
Proof.
  intros Hf. induction l as [|x l IH]; intros e; cbn [lmap_r]; [discriminate|].
  destruct (f x) as [y|e0] eqn:E.
  - destruct (lmap_r f l); [discriminate|]. intros [= <-]. now apply IH.
  - intros [= <-]. eapply Hf; eassumption.
Qed.

Lemma parse_listing_raises output e :
  parse_listing output = Raise e -> e = IndexError \/ e = ParseError.
Proof.
  unfold parse_listing, rbind.
  match goal with
  | |- context [lmap_r ?f ?l] => destruct (lmap_r f l) as [data|e0] eqn:E
  end.
  - intros H. right. revert e H. apply lmap_r_raises.
    intros x e. unfold from_list.
    destruct x as [|a [|b [|c [|d x]]]]; try discriminate; now intros [= <-].
  - intros [= <-]. left. revert e0 E. apply lmap_r_raises.
    intros x e. unfold last_item. destruct (split_ws x); [|discriminate].
    now intros [= <-].
Qed.

Lemma run_command_list_raises {G : Type} (W : World G) porcelain s e s' :
  run_command W "list" [] [("porcelain", PyBool porcelain)] s = (Raise e, s') ->
  exists msg, e = GitError msg.
Proof.
  assert (Hp : prepare_subprocess_args "list" []
                 [("porcelain", PyBool porcelain)] =
               OK (["git"; "worktree"; "list"]
                   ++ (if porcelain then ["--porcelain"] else [])))
    by (destruct porcelain; reflexivity).
  unfold run_command, bind, lift. rewrite Hp.
  destruct (feature_guard_known (get_git_version W)
              (["git"; "worktree"; "list"]
               ++ (if porcelain then ["--porcelain"] else []))
              "list" (if porcelain then ["--porcelain"] else [])
              eq_refl eq_refl) as (m & _ & E).
  rewrite E. destruct (vt_ltb (get_git_version W) m).
  - intros [= <- _]. now eexists.
  - destruct (run_subprocess_effect W
                (["git"; "worktree"; "list"]
                 ++ (if porcelain then ["--porcelain"] else [])) s)
      as (rc & out & err & g & _ & ->).
    destruct (Z.eqb rc 0); [discriminate|]. intros [= <- _]. now eexists.
Qed.

Lemma list_worktrees_raises {G : Type} (W : World G) porcelain s e s' :
  list_worktrees W porcelain s = (Raise e, s') ->
  (exists msg, e = GitError msg) \/ e = IndexError \/ e = ParseError.
Proof.
  unfold list_worktrees, bind.
  destruct (run_command W "list" [] [("porcelain", PyBool porcelain)] s)
    as [[r|e0] s0] eqn:E.
  - unfold lift. intros [= H _]. right. now apply parse_listing_raises in H.
  - intros [= <- _]. left. exact (run_command_list_raises W _ _ _ _ E).
Qed.

(** The resolver with its progress messages: the result is the one of the
    quiet resolver, the messages are added to the output. *)
Lemma get_worktree_by_attr_outcome {G : Type} (W : World G)
  attr value verbose s r s1 :
  known_attr attr ->
  list_worktrees W true s = (r, s1) ->
  exists texts,
    get_worktree_by_attr W attr value verbose s =
    (match r with
     | OK wts => OK (find (attr_matches attr value) wts)
     | Raise e => Raise e
     end, with_stdout s1 (stdout s ++ texts)) /\
    (verbose = false -> texts = []).
Proof.
  intros Ha Hl. destruct (attr_checks_matches attr value Ha) as (m & Hm & Hx).
  unfold get_worktree_by_attr. rewrite Hm.
  destruct verbose; unfold when, bind, print, ret.
  - match goal with
    | |- context [list_worktrees W true ?s0] =>
        destruct (list_worktrees_frame W true s r s1 (stdout s0) Hl)
          as [_ E]; change s0 with (with_stdout s (stdout s0));
        rewrite E
    end.
    cbn [stdout]. destruct r as [wts|e].
    + rewrite (find_pointwise _ (attr_matches attr value) wts Hx).
      destruct (find (attr_matches attr value) wts) as [wt|].
      * destruct (get_ref_and_type W wt) as [ref ref_type].
        eexists. split; [|discriminate]. unfold with_stdout.
        cbn [git calls stdout]. rewrite <- !app_assoc. reflexivity.
      * eexists. split; [|discriminate]. unfold with_stdout.
        cbn [git calls stdout]. rewrite <- !app_assoc. reflexivity.
    + eexists. split; [|discriminate]. reflexivity.
  - exists []. split; [|reflexivity].
    destruct (list_worktrees_frame W true s r s1 (stdout s) Hl) as [Ho _].
    rewrite Hl. rewrite app_nil_r. unfold with_stdout. rewrite <- Ho.
    destruct s1 as [g c o]. cbn [git calls stdout].
    destruct r as [wts|e]; [|reflexivity].
    rewrite (find_pointwise _ (attr_matches attr value) wts Hx).
    destruct (find (attr_matches attr value) wts); reflexivity.
Qed.

(** X9. The errors of the resolver: an attribute other than root, commit,
    branch and tag fails the assertion before anything is printed or asked
    of the external tool; for the four attributes the only errors are those
    of the listing, [GitError] of the invocation or its guard and
    [IndexError] or [ParseError] of the parser. *)
Theorem get_worktree_by_attr_errors {G : Type} (W : World G)
  (attr value : string) (verbose : bool) (s s' : State G) (e : exn) :
  get_worktree_by_attr W attr value verbose s = (Raise e, s') ->
  (~ known_attr attr /\
   e = AssertionError ("illegal worktree attribute " ++ repr attr) /\
   s' = s) \/
  (known_attr attr /\
   ((exists msg, e = GitError msg) \/ e = IndexError \/ e = ParseError)).
Proof.
  destruct (attr_checks_known attr value) as [Hn|Hk].
  - unfold get_worktree_by_attr. rewrite Hn. intros [= <- <-]. left.
    split; [|now split]. intros Hk.
    destruct (attr_checks_matches attr value Hk) as (m & Hm & _). congruence.
  - destruct (list_worktrees W true s) as [r s1] eqn:Hl.
    destruct (get_worktree_by_attr_outcome W attr value verbose s r s1 Hk Hl)
      as (texts & -> & _).
    destruct r as [wts|e0]; [discriminate|]. intros [= <- _]. right.
    split; [exact Hk|]. exact (list_worktrees_raises W _ _ _ _ Hl).
Qed.

(** X9 at an attribute the resolver has no test for. *)
Lemma get_worktree_by_attr_errors_witness :
  (~ known_attr "path" /\
   AssertionError "illegal worktree attribute 'path'" =
   AssertionError ("illegal worktree attribute " ++ repr "path") /\
   Fixture.start = Fixture.start) \/
  (known_attr "path" /\
   ((exists msg, AssertionError "illegal worktree attribute 'path'"
                 = GitError msg) \/
    AssertionError "illegal worktree attribute 'path'" = IndexError \/
    AssertionError "illegal worktree attribute 'path'" = ParseError)).
Proof.
  apply (get_worktree_by_attr_errors
           (Fixture.scripted (2, 30, 0) "" Fixture.done Fixture.done)
           "path" "/home/user/repo" true Fixture.start Fixture.start
           (AssertionError "illegal worktree attribute 'path'")).
  reflexivity.
Defined.

Lemma contains_empty (x : string) : contains "" x = true.
Proof. destruct x; reflexivity. Qed.

(** X10. An empty value matches every commit id: asked for the commit
    attribute with the empty string, the resolver returns the first worktree
    of the listing, and not-found only when the listing is empty. *)
Theorem get_worktree_by_attr_empty_commit {G : Type} (W : World G)
  (verbose : bool) (s s1 : State G) (wts : list Worktree) :
  list_worktrees W true s = (OK wts, s1) ->
  fst (get_worktree_by_attr W "commit" "" verbose s) = OK (hd_error wts).
Proof.
  intros Hl.
  destruct (get_worktree_by_attr_outcome W "commit" "" verbose s (OK wts) s1)
    as (texts & -> & _); [right; now left | exact Hl |].
  cbn [fst]. destruct wts as [|wt wts]; [reflexivity|].
  cbn [find hd_error]. unfold attr_matches. cbn [String.eqb Ascii.eqb Bool.eqb].
  now rewrite contains_empty.
Qed.

(** X10 at a listing of two worktrees. *)
Lemma get_worktree_by_attr_empty_commit_witness :
  fst (get_worktree_by_attr
         (Fixture.scripted (2, 30, 0) (render_listing Fixture.two_groups)
                           Fixture.done Fixture.done)
         "commit" "" false Fixture.start) =
  OK (hd_error [ mkWorktree "/home/user/repo" "1f2e3d" "refs/heads/main";
                 mkWorktree "/home/user/repo@dev" "4a5b6c" "refs/heads/dev" ]).
Proof.
  apply (get_worktree_by_attr_empty_commit
           (Fixture.scripted (2, 30, 0) (render_listing Fixture.two_groups)
                             Fixture.done Fixture.done)
           false Fixture.start (mkState tt [list_command] [])).
  reflexivity.
Defined.

Lemma last_segment_no_slash (x : string) :
  has_char "/" (last (split_on "/" x) "") = false.
Proof.
  apply (last_Forall (fun w => has_char "/" w = false));
    [apply split_on_pieces | reflexivity].
Qed.

Lemma slash_value_never_matches attr value wt :
  attr = "branch"%string \/ attr = "tag"%string ->
  has_char "/" value = true ->
  attr_matches attr value wt = false.
Proof.
  intros Ha Hv.
  assert (E : String.eqb (last (split_on "/" (ref_label wt)) "") value = false).
  { apply String.eqb_neq. intros H.
    pose proof (last_segment_no_slash (ref_label wt)) as Hn. congruence. }
  destruct Ha as [-> | ->]; unfold attr_matches; exact E.
Qed.

(** X11. A branch or tag value with a slash in it matches no worktree: the
    test compares the value with the text after the last slash of the
    candidate, which has no slash.  The resolver returns not-found for it
    whatever the listing holds. *)
Theorem get_worktree_by_attr_slash_value {G : Type} (W : World G)
  (attr value : string) (verbose : bool) (s s1 : State G)
  (wts : list Worktree) :
  attr = "branch"%string \/ attr = "tag"%string ->
  has_char "/" value = true ->
  list_worktrees W true s = (OK wts, s1) ->
  fst (get_worktree_by_attr W attr value verbose s) = OK None.
Proof.
  intros Ha Hv Hl.
  assert (Hk : known_attr attr)
    by (destruct Ha as [-> | ->]; unfold known_attr; auto).
  destruct (get_worktree_by_attr_outcome W attr value verbose s (OK wts) s1
              Hk Hl) as (texts & -> & _).
  cbn [fst]. f_equal. apply find_none_iff. apply Forall_forall.
  intros wt _. now apply slash_value_never_matches.
Qed.

(** X11 at a branch checked out in the listing under its full name. *)
Lemma get_worktree_by_attr_slash_value_witness :
  fst (get_worktree_by_attr
         (Fixture.scripted (2, 30, 0)
            (render_listing
               [["worktree /home/user/repo@feature-x"; "HEAD 7d8e9f";
                 "branch refs/heads/feature/x"]])
            Fixture.done Fixture.done)
         "branch" "feature/x" false Fixture.start) = OK None.
Proof.
  apply (get_worktree_by_attr_slash_value
           (Fixture.scripted (2, 30, 0)
              (render_listing
                 [["worktree /home/user/repo@feature-x"; "HEAD 7d8e9f";
                   "branch refs/heads/feature/x"]])
              Fixture.done Fixture.done)
           "branch" "feature/x" false Fixture.start
           (mkState tt [list_command] [])
           [mkWorktree "/home/user/repo@feature-x" "7d8e9f"
                       "refs/heads/feature/x"]).
  - now left.
  - reflexivity.
  - reflexivity.
Defined.

(** ** Create and remove: what reaches the external tool *)

(** A guarded command run as the body of the context manager: the block
    always ends normally, and the command is the only thing that can have
    been handed to the external tool. *)
Lemma git_worktree_context_command {G : Type} (W : World G)
  action ref ref_type directory wt_command args kwargs command s :
  prepare_subprocess_args wt_command args kwargs = OK command ->
  exists s2,
    git_worktree_context W action ref ref_type directory
      (run_command W wt_command args kwargs ;;; ret tt) s = (OK tt, s2) /\
    (calls s2 = calls s \/ calls s2 = calls s ++ [command]).
Proof.
  intros Hp.
  destruct (prepare_subprocess_args_shape _ _ _ _ Hp) as (Hk & flags & _ & Hc).
  destruct (feature_guard_known (get_git_version W) command wt_command
              (args ++ flags)) as (m & _ & Hg);
    [subst command; reflexivity | exact Hk |].
  unfold git_worktree_context, run_command. unfold bind, print, ret, lift.
  cbn beta iota. rewrite Hp. cbn beta iota. rewrite Hg.
  destruct (vt_ltb (get_git_version W) m).
  - cbn beta iota. eexists. split; [reflexivity|]. left. reflexivity.
  - cbn beta iota. unfold run_subprocess. cbn [git calls stdout].
    destruct (exec W command (git s)) as [[[rc out] err] g].
    destruct (Z.eqb rc 0); cbn beta iota; eexists;
      (split; [reflexivity|]); right; reflexivity.
Qed.

Lemma get_worktree_by_attr_any_calls {G : Type} (W : World G)
  attr value verbose s r s' :
  get_worktree_by_attr W attr value verbose s = (r, s') ->
  calls s' = calls s \/ calls s' = calls s ++ [list_command].
Proof.
  destruct (attr_checks_known attr value) as [Hn|Hk].
  - unfold get_worktree_by_attr. rewrite Hn. intros [= _ <-]. now left.
  - destruct (list_worktrees W true s) as [r0 s1] eqn:Hl.
    destruct (get_worktree_by_attr_outcome W attr value verbose s r0 s1 Hk Hl)
      as (texts & -> & _).
    intros [= _ <-]. cbn [with_stdout calls].
    destruct (list_worktrees_calls W true s r0 s1 Hl) as [[-> _]|H];
      [now left | right; exact H].
Qed.

Lemma get_worktree_by_attr_found {G : Type} (W : World G)
  attr value verbose s wt s' :
  get_worktree_by_attr W attr value verbose s = (OK (Some wt), s') ->
  attr_matches attr value wt = true /\
  calls s' = calls s ++ [list_command] /\
  exists wts s1, list_worktrees W true s = (OK wts, s1) /\ In wt wts.
Proof.
  destruct (attr_checks_known attr value) as [Hn|Hk].
  - unfold get_worktree_by_attr. rewrite Hn. discriminate.
  - destruct (list_worktrees W true s) as [r0 s1] eqn:Hl.
    destruct (get_worktree_by_attr_outcome W attr value verbose s r0 s1 Hk Hl)
      as (texts & -> & _).
    destruct r0 as [wts|e]; [|discriminate]. intros [= Hf <-].
    apply find_some in Hf as [Hin Hm]. split; [exact Hm|]. split.
    + cbn [with_stdout calls].
      destruct (list_worktrees_calls W true s _ _ Hl) as [[_ [e He]]|H];
        [discriminate He | exact H].
    + now exists wts, s1.
Qed.

Lemma add_worktree_tail {G : Type} (W : World G) ref ref_type d
  (force checkout lock : bool) (s1 s' : State G) (r : result Worktree) :
  (git_worktree_context W "add" ref ref_type d
     (run_command W "add" [d; ref]
        [("force", PyBool force); ("checkout", PyBool checkout);
         ("lock", PyBool lock)] ;;; ret tt) ;;;
   wt <- get_worktree_by_attr W "root" d false ;;
   match wt with
   | None =>
       raise (AssertionError "internal error in git worktree construction")
   | Some wt => ret wt
   end) s1 = (r, s') ->
  exists mid post,
    calls s' = calls s1 ++ mid ++ post /\
    (mid = [] \/ mid = [add_command d ref force checkout lock]) /\
    (post = [] \/ post = [list_command]) /\
    (forall wt, r = OK wt ->
       post = [list_command] /\
       name (path_of (root wt)) = name (path_of d)).
Proof.
  destruct (git_worktree_context_command W "add" ref ref_type d "add"
              [d; ref] _ _ s1 (prepare_add d ref force checkout lock))
    as (s2 & Hctx & Hc).
  unfold bind at 1. rewrite Hctx. unfold bind.
  destruct (get_worktree_by_attr W "root" d false s2) as [r2 s3] eqn:Hpost.
  assert (Hmid : exists mid, calls s2 = calls s1 ++ mid /\
            (mid = [] \/ mid = [add_command d ref force checkout lock])).
  { destruct Hc as [Hc|Hc].
    - exists []. rewrite Hc, app_nil_r. auto.
    - exists [add_command d ref force checkout lock]. rewrite Hc. auto. }
  destruct Hmid as (mid & Hs2 & Hmid).
  destruct r2 as [[wt|]|e]; unfold ret, raise; intros [= <- <-].
  - destruct (get_worktree_by_attr_found W _ _ _ _ _ _ Hpost)
      as (Hm & Hcalls & _).
    exists mid, [list_command]. rewrite Hcalls, Hs2, <- app_assoc.
    repeat split; auto.
    injection H as <-. unfold attr_matches in Hm. cbn [String.eqb] in Hm.
    now apply String.eqb_eq.
  - destruct (get_worktree_by_attr_any_calls W _ _ _ _ _ _ Hpost) as [E|E];
      [exists mid, [] | exists mid, [list_command]];
      rewrite E, Hs2, <- ?app_assoc, ?app_nil_r;
      repeat split; auto; discriminate.
  - destruct (get_worktree_by_attr_any_calls W _ _ _ _ _ _ Hpost) as [E|E];
      [exists mid, [] | exists mid, [list_command]];
      rewrite E, Hs2, <- ?app_assoc, ?app_nil_r;
      repeat split; auto; discriminate.
Qed.

(** Every run of [add_worktree], in one statement: what it hands to the
    external tool, and what a returned worktree looks like. *)
Lemma add_worktree_trace {G : Type} (W : World G) (commit_ish : string)
  (destination : option string)
  (force checkout lock resolve_commits verbose : bool)
  (s s' : State G) (r : result Worktree) :
  add_worktree W commit_ish destination force checkout lock resolve_commits
               verbose s = (r, s') ->
  exists pre mid post,
    calls s' = calls s ++ pre ++ mid ++ post /\
    (pre = [] \/ (force = false /\ pre = [list_command])) /\
    (mid = [] \/
     exists ref,
       mid = [add_command (effective_destination W commit_ish destination)
                          ref force checkout lock]) /\
    (post = [] \/ post = [list_command]) /\
    (is_main_worktree W (current_folder W) = false ->
     pre = [] /\ mid = [] /\ post = [] /\ s' = s /\
     r = Raise (GitError "No git repository present in this path.")) /\
    (forall wt, r = OK wt ->
       post = [list_command] /\
       name (path_of (root wt)) =
       name (path_of (effective_destination W commit_ish destination))).
Proof.
  intros H. destruct (is_main_worktree W (current_folder W)) eqn:Hm.
  - destruct (resolve_ref W commit_ish resolve_commits (git s))
      as [[ref ref_type]|e] eqn:Hr.
    + rewrite (add_worktree_resolved W _ _ _ _ _ _ _ _ _ _ Hm Hr) in H.
      unfold bind at 1 in H.
      pose proof (announced_calls commit_ish ref_type verbose s) as Ha.
      destruct force.
      * unfold ret at 1 in H. cbv zeta in H.
        destruct (add_worktree_tail W _ _ _ _ _ _ _ _ _ H)
          as (mid & post & Hc & Hmid & Hpost & Hwt).
        exists [], mid, post. rewrite Hc, Ha. cbn [app].
        repeat split; auto; try discriminate.
        -- destruct Hmid as [-> | ->]; [now left | right; now exists ref].
        -- apply (Hwt wt H0).
        -- apply (Hwt wt H0).
      * unfold bind at 1 in H.
        destruct (get_worktree_by_attr W ref_type ref false
                    (announced commit_ish ref_type verbose s))
          as [r0 s1] eqn:Hd.
        pose proof (get_worktree_by_attr_any_calls W _ _ _ _ _ _ Hd) as Hc1.
        rewrite Ha in Hc1.
        assert (Hpre : exists pre, calls s1 = calls s ++ pre /\
                  (pre = [] \/ (false = false /\ pre = [list_command]))).
        { destruct Hc1 as [E|E]; [exists [] | exists [list_command]];
            rewrite E, ?app_nil_r; auto. }
        destruct Hpre as (pre & Hs1 & Hpre).
        destruct r0 as [[wt0|]|e].
        -- unfold ret, raise in H. injection H as <- <-.
           exists pre, [], []. rewrite Hs1, !app_nil_r.
           repeat split; auto; discriminate.
        -- unfold ret at 1 in H. cbv zeta in H.
           destruct (add_worktree_tail W _ _ _ _ _ _ _ _ _ H)
             as (mid & post & Hc & Hmid & Hpost & Hwt).
           exists pre, mid, post. rewrite Hc, Hs1, <- app_assoc.
           repeat split; auto; try discriminate.
           ++ destruct Hmid as [-> | ->]; [now left | right; now exists ref].
           ++ apply (Hwt wt H0).
           ++ apply (Hwt wt H0).
        -- injection H as <- <-. exists pre, [], []. rewrite Hs1, !app_nil_r.
           repeat split; auto; discriminate.
    + unfold add_worktree in H. rewrite Hm in H. cbn [negb] in H.
      unfold bind, read, lift in H. rewrite Hr in H. injection H as <- <-.
      exists [], [], []. rewrite !app_nil_r.
      repeat split; auto; discriminate.
  - unfold add_worktree in H. rewrite Hm in H. cbn [negb] in H.
    unfold raise in H. injection H as <- <-.
    exists [], [], []. rewrite !app_nil_r. repeat split; auto; discriminate.
Qed.

(** X12. Whatever its arguments and the state of the repository,
    [add_worktree] hands to the external tool at most a listing (only without
    force), then at most one add command, whose destination is the one given
    or made up, then at most a listing; it never issues a remove.  Outside
    the main checkout it raises the error of the precondition and issues
    nothing. *)
Theorem add_worktree_invocations {G : Type} (W : World G)
  (commit_ish : string) (destination : option string)
  (force checkout lock resolve_commits verbose : bool)
  (s s' : State G) (r : result Worktree) :
  add_worktree W commit_ish destination force checkout lock resolve_commits
               verbose s = (r, s') ->
  exists pre mid post,
    calls s' = calls s ++ pre ++ mid ++ post /\
    (pre = [] \/ (force = false /\ pre = [list_command])) /\
    (mid = [] \/
     exists ref,
       mid = [add_command (effective_destination W commit_ish destination)
                          ref force checkout lock]) /\
    (post = [] \/ post = [list_command]) /\
    (is_main_worktree W (current_folder W) = false ->
     pre = [] /\ mid = [] /\ post = [] /\ s' = s /\
     r = Raise (GitError "No git repository present in this path.")).
Proof.
  intros H.
  destruct (add_worktree_trace W _ _ _ _ _ _ _ _ _ _ H)
    as (pre & mid & post & H1 & H2 & H3 & H4 & H5 & _).
  exists pre, mid, post. repeat split; auto; apply H5; assumption.
Qed.


(** X12 at a create call whose add command the scripted tool accepts. *)
Lemma add_worktree_invocations_witness :
  exists pre mid post,
    calls (snd (add_worktree
                  (Fixture.scripted (2, 30, 0)
                     (render_listing Fixture.two_groups)
                     Fixture.done Fixture.done)
                  "feature/x" None false true false false false
                  Fixture.start)) =
    calls Fixture.start ++ pre ++ mid ++ post /\
    (pre = [] \/ (false = false /\ pre = [list_command])) /\
    (mid = [] \/
     exists ref,
       mid = [add_command
                (effective_destination
                   (Fixture.scripted (2, 30, 0)
                      (render_listing Fixture.two_groups)
                      Fixture.done Fixture.done) "feature/x" None)
                ref false true false]) /\
    (post = [] \/ post = [list_command]) /\
    (is_main_worktree
       (Fixture.scripted (2, 30, 0) (render_listing Fixture.two_groups)
                         Fixture.done Fixture.done)
       (current_folder
          (Fixture.scripted (2, 30, 0) (render_listing Fixture.two_groups)
                            Fixture.done Fixture.done)) = false ->
     pre = [] /\ mid = [] /\ post = [] /\
     snd (add_worktree
            (Fixture.scripted (2, 30, 0) (render_listing Fixture.two_groups)
                              Fixture.done Fixture.done)
            "feature/x" None false true false false false Fixture.start)
     = Fixture.start /\
     fst (add_worktree
            (Fixture.scripted (2, 30, 0) (render_listing Fixture.two_groups)
                              Fixture.done Fixture.done)
            "feature/x" None false true false false false Fixture.start)
     = Raise (GitError "No git repository present in this path.")).
Proof.
  apply (add_worktree_invocations
           (Fixture.scripted (2, 30, 0) (render_listing Fixture.two_groups)
                             Fixture.done Fixture.done)
           "feature/x" None false true false false false Fixture.start).
  reflexivity.
Defined.


Lemma remove_worktree_trace {G : Type} (W : World G) (info : string)
  (force verbose : bool) (s s' : State G) (r : result Worktree) :
  remove_worktree W info force verbose s = (r, s') ->
  exists pre mid,
    calls s' = calls s ++ pre ++ mid /\
    (pre = [] \/ pre = [list_command]) /\
    (mid = [] \/
     exists wt, r = OK wt /\ mid = [remove_command (root wt) force]) /\
    (is_main_worktree W (current_folder W) = false ->
     pre = [] /\ mid = [] /\ s' = s /\
     r = Raise (GitError "No git repository present in this path.")) /\
    (is_main_worktree W (current_folder W) = true ->
     disambiguate_info W info (git s) = None \/
     disambiguate_info W info (git s) = Some ""%string ->
     pre = [] /\ mid = [] /\ s' = s /\
     r = Raise (GitError ("Argument " ++ repr info ++ " was not recognized "
                          ++ "as an attribute of an existing worktree."))) /\
    (forall wt, r = OK wt ->
       pre = [list_command] /\
       exists attr,
         disambiguate_info W info (git s) = Some attr /\
         attr_matches attr info wt = true).
Proof.
  intros H. unfold remove_worktree in H.
  destruct (is_main_worktree W (current_folder W)) eqn:Hm; cbn [negb] in H.
  - unfold bind at 1 in H. unfold read in H.
    destruct (disambiguate_info W info (git s)) as [[|c attr]|] eqn:Hd.
    + unfold raise in H. injection H as <- <-. exists [], [].
      rewrite !app_nil_r. repeat split; auto; discriminate.
    + unfold bind at 1 in H.
      set (s0 := snd (when verbose
                        (print (determined_message info (String c attr))) s))
        in *.
      assert (Hs0 : calls s0 = calls s) by (destruct verbose; reflexivity).
      assert (Hw : when verbose
                     (print (determined_message info (String c attr))) s
                   = (OK tt, s0)) by (destruct verbose; reflexivity).
      rewrite Hw in H. unfold bind at 1 in H.
      destruct (get_worktree_by_attr W (String c attr) info verbose s0)
        as [r0 s1] eqn:Hg.
      pose proof (get_worktree_by_attr_any_calls W _ _ _ _ _ _ Hg) as Hc1.
      rewrite Hs0 in Hc1.
      assert (Hpre : exists pre, calls s1 = calls s ++ pre /\
                (pre = [] \/ pre = [list_command])).
      { destruct Hc1 as [E|E]; [exists [] | exists [list_command]];
          rewrite E, ?app_nil_r; auto. }
      destruct Hpre as (pre & Hs1 & Hpre).
      destruct r0 as [[wt0|]|e].
      * destruct (get_worktree_by_attr_found W _ _ _ _ _ _ Hg)
          as (Hmatch & Hcl & _).
        rewrite Hs0 in Hcl.
        destruct (get_ref_and_type W wt0) as [ref ref_type].
        destruct (git_worktree_context_command W "remove" ref ref_type
                    (root wt0) "remove" [root wt0] _ _ s1
                    (prepare_remove (root wt0) force)) as (s2 & Hctx & Hc2).
        unfold bind at 1 in H. rewrite Hctx in H. unfold ret in H.
        injection H as <- <-.
        exists [list_command].
        destruct Hc2 as [E|E];
          [exists [] | exists [remove_command (root wt0) force]];
          rewrite E, Hcl, <- ?app_assoc, ?app_nil_r;
          repeat split; auto; try discriminate.
        all: try match goal with
                 | H : _ \/ _ |- _ => destruct H; discriminate
                 end.
        all: try match goal with
                 | H : OK _ = OK _ |- _ =>
                     injection H as <-; exists (String c attr); now split
                 end.
        all: try (right; eexists; split; reflexivity).
      * unfold raise in H. injection H as <- <-. exists pre, [].
        rewrite Hs1, !app_nil_r.
        repeat split; auto; try discriminate;
          match goal with H : _ \/ _ |- _ => destruct H; congruence end.
      * injection H as <- <-. exists pre, [].
        rewrite Hs1, !app_nil_r.
        repeat split; auto; try discriminate;
          match goal with H : _ \/ _ |- _ => destruct H; congruence end.
    + unfold raise in H. injection H as <- <-. exists [], [].
      rewrite !app_nil_r. repeat split; auto; discriminate.
  - unfold raise in H. injection H as <- <-. exists [], [].
    rewrite !app_nil_r. repeat split; auto; discriminate.
Qed.

(** X14. Whatever its arguments and the state of the repository,
    [remove_worktree] hands to the external tool at most one listing and
    then at most one remove command, and a remove command only for the root,
    as listed, of the worktree it returns; it never issues an add.  Outside
    the main checkout it raises the error of the precondition and issues
    nothing. *)
Theorem remove_worktree_invocations {G : Type} (W : World G)
  (info : string) (force verbose : bool) (s s' : State G)
  (r : result Worktree) :
  remove_worktree W info force verbose s = (r, s') ->
  exists pre mid,
    calls s' = calls s ++ pre ++ mid /\
    (pre = [] \/ pre = [list_command]) /\
    (mid = [] \/
     exists wt, r = OK wt /\ mid = [remove_command (root wt) force]) /\
    (is_main_worktree W (current_folder W) = false ->
     pre = [] /\ mid = [] /\ s' = s /\
     r = Raise (GitError "No git repository present in this path.")).
Proof.
  intros H.
  destruct (remove_worktree_trace W _ _ _ _ _ _ H)
    as (pre & mid & H1 & H2 & H3 & H4 & _).
  exists pre, mid. repeat split; auto; apply H4; assumption.
Qed.

(** X14 at a remove call the scripted tool accepts. *)
Lemma remove_worktree_invocations_witness :
  exists pre mid,
    calls (mkState tt
             [list_command; remove_command "/home/user/repo@dev" true]
             [("Removing existing worktree for branch 'dev' in location "
               ++ "/home/user/repo@dev.....")%string;
              ("done." ++ nl)%string;
              ("Successfully removed existing worktree for branch 'dev' "
               ++ "in location /home/user/repo@dev." ++ nl)%string]) =
    calls Fixture.start ++ pre ++ mid /\
    (pre = [] \/ pre = [list_command]) /\
    (mid = [] \/
     exists wt,
       OK (mkWorktree "/home/user/repo@dev" "4a5b6c" "refs/heads/dev")
       = OK wt /\
       mid = [remove_command (root wt) true]) /\
    (is_main_worktree
       (Fixture.scripted (2, 30, 0) (render_listing Fixture.two_groups)
                         Fixture.done Fixture.done)
       (current_folder
          (Fixture.scripted (2, 30, 0) (render_listing Fixture.two_groups)
                            Fixture.done Fixture.done)) = false ->
     pre = [] /\ mid = [] /\
     mkState tt
       [list_command; remove_command "/home/user/repo@dev" true]
       [("Removing existing worktree for branch 'dev' in location "
         ++ "/home/user/repo@dev.....")%string;
        ("done." ++ nl)%string;
        ("Successfully removed existing worktree for branch 'dev' "
         ++ "in location /home/user/repo@dev." ++ nl)%string]
     = Fixture.start /\
     OK (mkWorktree "/home/user/repo@dev" "4a5b6c" "refs/heads/dev")
     = Raise (GitError "No git repository present in this path.")).
Proof.
  apply (remove_worktree_invocations
           (Fixture.scripted (2, 30, 0) (render_listing Fixture.two_groups)
                             Fixture.done Fixture.done)
           "dev" true false Fixture.start).
  reflexivity.
Defined.

(** X15. In the main checkout, an identifier for which [disambiguate_info]
    names no attribute (nothing, or the empty string) makes
    [remove_worktree] raise the error that quotes the identifier, before
    anything is asked of the external tool; and a worktree that
    [remove_worktree] returns passes the test of the attribute
    [disambiguate_info] named for the identifier. *)
Theorem remove_worktree_identifier {G : Type} (W : World G)
  (info : string) (force verbose : bool) (s s' : State G)
  (r : result Worktree) :
  is_main_worktree W (current_folder W) = true ->
  remove_worktree W info force verbose s = (r, s') ->
  (disambiguate_info W info (git s) = None \/
   disambiguate_info W info (git s) = Some ""%string ->
   s' = s /\
   r = Raise (GitError ("Argument " ++ repr info ++ " was not recognized "
                        ++ "as an attribute of an existing worktree."))) /\
  (forall wt, r = OK wt ->
     exists attr,
       disambiguate_info W info (git s) = Some attr /\
       attr_matches attr info wt = true).
Proof.
  intros Hm H.
  destruct (remove_worktree_trace W _ _ _ _ _ _ H)
    as (pre & mid & _ & _ & _ & _ & H5 & H6).
  split.
  - intros Hd. destruct (H5 Hm Hd) as (_ & _ & Hs & Hr). now split.
  - intros wt Hr. exact (proj2 (H6 wt Hr)).
Qed.

(** X15 at a remove call that finds its worktree by branch. *)
Lemma remove_worktree_identifier_witness :
  exists attr,
    disambiguate_info
      (Fixture.scripted (2, 30, 0) (render_listing Fixture.two_groups)
                        Fixture.done Fixture.done)
      "dev" (git Fixture.start) = Some attr /\
    attr_matches attr "dev"
      (mkWorktree "/home/user/repo@dev" "4a5b6c" "refs/heads/dev") = true.
Proof.
  apply (proj2 (remove_worktree_identifier
                  (Fixture.scripted (2, 30, 0)
                     (render_listing Fixture.two_groups)
                     Fixture.done Fixture.done)
                  "dev" true false Fixture.start
                  (mkState tt
                     [list_command; remove_command "/home/user/repo@dev" true]
                     [("Removing existing worktree for branch 'dev' in "
                       ++ "location /home/user/repo@dev.....")%string;
                      ("done." ++ nl)%string;
                      ("Successfully removed existing worktree for branch "
                       ++ "'dev' in location /home/user/repo@dev."
                       ++ nl)%string])
                  (OK (mkWorktree "/home/user/repo@dev" "4a5b6c"
                                  "refs/heads/dev"))
                  eq_refl eq_refl)
               (mkWorktree "/home/user/repo@dev" "4a5b6c" "refs/heads/dev")
               eq_refl).
Defined.

(** ** The default destination *)

Lemma replace_char_idem a b (x : string) :
  a <> b -> replace_char a b (replace_char a b x) = replace_char a b x.
Proof.
  intros Hab. induction x as [|c x IH]; [reflexivity|].
  cbn [replace_char]. rewrite IH. f_equal.
  destruct (Ascii.eqb_spec c a) as [->|Hc].
  - destruct (Ascii.eqb_spec b a); congruence.
  - destruct (Ascii.eqb_spec c a); congruence.
Qed.

Lemma split_on_snoc sep (x w : string) :
  has_char sep w = false ->
  split_on sep (x ++ String sep w) = split_on sep x ++ [w].
Proof.
  intros Hw. induction x as [|c x IH].
  - cbn [append split_on]. rewrite Ascii.eqb_refl.
    now rewrite (split_on_whole sep w Hw).
  - cbn [append split_on]. rewrite IH.
    destruct (Ascii.eqb c sep); [reflexivity|].
    pose proof (split_on_nonempty sep x) as Hn.
    destruct (split_on sep x); [contradiction | reflexivity].
Qed.

Lemma join_snoc sep (ps : list string) (w : string) :
  ps <> [] ->
  join sep (ps ++ [w]) = (join sep ps ++ sep ++ w)%string.
Proof.
  induction ps as [|p ps IH]; [contradiction|]. intros _.
  destruct ps as [|q ps]; [reflexivity|].
  change ((p :: q :: ps) ++ [w]) with (p :: (q :: ps) ++ [w]).
  cbn [app]. rewrite !join_cons.
  change (q :: ps ++ [w]) with ((q :: ps) ++ [w]).
  rewrite IH by discriminate. now rewrite !append_assoc.
Qed.

Lemma name_of_last_component (x w : string) :
  has_char "/" w = false -> is_part w = true ->
  name (path_of (x ++ String "/" w)) = w.
Proof.
  intros Hs Hp. unfold name, path_of. cbn [parts].
  rewrite (split_on_snoc "/" x w Hs), filter_app. cbn [filter].
  rewrite Hp. apply last_last.
Qed.

Lemma path_of_anchor (x : string) :
  anchor (path_of x) = ""%string \/ anchor (path_of x) = "/"%string \/
  anchor (path_of x) = "//"%string.
Proof.
  unfold path_of. cbn [anchor].
  destruct (startswith "///" x); [auto|].
  destruct (startswith "//" x); [auto|].
  destruct (startswith "/" x); auto.
Qed.

(** X16. The made-up destination ends in the single component repository
    name, at sign, escaped commit-ish, which is therefore what the final
    look-up by root compares; and the escaping is not reversible: a
    commit-ish and its escaped form get the same destination, so two refs
    that differ only in slash versus dash collide. *)
Theorem default_destination_component (x : string) (in_parent : bool)
  (commit_ish : string) :
  name (path_of (default_destination (path_of x) in_parent commit_ish)) =
  (name (path_of x) ++ "@" ++ replace_char "/" "-" commit_ish)%string /\
  default_destination (path_of x) in_parent
    (replace_char "/" "-" commit_ish) =
  default_destination (path_of x) in_parent commit_ish.
Proof.
  split.
  - rewrite default_destination_shape.
    set (w := (name (path_of x) ++ "@"
               ++ replace_char "/" "-" commit_ish)%string).
    assert (Hs : has_char "/" w = false).
    { unfold w. rewrite !has_char_app, name_no_slash.
      rewrite replace_char_gone by discriminate. reflexivity. }
    assert (Hp : is_part w = true).
    { apply at_sign_is_part. unfold w. rewrite !has_char_app.
      change (has_char "@" "@") with true. cbn [orb]. apply orb_true_r. }
    set (ps := if in_parent then removelast (parts (path_of x))
               else parts (path_of x)).
    destruct ps as [|p ps'] eqn:Eps.
    + cbn [app join].
      destruct (path_of_anchor x) as [-> | [-> | ->]].
      * cbn [append]. unfold name, path_of. cbn [parts].
        rewrite (split_on_whole "/" w Hs). cbn [filter]. now rewrite Hp.
      * exact (name_of_last_component "" w Hs Hp).
      * exact (name_of_last_component "/" w Hs Hp).
    + rewrite join_snoc by discriminate. rewrite <- append_assoc.
      change ("/" ++ w)%string with (String "/" w).
      apply (name_of_last_component _ w Hs Hp).
  - unfold default_destination. cbv zeta.
    now rewrite replace_char_idem by discriminate.
Qed.

(** ** Create: a reference with a slash in it *)

(** X17. The duplicate check of [add_worktree] cannot see a branch or tag
    whose name has a slash in it: with such a reference resolved, a create
    call without force goes on to the add command right after the listing,
    whatever the listing holds, the branch itself included. *)
Theorem add_worktree_slash_ref_unchecked {G : Type} (W : World G)
  (commit_ish : string) (destination : option string)
  (checkout lock resolve_commits verbose : bool) (s s1 : State G)
  (ref ref_type : string) (wts : list Worktree) :
  is_main_worktree W (current_folder W) = true ->
  resolve_ref W commit_ish resolve_commits (git s) = OK (ref, ref_type) ->
  ref_type = "branch"%string \/ ref_type = "tag"%string ->
  has_char "/" ref = true ->
  list_worktrees W true (announced commit_ish ref_type verbose s)
  = (OK wts, s1) ->
  let d := effective_destination W commit_ish destination in
  feature_guard (get_git_version W) (add_command d ref false checkout lock)
  = OK tt ->
  exists tl,
    calls (snd (add_worktree W commit_ish destination false checkout lock
                             resolve_commits verbose s)) =
    calls s ++ list_command :: add_command d ref false checkout lock :: tl.
Proof.
  intros Hm Hr Ht Hs Hl d Hg.
  assert (Hk : known_attr ref_type)
    by (destruct Ht as [-> | ->]; unfold known_attr; auto).
  pose proof (get_worktree_by_attr_quiet W ref_type ref _ _ _ Hk Hl) as Hq.
  assert (Hnone : find (attr_matches ref_type ref) wts = None).
  { apply find_none_iff, Forall_forall. intros wt _.
    now apply slash_value_never_matches. }
  cbn beta iota in Hq. rewrite Hnone in Hq.
  destruct (add_worktree_invokes W commit_ish destination false checkout lock
              resolve_commits verbose s ref ref_type s1 Hm Hr Hq Hg)
    as (tl & Hc & _).
  exists tl. rewrite Hc.
  rewrite (get_worktree_by_attr_ok_calls W _ _ _ _ _ Hq), announced_calls.
  now rewrite <- app_assoc.
Qed.

(** X17 at the branch feature/x, which the listing shows checked out. *)
Lemma add_worktree_slash_ref_unchecked_witness :
  exists tl,
    calls (snd (add_worktree
                  (Fixture.scripted (2, 30, 0)
                     (render_listing
                        [["worktree /home/user/repo@feature-x"; "HEAD 7d8e9f";
                          "branch refs/heads/feature/x"]])
                     Fixture.done Fixture.done)
                  "feature/x" (Some "/home/user/second") false true false
                  false false Fixture.start)) =
    calls Fixture.start
    ++ list_command
    :: add_command "/home/user/second" "feature/x" false true false :: tl.
Proof.
  apply (add_worktree_slash_ref_unchecked
           (Fixture.scripted (2, 30, 0)
              (render_listing
                 [["worktree /home/user/repo@feature-x"; "HEAD 7d8e9f";
                   "branch refs/heads/feature/x"]])
              Fixture.done Fixture.done)
           "feature/x" (Some "/home/user/second") true false false false
           Fixture.start (mkState tt [list_command] [])
           "feature/x" "branch"
           [mkWorktree "/home/user/repo@feature-x" "7d8e9f"
                       "refs/heads/feature/x"]);
    try reflexivity.
  now left.
Defined.

(** * The builder *)

(** ** Its context managers *)


Lemma builder_pip_context_outcome {F : Type} (W : Builder.World F)
  (action directory : string) (packages : option (list string))
  (requirements_file : option string) (body : Builder.M F unit)
  (s s1 : Builder.State F) (r : Builder.outcome unit) :
  body (Builder.mkState (Builder.store s) (Builder.ran s)
          (Builder.printed s
           ++ [Builder.pip_opening action directory packages
                                   requirements_file]))
  = (r, s1) ->
  exists texts,
    Builder.pip_context action directory packages requirements_file body s =
    (match r with
     | Builder.Done _ => Builder.Done tt
     | Builder.Fail e => Builder.Fail e
     end,
     Builder.mkState (Builder.store s1) (Builder.ran s1)
                     (Builder.printed s1 ++ texts)) /\
    match r with
    | Builder.Done _ =>
        exists success, texts = [("done." ++ nl)%string; success]
    | Builder.Fail (Builder.BuilderError _) => texts = [("failed." ++ nl)%string]
    | Builder.Fail (Builder.OtherError _) => texts = []
    end.
Proof.
  intros Hb. unfold Builder.pip_context, Builder.print, Builder.bind.
  cbn beta iota zeta. cbn [Builder.store Builder.ran Builder.printed].
  rewrite Hb. destruct r as [[]|[msg|msg]]; cbn beta iota.
  - eexists. split.
    + cbn [Builder.store Builder.ran Builder.printed].
      rewrite <- app_assoc. reflexivity.
    + eexists. reflexivity.
  - eexists. split; reflexivity.
  - exists []. split; [|reflexivity]. rewrite app_nil_r.
    destruct s1; reflexivity.
Qed.


(** ** Its options *)

Lemma parse_options_join (option_string : string) :
  join "," (Builder.parse_options option_string) = option_string.
Proof.
  unfold Builder.parse_options.
  destruct (String.eqb_spec option_string ""); [now subst|].
  apply (join_split_on ","%char).
Qed.

(** X19. The option lists [__init__] reads from the configuration lose
    nothing: joined with commas again each list gives back the configured
    string; no option holds a comma; and the list is empty exactly for the
    empty string, so that an option string never yields the single empty
    option. *)
Theorem builder_init_options (homedir venvoptions pipinstalloptions
                              pipuninstalloptions : string) :
  let self := Builder.init homedir venvoptions pipinstalloptions
                           pipuninstalloptions in
  join "," (Builder.venv_options self) = venvoptions /\
  join "," (Builder.pip_install_options self) = pipinstalloptions /\
  join "," (Builder.pip_uninstall_options self) = pipuninstalloptions /\
  (forall option_string,
     Forall (fun o => has_char "," o = false)
            (Builder.parse_options option_string) /\
     (Builder.parse_options option_string = [] <-> option_string = ""%string) /\
     Builder.parse_options option_string <> [""%string]).
Proof.
  cbn zeta. unfold Builder.init.
  cbn [Builder.venv_options Builder.pip_install_options
       Builder.pip_uninstall_options].
  rewrite !parse_options_join. repeat split; try reflexivity.
  - unfold Builder.parse_options.
    destruct (String.eqb option_string ""); [constructor|].
    apply split_on_pieces.
  - unfold Builder.parse_options.
    destruct (String.eqb_spec option_string ""); [auto|].
    intros H. now apply split_on_nonempty in H.
  - intros ->. reflexivity.
  - intros H. pose proof (parse_options_join option_string) as E.
    rewrite H in E. cbn [join] in E. subst option_string. discriminate H.
Qed.

(** ** Its commands *)

Lemma splitlines_aux_open (l : string) :
  no_linebreak l = true ->
  forall cur,
    splitlines_aux false cur l =
    match (cur ++ l)%string with
    | EmptyString => []
    | _ => [(cur ++ l)%string]
    end.
Proof.
  induction l as [|c l IH]; intros Hl cur.
  - cbn [splitlines_aux]. rewrite append_nil_r. reflexivity.
  - cbn [no_linebreak] in Hl. apply andb_prop in Hl as [Hc Hl].
    apply negb_true_iff in Hc. cbn [splitlines_aux andb]. rewrite Hc.
    rewrite (IH Hl). now rewrite append_assoc.
Qed.

Lemma splitlines_unlines_all (ls : list string) (rest : string) :
  Forall (fun l => no_linebreak l = true) ls ->
  splitlines_aux false "" (unlines ls ++ rest) =
  ls ++ splitlines_aux false "" rest.
Proof.
  induction 1 as [|l ls Hl _ IH]; [reflexivity|].
  cbn [unlines]. rewrite !append_assoc.
  rewrite splitlines_aux_line by exact Hl.
  cbn [append app]. now rewrite IH.
Qed.

Lemma builder_run_subprocess {F : Type} (W : Builder.World F)
  (command : list string) (ex_type : string -> Builder.error)
  (s : Builder.State F) rc out err f :
  Builder.exec W command (Builder.store s) = ((rc, out, err), f) ->
  Builder.run_subprocess W command ex_type s =
  (if Z.eqb rc 0 then Builder.Done (rc, out)
   else Builder.Fail (ex_type err),
   Builder.mkState f (Builder.ran s ++ [command]) (Builder.printed s)).
Proof.
  intros He. unfold Builder.run_subprocess. rewrite He.
  destruct (Z.eqb rc 0); reflexivity.
Qed.

Lemma builder_list_packages_outcome {F : Type} (W : Builder.World F)
  (executable : string) (s : Builder.State F) rc out err f :
  Builder.exec W [executable; "-m"; "pip"; "list"; "--format=freeze"]
               (Builder.store s) = ((rc, out, err), f) ->
  Builder.list_packages W executable s =
  (if Z.eqb rc 0 then Builder.Done (splitlines out)
   else Builder.Fail (Builder.default_ex_type W err),
   Builder.mkState f
     (Builder.ran s ++ [[executable; "-m"; "pip"; "list"; "--format=freeze"]])
     (Builder.printed s)).
Proof.
  intros He. unfold Builder.list_packages, Builder.bind.
  rewrite (builder_run_subprocess W _ _ s rc out err f He).
  destruct (Z.eqb rc 0); reflexivity.
Qed.

(** X20. [VenvBuilder.list] gives back the lines pip printed: for an output
    of lines free of line boundaries, each ended by a newline, followed or
    not by a last line without one, the result is those lines in order,
    the empty ones included, and the one command run is the freeze listing
    of the given interpreter. *)
Theorem builder_list_round_trip {F : Type} (W : Builder.World F)
  (executable : string) (pkgs : list string) (open_line err : string)
  (s : Builder.State F) (f : F) :
  Forall (fun l => no_linebreak l = true) pkgs ->
  no_linebreak open_line = true ->
  Builder.exec W [executable; "-m"; "pip"; "list"; "--format=freeze"]
               (Builder.store s)
  = ((0%Z, (unlines pkgs ++ open_line)%string, err), f) ->
  Builder.list_packages W executable s =
  (Builder.Done (pkgs ++ match open_line with
                         | EmptyString => []
                         | _ => [open_line]
                         end),
   Builder.mkState f
     (Builder.ran s ++ [[executable; "-m"; "pip"; "list"; "--format=freeze"]])
     (Builder.printed s)).
Proof.
  intros Hp Ho He.
  rewrite (builder_list_packages_outcome W executable s _ _ _ _ He).
  cbn [Z.eqb]. unfold splitlines.
  rewrite (splitlines_unlines_all pkgs open_line Hp).
  rewrite (splitlines_aux_open open_line Ho ""). reflexivity.
Qed.

(** X20 at a freeze listing of two packages with an empty line between. *)
Lemma builder_list_round_trip_witness :
  Builder.list_packages
    (Builder.scripted (0%Z, "", "") (0%Z, "", "")
       (unlines ["pip==21.2.4"; ""; "setuptools==57.4.0"] ++ ""))
    "/home/user/venv/bin/python" Builder.start =
  (Builder.Done (["pip==21.2.4"; ""; "setuptools==57.4.0"] ++ []),
   Builder.mkState tt
     (Builder.ran Builder.start
      ++ [["/home/user/venv/bin/python"; "-m"; "pip"; "list";
           "--format=freeze"]])
     (Builder.printed Builder.start)).
Proof.
  apply (builder_list_round_trip
           (Builder.scripted (0%Z, "", "") (0%Z, "", "")
              (unlines ["pip==21.2.4"; ""; "setuptools==57.4.0"] ++ ""))
           "/home/user/venv/bin/python"
           ["pip==21.2.4"; ""; "setuptools==57.4.0"] "" "" Builder.start tt).
  - repeat constructor.
  - reflexivity.
  - reflexivity.
Defined.

(** X21. When pip exits with a non-zero status during [install], the error
    stream is raised as a [BuilderError], marked as failed on the output;
    the install command is the only one that ran: the packages are not
    listed again and the spec is not updated. *)
Theorem builder_install_failure {F : Type} (W : Builder.World F)
  (self : Builder.VenvBuilder) (spec : Builder.PythonSpec)
  (packages : option (list string)) (requirements_file : option string)
  (pip_options : option (list string)) (s : Builder.State F)
  (rc : Z) (out err : string) (f : F) :
  let command :=
    Builder.install_command W self (Builder.spec_executable spec) packages
                            requirements_file pip_options in
  Builder.exec W command (Builder.store s) = ((rc, out, err), f) ->
  rc <> 0%Z ->
  Builder.install W self spec packages requirements_file pip_options s =
  (Builder.Fail (Builder.BuilderError err),
   Builder.mkState f (Builder.ran s ++ [command])
     (Builder.printed s
      ++ [Builder.pip_opening "install" (Builder.spec_root spec) packages
                              requirements_file;
          ("failed." ++ nl)%string])).
Proof.
  intros command He Hrc. unfold Builder.install. fold command.
  unfold Builder.bind at 1.
  edestruct (builder_pip_context_outcome W "install" (Builder.spec_root spec)
               packages requirements_file
               (Builder.bind
                  (Builder.run_subprocess W command Builder.BuilderError)
                  (fun _ => Builder.ret tt)) s) as (texts & E & Ht).
  { unfold Builder.bind.
    rewrite (builder_run_subprocess W command _ _ rc out err f);
      [|exact He].
    destruct (Z.eqb_spec rc 0); [contradiction|]. reflexivity. }
  rewrite E. cbn beta iota in Ht. subst texts.
  cbn [Builder.store Builder.ran Builder.printed].
  rewrite <- app_assoc. reflexivity.
Qed.

(** X21 at a pip that finds no matching distribution. *)
Lemma builder_install_failure_witness :
  Builder.install
    (Builder.scripted (1%Z, "", "ERROR: No matching distribution found")
                      (0%Z, "", "") "")
    (Builder.init "" "" "--no-cache-dir" "") Builder.example_spec
    (Some ["nosuchpkg"]) None None Builder.start =
  (Builder.Fail (Builder.BuilderError "ERROR: No matching distribution found"),
   Builder.mkState tt
     (Builder.ran Builder.start
      ++ [Builder.install_command
            (Builder.scripted
               (1%Z, "", "ERROR: No matching distribution found")
               (0%Z, "", "") "")
            (Builder.init "" "" "--no-cache-dir" "")
            (Builder.spec_executable Builder.example_spec)
            (Some ["nosuchpkg"]) None None])
     (Builder.printed Builder.start
      ++ [Builder.pip_opening "install"
            (Builder.spec_root Builder.example_spec) (Some ["nosuchpkg"]) None;
          ("failed." ++ nl)%string])).
Proof.
  apply (builder_install_failure
           (Builder.scripted (1%Z, "", "ERROR: No matching distribution found")
                             (0%Z, "", "") "")
           (Builder.init "" "" "--no-cache-dir" "") Builder.example_spec
           (Some ["nosuchpkg"]) None None Builder.start 1%Z ""
           "ERROR: No matching distribution found" tt).
  - reflexivity.
  - discriminate.
Defined.

(** X22. When pip exits with a non-zero status during [uninstall], what is
    raised is the exception [run_subprocess] raises when no type is asked
    for, not a [BuilderError] as in [install]; the uninstall command is the
    only one that ran, and the failure is marked on the output only if that
    exception happens to be a [BuilderError]. *)
Theorem builder_uninstall_failure {F : Type} (W : Builder.World F)
  (self : Builder.VenvBuilder) (spec : Builder.PythonSpec)
  (packages : list string) (requirements_file : option string)
  (pip_options : option (list string)) (s : Builder.State F)
  (rc : Z) (out err : string) (f : F) :
  let command :=
    Builder.uninstall_command W self (Builder.spec_executable spec) packages
                              pip_options in
  Builder.exec W command (Builder.store s) = ((rc, out, err), f) ->
  rc <> 0%Z ->
  Builder.uninstall W self spec packages requirements_file pip_options s =
  (Builder.Fail (Builder.default_ex_type W err),
   Builder.mkState f (Builder.ran s ++ [command])
     (Builder.printed s
      ++ Builder.pip_opening "uninstall" (Builder.spec_root spec)
                             (Some packages) None
      :: match Builder.default_ex_type W err with
         | Builder.BuilderError _ => [("failed." ++ nl)%string]
         | Builder.OtherError _ => []
         end)).
Proof.
  intros command He Hrc. unfold Builder.uninstall. fold command.
  unfold Builder.bind at 1.
  edestruct (builder_pip_context_outcome W "uninstall"
               (Builder.spec_root spec) (Some packages) None
               (Builder.bind
                  (Builder.run_subprocess W command
                                          (Builder.default_ex_type W))
                  (fun _ => Builder.ret tt)) s) as (texts & E & Ht).
  { unfold Builder.bind.
    rewrite (builder_run_subprocess W command _ _ rc out err f);
      [|exact He].
    destruct (Z.eqb_spec rc 0); [contradiction|]. reflexivity. }
  rewrite E. cbn beta iota in Ht.
  cbn [Builder.store Builder.ran Builder.printed].
  destruct (Builder.default_ex_type W err); subst texts;
    rewrite <- app_assoc; reflexivity.
Qed.

(** X22 at a pip that refuses, under a default exception type that is no
    [BuilderError]. *)
Lemma builder_uninstall_failure_witness :
  Builder.uninstall
    (Builder.scripted (0%Z, "", "") (2%Z, "", "ERROR: Permission denied") "")
    (Builder.init "" "" "" "") Builder.example_spec ["numpy"] None None
    Builder.start =
  (Builder.Fail (Builder.OtherError "ERROR: Permission denied"),
   Builder.mkState tt
     (Builder.ran Builder.start
      ++ [Builder.uninstall_command
            (Builder.scripted (0%Z, "", "")
                              (2%Z, "", "ERROR: Permission denied") "")
            (Builder.init "" "" "" "")
            (Builder.spec_executable Builder.example_spec) ["numpy"] None])
     (Builder.printed Builder.start
      ++ Builder.pip_opening "uninstall"
           (Builder.spec_root Builder.example_spec) (Some ["numpy"]) None
      :: [])).
Proof.
  apply (builder_uninstall_failure
           (Builder.scripted (0%Z, "", "")
                             (2%Z, "", "ERROR: Permission denied") "")
           (Builder.init "" "" "" "") Builder.example_spec ["numpy"] None None
           Builder.start 2%Z "" "ERROR: Permission denied" tt).
  - reflexivity.
  - discriminate.
Defined.

(** X23. A successful [install] runs two commands, the install command
    and then the freeze listing of the same interpreter in the store the
    first one left, and returns the spec updated with the lines of that
    listing. *)
Theorem builder_install_success {F : Type} (W : Builder.World F)
  (self : Builder.VenvBuilder) (spec : Builder.PythonSpec)
  (packages : option (list string)) (requirements_file : option string)
  (pip_options : option (list string)) (s : Builder.State F)
  (out err err' : string) (pkgs : list string) (f1 f2 : F) :
  let command :=
    Builder.install_command W self (Builder.spec_executable spec) packages
                            requirements_file pip_options in
  let listing :=
    [Builder.spec_executable spec; "-m"; "pip"; "list"; "--format=freeze"] in
  Builder.exec W command (Builder.store s) = ((0%Z, out, err), f1) ->
  Builder.exec W listing f1 = ((0%Z, unlines pkgs, err'), f2) ->
  Forall (fun l => no_linebreak l = true) pkgs ->
  exists success,
    Builder.install W self spec packages requirements_file pip_options s =
    (Builder.Done (Builder.update_packages W spec pkgs),
     Builder.mkState f2 (Builder.ran s ++ [command; listing])
       (Builder.printed s
        ++ [Builder.pip_opening "install" (Builder.spec_root spec) packages
                                requirements_file;
            ("done." ++ nl)%string; success])).
Proof.
  intros command listing He Hl Hp. unfold Builder.install. fold command.
  unfold Builder.bind at 1.
  edestruct (builder_pip_context_outcome W "install" (Builder.spec_root spec)
               packages requirements_file
               (Builder.bind
                  (Builder.run_subprocess W command Builder.BuilderError)
                  (fun _ => Builder.ret tt)) s) as (texts & E & Ht).
  { unfold Builder.bind.
    rewrite (builder_run_subprocess W command _ _ 0%Z out err f1);
      [|exact He].
    reflexivity. }
  rewrite E. cbn beta iota in Ht. destruct Ht as (success & ->).
  exists success. unfold Builder.bind.
  rewrite (builder_list_packages_outcome W _ _ 0%Z (unlines pkgs) err' f2);
    [|exact Hl].
  cbn [Z.eqb Builder.store Builder.ran Builder.printed]. unfold Builder.ret.
  unfold splitlines.
  pose proof (splitlines_unlines_all pkgs "" Hp) as Es.
  rewrite append_nil_r in Es. rewrite Es. cbn [splitlines_aux].
  rewrite app_nil_r, <- !app_assoc. reflexivity.
Qed.

(** X23 at an install of one package into an environment that had pip
    alone. *)
Lemma builder_install_success_witness :
  exists success,
    Builder.install
      (Builder.scripted (0%Z, "Successfully installed numpy-1.21.2", "")
                        (0%Z, "", "")
                        (unlines ["numpy==1.21.2"; "pip==21.2.4"]))
      (Builder.init "" "" "" "") Builder.example_spec (Some ["numpy"]) None
      None Builder.start =
    (Builder.Done
       (Builder.update_packages
          (Builder.scripted (0%Z, "Successfully installed numpy-1.21.2", "")
                            (0%Z, "", "")
                            (unlines ["numpy==1.21.2"; "pip==21.2.4"]))
          Builder.example_spec ["numpy==1.21.2"; "pip==21.2.4"]),
     Builder.mkState tt
       (Builder.ran Builder.start
        ++ [Builder.install_command
              (Builder.scripted
                 (0%Z, "Successfully installed numpy-1.21.2", "")
                 (0%Z, "", "")
                 (unlines ["numpy==1.21.2"; "pip==21.2.4"]))
              (Builder.init "" "" "" "")
              (Builder.spec_executable Builder.example_spec)
              (Some ["numpy"]) None None;
            [Builder.spec_executable Builder.example_spec; "-m"; "pip";
             "list"; "--format=freeze"]])
       (Builder.printed Builder.start
        ++ [Builder.pip_opening "install"
              (Builder.spec_root Builder.example_spec) (Some ["numpy"]) None;
            ("done." ++ nl)%string; success])).
Proof.
  apply (builder_install_success
           (Builder.scripted (0%Z, "Successfully installed numpy-1.21.2", "")
                             (0%Z, "", "")
                             (unlines ["numpy==1.21.2"; "pip==21.2.4"]))
           (Builder.init "" "" "" "") Builder.example_spec (Some ["numpy"])
           None None Builder.start "Successfully installed numpy-1.21.2" ""
           "" ["numpy==1.21.2"; "pip==21.2.4"] tt tt).
  - reflexivity.
  - reflexivity.
  - repeat constructor.
Defined.
